(** * CMS: identity, access control and record provisioning

    A shallow embedding of the server side of the CMS application:
    [lib/database.ts] (the SQLite-backed record store), [lib/auth.ts]
    (credential check, session token, request authentication) and the
    two API routes [app/api/employees/route.ts] and
    [app/api/customers/route.ts].

    The store is an explicit value threaded through every operation; a
    promise that rejects is a [Rejected] result; a route handler maps a
    store and a request to a store and a response. *)

From Stdlib Require Import ZArith List Ascii String Lia Bool Sorted.
From stdpp Require Import base decidable option list strings gmap pretty.

Local Open Scope Z_scope.
Local Open Scope string_scope.

(** ** JavaScript primitives used by the sources *)

Module Js.

(** [!s] for a string operand: only the empty string is falsy. *)
Definition falsy_string (s : string) : bool :=
  match s with EmptyString => true | String _ _ => false end.

(** [!v] for a value that is either absent ([undefined]) or a string. *)
Definition falsy (v : option string) : bool :=
  match v with None => true | Some s => falsy_string s end.

(** A JSON scalar: a string, a number (an integer here), a boolean or
    [null]. *)
Inductive Value :=
| VString (s : string)
| VNumber (n : Z)
| VBool (b : bool)
| VNull.

(** [!v] for a JSON scalar: the empty string, 0, [false] and [null]
    are falsy. *)
Definition falsy_value (v : Value) : bool :=
  match v with
  | VString s => falsy_string s
  | VNumber n => bool_decide (n = 0)
  | VBool b => negb b
  | VNull => true
  end.

(** [!v] for a member that is absent ([undefined]) or a JSON scalar. *)
Definition falsy_json (v : option Value) : bool :=
  match v with None => true | Some v => falsy_value v end.

(** [v.length < n] for a truthy scalar: a string has its length; a
    number and a boolean have no [length], and [undefined < n] is
    false. ([null] has no members at all; it is falsy, and the
    sources test [!v] first.) *)
Definition length_lt (v : Value) (n : nat) : bool :=
  match v with
  | VString s => (String.length s <? n)%nat
  | _ => false
  end.

(** [a || b] on strings. *)
Definition or_else (v : option string) (d : string) : string :=
  match v with
  | None => d
  | Some s => if falsy_string s then d else s
  end.

(** White space as [String.prototype.trim] and [parseInt] see it, for
    strings whose characters are single bytes: TAB, LF, VT, FF, CR,
    SP and NBSP. *)
Definition is_white_space (a : ascii) : bool :=
  let n := N_of_ascii a in
  ((n =? 9) || (n =? 10) || (n =? 11) || (n =? 12) || (n =? 13)
   || (n =? 32) || (n =? 160))%N.

Fixpoint trimStart (s : string) : string :=
  match s with
  | EmptyString => EmptyString
  | String a s' => if is_white_space a then trimStart s' else s
  end.

Definition trimEnd (s : string) : string :=
  String.rev (trimStart (String.rev s)).

Definition trim (s : string) : string := trimEnd (trimStart s).

(** [s.split(sep)] for a one-character separator: never the empty
    list, [''.split(sep)] is [['']]. *)
Fixpoint split (sep : ascii) (s : string) : list string :=
  match s with
  | EmptyString => [EmptyString]
  | String a s' =>
      if Ascii.eqb a sep then EmptyString :: split sep s'
      else match split sep s' with
           | [] => [String a EmptyString]
           | w :: ws => String a w :: ws
           end
  end.

(** [n.toString()] for an integer. *)
Definition toString (n : Z) : string := pretty n.

Fixpoint repeat_char (a : ascii) (n : nat) : string :=
  match n with
  | O => EmptyString
  | S n' => String a (repeat_char a n')
  end.

(** [s.padStart(width, fill)] for a one-character [fill]. *)
Definition padStart (width : nat) (fill : ascii) (s : string) : string :=
  repeat_char fill (width - String.length s) +:+ s.

(** The value of a digit in the given radix (10 or 16). *)
Definition digit_value (radix : Z) (a : ascii) : option Z :=
  let n := Z.of_N (N_of_ascii a) in
  let v :=
    if ((48 <=? n) && (n <=? 57))%Z then Some (n - 48)
    else if ((97 <=? n) && (n <=? 122))%Z then Some (n - 87)
    else if ((65 <=? n) && (n <=? 90))%Z then Some (n - 55)
    else None in
  match v with
  | Some d => if (d <? radix)%Z then Some d else None
  | None => None
  end.

(** The longest prefix of digits, most significant first; [None]
    when there is no digit at all. *)
Fixpoint parse_digits (radix : Z) (s : string) (acc : option Z) : option Z :=
  match s with
  | EmptyString => acc
  | String a s' =>
      match digit_value radix a with
      | Some d => parse_digits radix s' (Some (default 0 acc * radix + d))
      | None => acc
      end
  end.

(** [parseInt(s)] with no radix argument; [None] is [NaN]. The result
    is the number the digits write. JavaScript rounds it to a double,
    which is the same number up to 2^53. *)
Definition parseInt (s : string) : option Z :=
  let s1 := trimStart s in
  let '(neg, s2) :=
    match s1 with
    | String "-" r => (true, r)
    | String "+" r => (false, r)
    | _ => (false, s1)
    end in
  let '(radix, s3) :=
    match s2 with
    | String "0" (String "x" r) => (16, r)
    | String "0" (String "X" r) => (16, r)
    | _ => (10, s2)
    end in
  match parse_digits radix s3 None with
  | Some n => Some (if neg : bool then - n else n)
  | None => None
  end.

(** The Number a JSON integer literal denotes: the nearest double,
    a tie going to the even significand; up to 2^53 the integer
    itself. [None] is [Infinity] or [-Infinity]. *)
Definition to_Number (n : Z) : option Z :=
  let a := Z.abs n in
  if (a <? 2 ^ 53)%Z then Some n
  else
    let k := Z.log2 a - 52 in
    let q := a / 2 ^ k in
    let r := a mod 2 ^ k in
    let half := 2 ^ (k - 1) in
    let q' :=
      if (r <? half)%Z then q
      else if (half <? r)%Z then q + 1
      else if Z.even q then q else q + 1 in
    if (2 ^ 1024 <=? q' * 2 ^ k)%Z then None
    else Some (Z.sgn n * (q' * 2 ^ k)).

(** The first digit of [String(a)] for a Number [a] from 1e21 on,
    where [String] writes the exponent notation [d.ddde+N] of the
    shortest decimal that reads back as [a]. That decimal lies within
    half a unit in the last place of [a]: it starts with the first
    digit of [a], unless the next multiple of the leading power of
    ten is that close, and then it is that multiple. *)
Definition exponent_digit (a : Z) : Z :=
  let q := Z.of_nat (String.length (pretty a)) - 1 in
  let c := a / 10 ^ q in
  let up := (c + 1) * 10 ^ q in
  let k := Z.log2 a - 52 in
  let half := 2 ^ (k - 1) in
  if (up - a <? half)%Z || ((up - a =? half)%Z && Z.even (a / 2 ^ k))
  then (if (c + 1 =? 10)%Z then 1 else c + 1)
  else c.

(** [parseInt(x)] for a Number [x] with an integer value:
    [parseInt(String(x))]. Below 1e21 [String(x)] is decimal digits
    that read back as [x]; from 1e21 on [parseInt] stops at the '.'
    or the 'e' after the first digit. *)
Definition parseInt_Number (x : Z) : option Z :=
  if (Z.abs x <? 10 ^ 21)%Z then Some x
  else Some (Z.sgn x * exponent_digit (Z.abs x)).

End Js.

Coercion Js.VString : string >-> Js.Value.

(** ** Data model ([lib/database.ts]) *)

(** A row of the [employees] table. [password] holds the bcrypt hash.
    [createdAt] is optional as in the interface: stored rows carry the
    column default, objects built by [createEmployee] do not. *)
Module Emp.
Record Employee := mk {
  id : Z;
  employeeCode : string;
  firstname : string;
  lastname : string;
  mobile : string;
  dateOfBirth : string;
  email : string;
  password : string;
  role : string;
  createdAt : option string
}.
End Emp.

(** A row of the [customers] table; [createdBy] is [number | null]. *)
Module Cust.
Record Customer := mk {
  id : Z;
  customerCode : string;
  firstname : string;
  lastname : string;
  mobile : string;
  dateOfBirth : string;
  email : string;
  createdBy : option Z;
  createdAt : option string
}.
End Cust.

(** [Omit<Employee, 'id' | 'employeeCode'>], the argument of
    [createEmployee]. [password] is whatever the request body held:
    the interface says [string], nothing checks it before bcrypt
    does. *)
Module NewEmp.
Record t := mk {
  firstname : string;
  lastname : string;
  mobile : string;
  dateOfBirth : string;
  email : string;
  password : Js.Value;
  role : string
}.
End NewEmp.

(** [Omit<Customer, 'id' | 'customerCode'>] as [createCustomer] reads
    it (the owner comes in the second argument). *)
Module NewCust.
Record t := mk {
  firstname : string;
  lastname : string;
  mobile : string;
  dateOfBirth : string;
  email : string
}.
End NewCust.

(** [Partial<Omit<Employee, 'id' | 'employeeCode' | 'password'>>]: a
    field is [None] when its key is absent or its value [undefined]. *)
Module EmpUpd.
Record t := mk {
  firstname : option string;
  lastname : option string;
  mobile : option string;
  dateOfBirth : option string;
  email : option string;
  role : option string;
  createdAt : option string
}.
End EmpUpd.

(** [Partial<Omit<Customer, 'id' | 'customerCode'>>]; a present
    [createdBy] carries the new value, [null] included. *)
Module CustUpd.
Record t := mk {
  firstname : option string;
  lastname : option string;
  mobile : option string;
  dateOfBirth : option string;
  email : option string;
  createdBy : option (option Z);
  createdAt : option string
}.
End CustUpd.

(** The SQLite file: both tables in insertion order, the AUTOINCREMENT
    sequence of each (the largest row id ever handed out), and the
    clock reading behind [CURRENT_TIMESTAMP]. The FOREIGN KEY clause of
    [customers.createdBy] is not enforced: the connection never turns
    [PRAGMA foreign_keys] on. *)
Record Database := mkDatabase {
  employees : list Emp.Employee;
  employees_seq : Z;
  customers : list Cust.Customer;
  customers_seq : Z;
  CURRENT_TIMESTAMP : string
}.

(** What a promise is rejected with: a constraint failure reported by
    SQLite, or the [Error('Illegal arguments: ...')] of bcryptjs. *)
Inductive JsError :=
| SQLITE_CONSTRAINT (detail : string)
| Illegal_arguments.

(** The outcome of a promise. *)
Inductive Promise (A : Type) :=
| Resolved (a : A)
| Rejected (err : JsError).
Arguments Resolved {A} a.
Arguments Rejected {A} err.

(** The decoded session token: what [jwt.sign] is given in
    [authenticateUser] and what [jwt.verify] gives back. *)
Module Tok.
Record Payload := mk {
  employeeCode : string;
  email : string;
  id : Z;
  role : string
}.
End Tok.

(** The two libraries the sources call and the process environment.
    [bcrypt_hash p rounds] stands for [bcrypt.hash(p, rounds)] and
    [bcrypt.hashSync(p, rounds)] on a string [p], and
    [bcrypt_compare p h] for [bcrypt.compare(p, h)] on strings (what
    bcryptjs does with anything else is [bcrypt_hash_async] and
    [bcrypt_compare_async] below); [jwt_sign payload secret] for
    [jwt.sign(payload, secret, { expiresIn: '24h' })], and
    [jwt_verify token secret] for [jwt.verify(token, secret)] at the
    time of the request, [None] when it throws. *)
Class Externals := {
  bcrypt_hash : string -> Z -> string;
  bcrypt_compare : string -> string -> bool;
  jwt_sign : Tok.Payload -> string -> string;
  jwt_verify : string -> string -> option Tok.Payload;
  JWT_SECRET : string
}.

(** An employee as it leaves the server: no [password]. [createdAt] is
    present only where the source keeps it ([authenticateUser]). *)
Module EmpView.
Record t := mk {
  id : Z;
  employeeCode : string;
  firstname : string;
  lastname : string;
  mobile : string;
  dateOfBirth : string;
  email : string;
  role : string;
  createdAt : option string
}.
End EmpView.

(** The customer object the POST and PUT handlers answer with. *)
Module CustView.
Record t := mk {
  id : Z;
  customerCode : string;
  firstname : string;
  lastname : string;
  mobile : string;
  dateOfBirth : string;
  email : string
}.
End CustView.

(** ** SQL building blocks *)

(** [ORDER BY id DESC]. *)
Fixpoint insert_desc {A : Type} (key : A -> Z) (x : A) (l : list A) : list A :=
  match l with
  | [] => [x]
  | y :: l' => if (key y <? key x)%Z then x :: l else y :: insert_desc key x l'
  end.

Definition order_by_desc {A : Type} (key : A -> Z) (l : list A) : list A :=
  foldr (insert_desc key) [] l.

(** [WHERE id = ?] with a JavaScript number bound to the parameter: an
    integer, or [NaN] ([None]), which is bound as NULL and equals no
    row id. *)
Definition id_is (i : option Z) (row_id : Z) : bool :=
  bool_decide (i = Some row_id).

(** A column after an UPDATE: the bound value when the key is in the
    SET clause, the old value otherwise. *)
Definition set_col {A : Type} (new : option A) (old : A) : A :=
  match new with Some v => v | None => old end.

(** One key of [Object.keys(updates).filter(key => updates[key] !==
    undefined)]. *)
Definition key_if_defined {A : Type} (key : string) (v : option A) : list string :=
  match v with Some _ => [key] | None => [] end.

(** ** [class Database] *)

Section Store.
Context `{Externals}.

Definition empty_db (clock : string) : Database :=
  mkDatabase [] 0 [] 0 clock.

(** [bcrypt.hash(s, rounds)] and [bcrypt.compare(s, hash)] as
    promises: bcryptjs looks at [typeof s] first and rejects with
    [Error('Illegal arguments: ...')] when [s] is not a string. *)
Definition bcrypt_hash_async (s : Js.Value) (rounds : Z) : Promise string :=
  match s with
  | Js.VString p => Resolved (bcrypt_hash p rounds)
  | _ => Rejected Illegal_arguments
  end.

Definition bcrypt_compare_async (s : Js.Value) (hash : string) : Promise bool :=
  match s with
  | Js.VString p => Resolved (bcrypt_compare p hash)
  | _ => Rejected Illegal_arguments
  end.

(** [hashPassword] of [lib/auth.ts], which [createEmployee] and
    [updateEmployeePassword] call. *)
Definition hashPassword (password : Js.Value) : Promise string :=
  let saltRounds := 10 in
  bcrypt_hash_async password saltRounds.

(** [INSERT INTO employees (...)]: the UNIQUE constraints on
    [employeeCode] and [email] reject the row, otherwise it gets the
    next AUTOINCREMENT id. The answer is [this.lastID]. When both
    constraints fail SQLite names the one on [email]. *)
Definition insert_employee (db : Database)
    (code fn ln mob dob mail hashed rl : string) : Database * Promise Z :=
  if existsb (fun e => bool_decide (Emp.email e = mail)) (employees db)
  then (db, Rejected (SQLITE_CONSTRAINT "UNIQUE constraint failed: employees.email"))
  else if existsb (fun e => bool_decide (Emp.employeeCode e = code)) (employees db)
  then (db, Rejected (SQLITE_CONSTRAINT "UNIQUE constraint failed: employees.employeeCode"))
  else
    let lastID := employees_seq db + 1 in
    let row := Emp.mk lastID code fn ln mob dob mail hashed rl
                      (Some (CURRENT_TIMESTAMP db)) in
    (mkDatabase (employees db ++ [row]) lastID
                (customers db) (customers_seq db) (CURRENT_TIMESTAMP db),
     Resolved lastID).

(** [initTables], with each statement completing before the next one
    starts: both CREATE TABLE IF NOT EXISTS statements leave an
    existing store as it is, and the default admin is inserted when
    no row has the code ADMIN001. The INSERT is given no callback:
    when it fails the store is as before (node-sqlite3 then emits an
    ['error'] event, which has no listener and is raised as an
    uncaught exception; what becomes of the process is outside the
    store).

    The source does not ask for that order: it never calls
    [db.serialize()], so on a new file the SELECT and the INSERT can
    run before CREATE TABLE has finished, and the start then ends
    with both tables and no admin row. [first_start] lists both
    ends. *)
Definition initTables (db : Database) : Database :=
  if existsb (fun e => bool_decide (Emp.employeeCode e = "ADMIN001")) (employees db)
  then db
  else fst (insert_employee db "ADMIN001" "Admin" "User" "1234567890"
              "1990-01-01" "admin@cms.com" (bcrypt_hash "admin123" 10) "admin").

(** The stores the start on a new file can end with. *)
Definition first_start (clock : string) : list Database :=
  [initTables (empty_db clock); empty_db clock].

Definition generateUniqueEmployeeCode (db : Database) : string :=
  let count := Z.of_nat (length (employees db)) + 1 in
  "EMP" +:+ Js.padStart 3 "0" (Js.toString count).

Definition generateUniqueCustomerCode (db : Database) : string :=
  let count := Z.of_nat (length (customers db)) + 1 in
  "CUST" +:+ Js.padStart 3 "0" (Js.toString count).

Definition createEmployee (db : Database) (employee : NewEmp.t)
    : Database * Promise Emp.Employee :=
  let employeeCode := generateUniqueEmployeeCode db in
  match hashPassword (NewEmp.password employee) with
  | Rejected err => (db, Rejected err)
  | Resolved hashedPassword =>
      let rl := Js.or_else (Some (NewEmp.role employee)) "user" in
      match insert_employee db employeeCode
              (NewEmp.firstname employee) (NewEmp.lastname employee)
              (NewEmp.mobile employee) (NewEmp.dateOfBirth employee)
              (NewEmp.email employee) hashedPassword rl with
      | (db', Rejected err) => (db', Rejected err)
      | (db', Resolved lastID) =>
          (db', Resolved (Emp.mk lastID employeeCode
                            (NewEmp.firstname employee) (NewEmp.lastname employee)
                            (NewEmp.mobile employee) (NewEmp.dateOfBirth employee)
                            (NewEmp.email employee) hashedPassword rl None))
      end
  end.

Definition getEmployeeByCode (db : Database) (employeeCode : string)
    : option Emp.Employee :=
  find (fun e => bool_decide (Emp.employeeCode e = employeeCode)) (employees db).

Definition getEmployeeById (db : Database) (id : option Z) : option Emp.Employee :=
  find (fun e => id_is id (Emp.id e)) (employees db).

Definition employee_columns (e : Emp.Employee) : EmpView.t :=
  EmpView.mk (Emp.id e) (Emp.employeeCode e) (Emp.firstname e) (Emp.lastname e)
             (Emp.mobile e) (Emp.dateOfBirth e) (Emp.email e) (Emp.role e) None.

Definition getAllEmployees (db : Database) : list EmpView.t :=
  employee_columns <$> order_by_desc Emp.id (employees db).

Definition getEmployeesByRole (db : Database) (role : string) : list EmpView.t :=
  employee_columns <$>
    order_by_desc Emp.id
      (filter (fun e => Emp.role e = role) (employees db)).

(** The keys of [updates] whose value is not [undefined]. *)
Definition employee_fields (updates : EmpUpd.t) : list string :=
  key_if_defined "firstname" (EmpUpd.firstname updates)
  ++ key_if_defined "lastname" (EmpUpd.lastname updates)
  ++ key_if_defined "mobile" (EmpUpd.mobile updates)
  ++ key_if_defined "dateOfBirth" (EmpUpd.dateOfBirth updates)
  ++ key_if_defined "email" (EmpUpd.email updates)
  ++ key_if_defined "role" (EmpUpd.role updates)
  ++ key_if_defined "createdAt" (EmpUpd.createdAt updates).

Definition set_employee (updates : EmpUpd.t) (e : Emp.Employee) : Emp.Employee :=
  Emp.mk (Emp.id e) (Emp.employeeCode e)
         (set_col (EmpUpd.firstname updates) (Emp.firstname e))
         (set_col (EmpUpd.lastname updates) (Emp.lastname e))
         (set_col (EmpUpd.mobile updates) (Emp.mobile e))
         (set_col (EmpUpd.dateOfBirth updates) (Emp.dateOfBirth e))
         (set_col (EmpUpd.email updates) (Emp.email e))
         (Emp.password e)
         (set_col (EmpUpd.role updates) (Emp.role e))
         (match EmpUpd.createdAt updates with
          | Some v => Some v
          | None => Emp.createdAt e
          end).

(** Does the UPDATE put into [email] a value another row holds? *)
Definition employee_email_conflict (db : Database) (id : option Z)
    (updates : EmpUpd.t) : bool :=
  match EmpUpd.email updates with
  | None => false
  | Some v =>
      existsb (fun e => negb (id_is id (Emp.id e)) && bool_decide (Emp.email e = v))
              (employees db)
  end.

(** [UPDATE employees SET ... WHERE id = ?]; the answer is
    [this.changes]. *)
Definition update_employees (db : Database) (id : option Z) (updates : EmpUpd.t)
    : Database * Promise Z :=
  if existsb (fun e => id_is id (Emp.id e)) (employees db) then
    if employee_email_conflict db id updates
    then (db, Rejected (SQLITE_CONSTRAINT "UNIQUE constraint failed: employees.email"))
    else
      (mkDatabase
         ((fun e => if id_is id (Emp.id e) then set_employee updates e else e)
            <$> employees db)
         (employees_seq db) (customers db) (customers_seq db)
         (CURRENT_TIMESTAMP db),
       Resolved (Z.of_nat (length (filter (fun e => id_is id (Emp.id e) = true)
                                          (employees db)))))
  else (db, Resolved 0).

Definition updateEmployee (db : Database) (id : option Z) (updates : EmpUpd.t)
    : Database * Promise (option Emp.Employee) :=
  let fields := employee_fields updates in
  if bool_decide (length fields = 0%nat) then (db, Resolved None)
  else
    match update_employees db id updates with
    | (db', Rejected err) => (db', Rejected err)
    | (db', Resolved changes) =>
        if (0 <? changes)%Z then (db', Resolved (getEmployeeById db' id))
        else (db', Resolved None)
    end.

Definition updateEmployeePassword (db : Database) (id : option Z)
    (newPassword : Js.Value) : Database * Promise bool :=
  match hashPassword newPassword with
  | Rejected err => (db, Rejected err)
  | Resolved hashedPassword =>
      let hit := filter (fun e => id_is id (Emp.id e) = true) (employees db) in
      (mkDatabase
         ((fun e => if id_is id (Emp.id e)
                    then Emp.mk (Emp.id e) (Emp.employeeCode e) (Emp.firstname e)
                                (Emp.lastname e) (Emp.mobile e) (Emp.dateOfBirth e)
                                (Emp.email e) hashedPassword (Emp.role e)
                                (Emp.createdAt e)
                    else e) <$> employees db)
         (employees_seq db) (customers db) (customers_seq db)
         (CURRENT_TIMESTAMP db),
       Resolved (0 <? Z.of_nat (length hit))%Z)
  end.

Definition deleteEmployee (db : Database) (id : option Z) : Database * Promise bool :=
  let hit := filter (fun e => id_is id (Emp.id e) = true) (employees db) in
  (mkDatabase
     (filter (fun e => id_is id (Emp.id e) = false) (employees db))
     (employees_seq db) (customers db) (customers_seq db) (CURRENT_TIMESTAMP db),
   Resolved (0 <? Z.of_nat (length hit))%Z).

(** [INSERT INTO customers (...)]: UNIQUE on [customerCode] and on
    [email]; when both fail SQLite names the one on [email]. *)
Definition insert_customer (db : Database)
    (code fn ln mob dob mail : string) (owner : option Z) : Database * Promise Z :=
  if existsb (fun c => bool_decide (Cust.email c = mail)) (customers db)
  then (db, Rejected (SQLITE_CONSTRAINT "UNIQUE constraint failed: customers.email"))
  else if existsb (fun c => bool_decide (Cust.customerCode c = code)) (customers db)
  then (db, Rejected (SQLITE_CONSTRAINT "UNIQUE constraint failed: customers.customerCode"))
  else
    let lastID := customers_seq db + 1 in
    let row := Cust.mk lastID code fn ln mob dob mail owner
                       (Some (CURRENT_TIMESTAMP db)) in
    (mkDatabase (employees db) (employees_seq db)
                (customers db ++ [row]) lastID (CURRENT_TIMESTAMP db),
     Resolved lastID).

(** [createdBy || null]: [undefined] and the number 0 become [null]. *)
Definition createdBy_or_null (createdBy : option Z) : option Z :=
  match createdBy with
  | Some n => if bool_decide (n = 0) then None else Some n
  | None => None
  end.

Definition createCustomer (db : Database) (customer : NewCust.t)
    (createdBy : option Z) : Database * Promise Cust.Customer :=
  let customerCode := generateUniqueCustomerCode db in
  match insert_customer db customerCode
          (NewCust.firstname customer) (NewCust.lastname customer)
          (NewCust.mobile customer) (NewCust.dateOfBirth customer)
          (NewCust.email customer) (createdBy_or_null createdBy) with
  | (db', Rejected err) => (db', Rejected err)
  | (db', Resolved lastID) =>
      (db', Resolved (Cust.mk lastID customerCode
                        (NewCust.firstname customer) (NewCust.lastname customer)
                        (NewCust.mobile customer) (NewCust.dateOfBirth customer)
                        (NewCust.email customer) (createdBy_or_null createdBy)
                        None))
  end.

Definition getCustomerByCode (db : Database) (customerCode : string)
    : option Cust.Customer :=
  find (fun c => bool_decide (Cust.customerCode c = customerCode)) (customers db).

Definition getCustomerById (db : Database) (id : option Z) : option Cust.Customer :=
  find (fun c => id_is id (Cust.id c)) (customers db).

(** [if (employeeId)] is false for [undefined] and for the number 0:
    both list the whole table. [createdBy = ?] never holds for a
    NULL [createdBy]. *)
Definition getAllCustomers (db : Database) (employeeId : option Z)
    : list Cust.Customer :=
  match employeeId with
  | Some n =>
      if bool_decide (n = 0) then order_by_desc Cust.id (customers db)
      else order_by_desc Cust.id
             (filter (fun c => Cust.createdBy c = Some n) (customers db))
  | None => order_by_desc Cust.id (customers db)
  end.

Definition customer_fields (updates : CustUpd.t) : list string :=
  key_if_defined "firstname" (CustUpd.firstname updates)
  ++ key_if_defined "lastname" (CustUpd.lastname updates)
  ++ key_if_defined "mobile" (CustUpd.mobile updates)
  ++ key_if_defined "dateOfBirth" (CustUpd.dateOfBirth updates)
  ++ key_if_defined "email" (CustUpd.email updates)
  ++ key_if_defined "createdBy" (CustUpd.createdBy updates)
  ++ key_if_defined "createdAt" (CustUpd.createdAt updates).

Definition set_customer (updates : CustUpd.t) (c : Cust.Customer) : Cust.Customer :=
  Cust.mk (Cust.id c) (Cust.customerCode c)
          (set_col (CustUpd.firstname updates) (Cust.firstname c))
          (set_col (CustUpd.lastname updates) (Cust.lastname c))
          (set_col (CustUpd.mobile updates) (Cust.mobile c))
          (set_col (CustUpd.dateOfBirth updates) (Cust.dateOfBirth c))
          (set_col (CustUpd.email updates) (Cust.email c))
          (set_col (CustUpd.createdBy updates) (Cust.createdBy c))
          (match CustUpd.createdAt updates with
           | Some v => Some v
           | None => Cust.createdAt c
           end).

Definition customer_email_conflict (db : Database) (id : option Z)
    (updates : CustUpd.t) : bool :=
  match CustUpd.email updates with
  | None => false
  | Some v =>
      existsb (fun c => negb (id_is id (Cust.id c)) && bool_decide (Cust.email c = v))
              (customers db)
  end.

(** [UPDATE customers SET ... WHERE id = ?]. *)
Definition update_customers (db : Database) (id : option Z) (updates : CustUpd.t)
    : Database * Promise Z :=
  if existsb (fun c => id_is id (Cust.id c)) (customers db) then
    if customer_email_conflict db id updates
    then (db, Rejected (SQLITE_CONSTRAINT "UNIQUE constraint failed: customers.email"))
    else
      (mkDatabase
         (employees db) (employees_seq db)
         ((fun c => if id_is id (Cust.id c) then set_customer updates c else c)
            <$> customers db)
         (customers_seq db) (CURRENT_TIMESTAMP db),
       Resolved (Z.of_nat (length (filter (fun c => id_is id (Cust.id c) = true)
                                          (customers db)))))
  else (db, Resolved 0).

Definition updateCustomer (db : Database) (id : option Z) (updates : CustUpd.t)
    : Database * Promise (option Cust.Customer) :=
  let fields := customer_fields updates in
  if bool_decide (length fields = 0%nat) then (db, Resolved None)
  else
    match update_customers db id updates with
    | (db', Rejected err) => (db', Rejected err)
    | (db', Resolved changes) =>
        if (0 <? changes)%Z then (db', Resolved (getCustomerById db' id))
        else (db', Resolved None)
    end.

Definition deleteCustomer (db : Database) (id : option Z) : Database * Promise bool :=
  let hit := filter (fun c => id_is id (Cust.id c) = true) (customers db) in
  (mkDatabase
     (employees db) (employees_seq db)
     (filter (fun c => id_is id (Cust.id c) = false) (customers db))
     (customers_seq db) (CURRENT_TIMESTAMP db),
   Resolved (0 <? Z.of_nat (length hit))%Z).

End Store.

(** ** [lib/auth.ts] *)

(** [LoginCredentials]. The login route passes [password] on as the
    body held it: the interface says [string], nothing checks it
    before bcrypt does. *)
Module Cred.
Record LoginCredentials := mk {
  employeeCode : string;
  password : Js.Value
}.
End Cred.

Module AuthResp.
Record AuthResponse := mk {
  success : bool;
  message : string;
  token : option string;
  user : option EmpView.t
}.
End AuthResp.

(** The result of [authenticateRequest]. *)
Record AuthResult := mkAuthResult {
  user : option Tok.Payload;
  error : option string
}.

(** The [id] member of a JSON body: absent, a number (written as an
    integer literal) or a string. *)
Inductive IdField :=
| IdUndefined
| IdNumber (n : Z)
| IdString (s : string).

(** A JSON request body. The text members are read at the type the
    interfaces declare, absent or a string: a body that holds a
    number, a boolean or [null] in one of them is outside this model.
    [password] is absent or any JSON scalar: it is the member that
    reaches a library (bcryptjs) which looks at its type, so that
    what it is changes what the handlers answer. *)
Module Json.
Record Body := mk {
  id : IdField;
  employeeCode : option string;
  firstname : option string;
  lastname : option string;
  mobile : option string;
  dateOfBirth : option string;
  email : option string;
  password : option Js.Value;
  role : option string
}.
End Json.

(** What a handler reads of a request: the [cookie] header, the body
    ([None] when [request.json()] throws) and the [id] search
    parameter of the URL. *)
Record Request := mkRequest {
  cookie : option string;
  json : option Json.Body;
  search_id : option string
}.

Section Auth.
Context `{Externals}.

(** [const { password, ...userWithoutPassword } = employee]. *)
Definition userWithoutPassword (e : Emp.Employee) : EmpView.t :=
  EmpView.mk (Emp.id e) (Emp.employeeCode e) (Emp.firstname e) (Emp.lastname e)
             (Emp.mobile e) (Emp.dateOfBirth e) (Emp.email e) (Emp.role e)
             (Emp.createdAt e).

(** [authenticateUser]. Of the calls inside its [try], the lookup and
    [jwt.sign] do not throw here; [bcrypt.compare] rejects when the
    password is not a string, and the [catch] answers for it. *)
Definition authenticateUser (db : Database) (credentials : Cred.LoginCredentials)
    : AuthResp.AuthResponse :=
  match getEmployeeByCode db (Cred.employeeCode credentials) with
  | None => AuthResp.mk false "Invalid employee code or password" None None
  | Some employee =>
      match bcrypt_compare_async (Cred.password credentials)
                                 (Emp.password employee) with
      | Rejected _ =>
          (* catch (error) *)
          AuthResp.mk false "An error occurred during authentication" None None
      | Resolved isPasswordValid =>
          if negb isPasswordValid
          then AuthResp.mk false "Invalid employee code or password" None None
          else
            let token :=
              jwt_sign (Tok.mk (Emp.employeeCode employee) (Emp.email employee)
                               (Emp.id employee) (Emp.role employee))
                       JWT_SECRET in
            AuthResp.mk true "Login successful" (Some token)
                        (Some (userWithoutPassword employee))
      end
  end.

Definition verifyToken (token : string) : option Tok.Payload :=
  jwt_verify token JWT_SECRET.

(** The [reduce] over [cookieHeader.split(';')]: each piece is
    trimmed and split at '='; the first part is the key, the second
    the value ([undefined], here [None], when there is no '='); a
    later piece overwrites an earlier one with the same key. *)
Definition parse_cookies (cookieHeader : string) : gmap string (option string) :=
  foldl (fun acc cookie =>
           match Js.split "=" (Js.trim cookie) with
           | key :: rest => <[key := head rest]> acc
           | [] => acc
           end)
        ∅ (Js.split ";" cookieHeader).

Definition authenticateRequest (request : Request) : AuthResult :=
  match cookie request with
  | None => mkAuthResult None (Some "No authentication token found")
  | Some cookieHeader =>
      if Js.falsy_string cookieHeader
      then mkAuthResult None (Some "No authentication token found")
      else
        let cookies := parse_cookies cookieHeader in
        match mjoin (cookies !! "auth-token") with
        | None => mkAuthResult None (Some "No authentication token found")
        | Some token =>
            if Js.falsy_string token
            then mkAuthResult None (Some "No authentication token found")
            else
              match verifyToken token with
              | None => mkAuthResult None (Some "Invalid or expired token")
              | Some decoded => mkAuthResult (Some decoded) None
              end
        end
  end.

End Auth.

(** ** Route handlers *)

(** The JSON documents the handlers answer with. *)
Inductive Body :=
| BError (error : string)
| BMessage (message : string)
| BEmployees (rows : list EmpView.t)
| BEmployee (message : string) (employee : EmpView.t)
| BCustomers (rows : list Cust.Customer)
| BCustomer (message : string) (customer : CustView.t)
| BLogin (success : bool) (message : string) (user : option EmpView.t).

Record Response := mkResponse {
  status : Z;
  body : Body;
  set_cookie : option string
}.

(** [NextResponse.json(body, { status })]. *)
Definition NextResponse_json (b : Body) (st : Z) : Response :=
  mkResponse st b None.

(** [!id] and [parseInt(id)] on the [id] member of a body. *)
Definition id_falsy (id : IdField) : bool :=
  match id with
  | IdUndefined => true
  | IdNumber n => bool_decide (n = 0)
  | IdString s => Js.falsy_string s
  end.

Definition parseInt_id (id : IdField) : option Z :=
  match id with
  | IdUndefined => None
  | IdNumber n => Js.to_Number n ≫= Js.parseInt_Number
  | IdString s => Js.parseInt s
  end.

(** [app/api/employees/route.ts] *)
Module EmployeesRoute.
Section Handlers.
Context `{Externals}.

Definition employee_json (e : Emp.Employee) : EmpView.t :=
  EmpView.mk (Emp.id e) (Emp.employeeCode e) (Emp.firstname e) (Emp.lastname e)
             (Emp.mobile e) (Emp.dateOfBirth e) (Emp.email e) (Emp.role e) None.

Definition GET (db : Database) (request : Request) : Database * Response :=
  let authResult := authenticateRequest request in
  match user authResult with
  | None => (db, NextResponse_json (BError "Unauthorized") 401)
  | Some u =>
      if negb (bool_decide (Tok.role u = "admin"))
      then (db, NextResponse_json (BError "Access denied. Admin only.") 403)
      else (db, NextResponse_json (BEmployees (getAllEmployees db)) 200)
  end.

Definition POST (db : Database) (request : Request) : Database * Response :=
  let authResult := authenticateRequest request in
  match user authResult with
  | None => (db, NextResponse_json (BError "Unauthorized") 401)
  | Some u =>
      if negb (bool_decide (Tok.role u = "admin"))
      then (db, NextResponse_json (BError "Access denied. Admin only.") 403)
      else
        match json request with
        | None => (db, NextResponse_json (BError "Internal server error") 500)
        | Some b =>
            if Js.falsy (Json.firstname b) || Js.falsy (Json.lastname b)
               || Js.falsy (Json.mobile b) || Js.falsy (Json.dateOfBirth b)
               || Js.falsy (Json.email b) || Js.falsy_json (Json.password b)
            then (db, NextResponse_json (BError "All fields are required") 400)
            else if Js.length_lt (default Js.VNull (Json.password b)) 6
            then (db, NextResponse_json
                        (BError "Password must be at least 6 characters") 400)
            else
              match createEmployee db
                      (NewEmp.mk (default "" (Json.firstname b))
                                 (default "" (Json.lastname b))
                                 (default "" (Json.mobile b))
                                 (default "" (Json.dateOfBirth b))
                                 (default "" (Json.email b))
                                 (default Js.VNull (Json.password b))
                                 (Js.or_else (Json.role b) "user")) with
              | (db', Rejected _) =>
                  (db', NextResponse_json (BError "Internal server error") 500)
              | (db', Resolved employee) =>
                  (db', NextResponse_json
                          (BEmployee "Employee created successfully"
                                     (employee_json employee)) 201)
              end
        end
  end.

Definition PUT (db : Database) (request : Request) : Database * Response :=
  let authResult := authenticateRequest request in
  match user authResult with
  | None => (db, NextResponse_json (BError "Unauthorized") 401)
  | Some u =>
      if negb (bool_decide (Tok.role u = "admin"))
      then (db, NextResponse_json (BError "Access denied. Admin only.") 403)
      else
        match json request with
        | None => (db, NextResponse_json (BError "Internal server error") 500)
        | Some b =>
            if id_falsy (Json.id b)
            then (db, NextResponse_json (BError "Employee ID is required") 400)
            else
              let updates :=
                EmpUpd.mk (Json.firstname b) (Json.lastname b) (Json.mobile b)
                          (Json.dateOfBirth b) (Json.email b) (Json.role b) None in
              if bool_decide (length (employee_fields updates) = 0%nat)
              then (db, NextResponse_json (BError "No fields to update") 400)
              else
                match updateEmployee db (parseInt_id (Json.id b)) updates with
                | (db', Rejected _) =>
                    (db', NextResponse_json (BError "Internal server error") 500)
                | (db', Resolved None) =>
                    (db', NextResponse_json (BError "Employee not found") 404)
                | (db', Resolved (Some updatedEmployee)) =>
                    (db', NextResponse_json
                            (BEmployee "Employee updated successfully"
                                       (employee_json updatedEmployee)) 200)
                end
        end
  end.

Definition DELETE (db : Database) (request : Request) : Database * Response :=
  let authResult := authenticateRequest request in
  match user authResult with
  | None => (db, NextResponse_json (BError "Unauthorized") 401)
  | Some u =>
      if negb (bool_decide (Tok.role u = "admin"))
      then (db, NextResponse_json (BError "Access denied. Admin only.") 403)
      else
        if Js.falsy (search_id request)
        then (db, NextResponse_json (BError "Employee ID is required") 400)
        else
          match deleteEmployee db (Js.parseInt (default "" (search_id request))) with
          | (db', Rejected _) =>
              (db', NextResponse_json (BError "Internal server error") 500)
          | (db', Resolved success) =>
              if negb success
              then (db', NextResponse_json (BError "Employee not found") 404)
              else (db', NextResponse_json
                           (BMessage "Employee deleted successfully") 200)
          end
  end.

End Handlers.
End EmployeesRoute.

(** [app/api/customers/route.ts] *)
Module CustomersRoute.
Section Handlers.
Context `{Externals}.

Definition customer_json (c : Cust.Customer) : CustView.t :=
  CustView.mk (Cust.id c) (Cust.customerCode c) (Cust.firstname c)
              (Cust.lastname c) (Cust.mobile c) (Cust.dateOfBirth c)
              (Cust.email c).

(** [!customer || customer.createdBy !== authResult.user.id]. *)
Definition not_owned_by (customer : option Cust.Customer) (uid : Z) : bool :=
  match customer with
  | None => true
  | Some c => negb (bool_decide (Cust.createdBy c = Some uid))
  end.

Definition GET (db : Database) (request : Request) : Database * Response :=
  let authResult := authenticateRequest request in
  match user authResult with
  | None => (db, NextResponse_json (BError "Unauthorized") 401)
  | Some u =>
      let customers :=
        getAllCustomers db
          (if bool_decide (Tok.role u = "admin") then None else Some (Tok.id u)) in
      (db, NextResponse_json (BCustomers customers) 200)
  end.

Definition POST (db : Database) (request : Request) : Database * Response :=
  let authResult := authenticateRequest request in
  match user authResult with
  | None => (db, NextResponse_json (BError "Unauthorized") 401)
  | Some u =>
      match json request with
      | None => (db, NextResponse_json (BError "Internal server error") 500)
      | Some b =>
          if Js.falsy (Json.firstname b) || Js.falsy (Json.lastname b)
             || Js.falsy (Json.mobile b) || Js.falsy (Json.dateOfBirth b)
             || Js.falsy (Json.email b)
          then (db, NextResponse_json (BError "All fields are required") 400)
          else
            match createCustomer db
                    (NewCust.mk (default "" (Json.firstname b))
                                (default "" (Json.lastname b))
                                (default "" (Json.mobile b))
                                (default "" (Json.dateOfBirth b))
                                (default "" (Json.email b)))
                    (Some (Tok.id u)) with
            | (db', Rejected _) =>
                (db', NextResponse_json (BError "Internal server error") 500)
            | (db', Resolved customer) =>
                (db', NextResponse_json
                        (BCustomer "Customer created successfully"
                                   (customer_json customer)) 201)
            end
      end
  end.

Definition PUT (db : Database) (request : Request) : Database * Response :=
  let authResult := authenticateRequest request in
  match user authResult with
  | None => (db, NextResponse_json (BError "Unauthorized") 401)
  | Some u =>
      match json request with
      | None => (db, NextResponse_json (BError "Internal server error") 500)
      | Some b =>
          if id_falsy (Json.id b)
          then (db, NextResponse_json (BError "Customer ID is required") 400)
          else
            if negb (bool_decide (Tok.role u = "admin"))
               && not_owned_by (getCustomerById db (parseInt_id (Json.id b)))
                               (Tok.id u)
            then (db, NextResponse_json (BError "Access denied") 403)
            else
              let updates :=
                CustUpd.mk (Json.firstname b) (Json.lastname b) (Json.mobile b)
                           (Json.dateOfBirth b) (Json.email b) None None in
              if bool_decide (length (customer_fields updates) = 0%nat)
              then (db, NextResponse_json (BError "No fields to update") 400)
              else
                match updateCustomer db (parseInt_id (Json.id b)) updates with
                | (db', Rejected _) =>
                    (db', NextResponse_json (BError "Internal server error") 500)
                | (db', Resolved None) =>
                    (db', NextResponse_json (BError "Customer not found") 404)
                | (db', Resolved (Some updatedCustomer)) =>
                    (db', NextResponse_json
                            (BCustomer "Customer updated successfully"
                                       (customer_json updatedCustomer)) 200)
                end
      end
  end.

Definition DELETE (db : Database) (request : Request) : Database * Response :=
  let authResult := authenticateRequest request in
  match user authResult with
  | None => (db, NextResponse_json (BError "Unauthorized") 401)
  | Some u =>
      if Js.falsy (search_id request)
      then (db, NextResponse_json (BError "Customer ID is required") 400)
      else
        let id := Js.parseInt (default "" (search_id request)) in
        if negb (bool_decide (Tok.role u = "admin"))
           && not_owned_by (getCustomerById db id) (Tok.id u)
        then (db, NextResponse_json (BError "Access denied") 403)
        else
          match deleteCustomer db id with
          | (db', Rejected _) =>
              (db', NextResponse_json (BError "Internal server error") 500)
          | (db', Resolved success) =>
              if negb success
              then (db', NextResponse_json (BError "Customer not found") 404)
              else (db', NextResponse_json
                           (BMessage "Customer deleted successfully") 200)
          end
  end.

End Handlers.
End CustomersRoute.

(** [app/api/auth/login/route.ts] *)
Module LoginRoute.
Section Handlers.
Context `{Externals}.

Definition POST (db : Database) (request : Request) : Database * Response :=
  match json request with
  | None =>
      (db, NextResponse_json (BLogin false "Internal server error" None) 500)
  | Some b =>
      if Js.falsy (Json.employeeCode b) || Js.falsy_json (Json.password b)
      then (db, NextResponse_json
                  (BLogin false "Employee code and password are required" None)
                  400)
      else
        let authResult :=
          authenticateUser db
            (Cred.mk (default "" (Json.employeeCode b))
                     (default Js.VNull (Json.password b))) in
        match AuthResp.token authResult with
        | Some token =>
            if AuthResp.success authResult && negb (Js.falsy_string token)
            then (db, mkResponse 200
                        (BLogin true (AuthResp.message authResult)
                                (AuthResp.user authResult))
                        (Some token))
            else (db, NextResponse_json
                        (BLogin false (AuthResp.message authResult) None) 401)
        | None =>
            (db, NextResponse_json
                   (BLogin false (AuthResp.message authResult) None) 401)
        end
  end.

End Handlers.
End LoginRoute.

(** ** A sample deployment

    A concrete instance of the externals, and a few requests, on which
    the model is run. The hash and token formats are stand-ins: no
    statement below depends on them. *)

Definition sample_sessions : list Tok.Payload :=
  [ Tok.mk "ADMIN001" "admin@cms.com" 1 "admin";
    Tok.mk "EMP002" "ann@cms.com" 2 "user";
    Tok.mk "EMP003" "bob@cms.com" 3 "user" ].

Definition sample_externals : Externals := {|
  bcrypt_hash p rounds := "$2a$" +:+ Js.toString rounds +:+ "$" +:+ p;
  bcrypt_compare p h := bool_decide (h = "$2a$10$" +:+ p);
  jwt_sign payload secret := secret +:+ "/" +:+ Tok.employeeCode payload;
  jwt_verify token secret :=
    find (fun p => bool_decide (token = secret +:+ "/" +:+ Tok.employeeCode p))
         sample_sessions;
  JWT_SECRET := "your-secret-key-change-in-production"
|}.

(** A request carrying the session cookie of the given employee code. *)
Definition request_as (code : string) (b : option Json.Body) (id : option string)
    : Request :=
  mkRequest
    (Some ("theme=dark; auth-token=your-secret-key-change-in-production/" +:+ code))
    b id.

Definition new_employee_body (fn mail : string) : Json.Body :=
  Json.mk IdUndefined None (Some fn) (Some "Doe") (Some "5550100")
          (Some "1991-02-03") (Some mail) (Some (Js.VString "hunter22")) None.

Definition new_customer_body (fn mail : string) : Json.Body :=
  Json.mk IdUndefined None (Some fn) (Some "Roe") (Some "5550199")
          (Some "1985-06-07") (Some mail) None None.

(** The store after the first start of the server. *)
Definition fresh_db : Database :=
  @initTables sample_externals (empty_db "2024-01-01 00:00:00").


(** ** Well-formed stores *)

(** The constraints of one table: a sequence that has not gone below
    zero, row ids handed out by it (positive, at most its value),
    PRIMARY KEY on the id, UNIQUE on the code and on the email. *)
Definition table_wf {A : Type} (id : A -> Z) (code email : A -> string)
    (seq : Z) (rows : list A) : Prop :=
  0 <= seq
  /\ Forall (fun r => 0 < id r <= seq) rows
  /\ NoDup (id <$> rows)
  /\ NoDup (code <$> rows)
  /\ NoDup (email <$> rows).

(** What the schema guarantees of every store the server can reach. *)
Definition db_wf (db : Database) : Prop :=
  table_wf Emp.id Emp.employeeCode Emp.email (employees_seq db) (employees db)
  /\ table_wf Cust.id Cust.customerCode Cust.email (customers_seq db) (customers db).

#[global] Instance db_wf_dec (db : Database) : Decision (db_wf db).
Proof. unfold db_wf, table_wf. apply _. Defined.

(** Every handler of the server. *)
Definition handlers `{Externals}
    : list (Database -> Request -> Database * Response) :=
  [LoginRoute.POST;
   EmployeesRoute.GET; EmployeesRoute.POST; EmployeesRoute.PUT;
   EmployeesRoute.DELETE;
   CustomersRoute.GET; CustomersRoute.POST; CustomersRoute.PUT;
   CustomersRoute.DELETE].

(** The stores the server can be in: what a first start ends with,
    what [initTables] makes of a reachable store when the server is
    started again, and whatever a handler leaves of a reachable
    one. *)
Inductive reachable `{Externals} : Database -> Prop :=
| reachable_init (clock : string) (db : Database) :
    db ∈ first_start clock -> reachable db
| reachable_restart (db : Database) : reachable db -> reachable (initTables db)
| reachable_step (db : Database) (h : Database -> Request -> Database * Response)
    (req : Request) :
    reachable db -> h ∈ handlers -> reachable (h db req).1.

(** The four staff operations: listing, creation, update, deletion. *)
Definition staff_operations `{Externals}
    : list (Database -> Request -> Database * Response) :=
  [EmployeesRoute.GET; EmployeesRoute.POST; EmployeesRoute.PUT;
   EmployeesRoute.DELETE].

(** The partial field sets the PUT handlers build from a body. *)
Definition employee_updates_of (b : Json.Body) : EmpUpd.t :=
  EmpUpd.mk (Json.firstname b) (Json.lastname b) (Json.mobile b)
            (Json.dateOfBirth b) (Json.email b) (Json.role b) None.

Definition customer_updates_of (b : Json.Body) : CustUpd.t :=
  CustUpd.mk (Json.firstname b) (Json.lastname b) (Json.mobile b)
             (Json.dateOfBirth b) (Json.email b) None None.

(** The id and owner columns of the customers table. *)
Definition owners (db : Database) : list (Z * option Z) :=
  (fun c => (Cust.id c, Cust.createdBy c)) <$> customers db.

(** A required member of a creation body that is missing or holds
    the empty string. *)
Definition absent_or_empty (v : option Js.Value) : Prop :=
  v = None \/ v = Some (Js.VString "").

(** The members the two POST handlers require. *)
Definition employee_required (b : Json.Body) : list (option Js.Value) :=
  [Js.VString <$> Json.firstname b; Js.VString <$> Json.lastname b;
   Js.VString <$> Json.mobile b; Js.VString <$> Json.dateOfBirth b;
   Js.VString <$> Json.email b; Json.password b].

(** The five text members both POST handlers require. *)
Definition required_text (b : Json.Body) : list (option Js.Value) :=
  [Js.VString <$> Json.firstname b; Js.VString <$> Json.lastname b;
   Js.VString <$> Json.mobile b; Js.VString <$> Json.dateOfBirth b;
   Js.VString <$> Json.email b].

Definition customer_required (b : Json.Body) : list (option Js.Value) :=
  [Js.VString <$> Json.firstname b; Js.VString <$> Json.lastname b;
   Js.VString <$> Json.mobile b; Js.VString <$> Json.dateOfBirth b;
   Js.VString <$> Json.email b].

(** A body whose only updatable member is [email], for an employee
    and for a customer. *)
Definition email_only (b : Json.Body) (v : string) : Prop :=
  Json.firstname b = None /\ Json.lastname b = None /\ Json.mobile b = None
  /\ Json.dateOfBirth b = None /\ Json.email b = Some v /\ Json.role b = None.

Definition customer_email_only (b : Json.Body) (v : string) : Prop :=
  Json.firstname b = None /\ Json.lastname b = None /\ Json.mobile b = None
  /\ Json.dateOfBirth b = None /\ Json.email b = Some v.

(** A row with its [email] replaced and every other column kept. *)
Definition employee_with_email (v : string) (e : Emp.Employee) : Emp.Employee :=
  Emp.mk (Emp.id e) (Emp.employeeCode e) (Emp.firstname e) (Emp.lastname e)
         (Emp.mobile e) (Emp.dateOfBirth e) v (Emp.password e) (Emp.role e)
         (Emp.createdAt e).

Definition customer_with_email (v : string) (c : Cust.Customer) : Cust.Customer :=
  Cust.mk (Cust.id c) (Cust.customerCode c) (Cust.firstname c) (Cust.lastname c)
          (Cust.mobile c) (Cust.dateOfBirth c) v (Cust.createdBy c)
          (Cust.createdAt c).

(** The human code in the answer to a creation. *)
Definition created_code (r : Response) : option string :=
  match body r with
  | BEmployee _ e => Some (EmpView.employeeCode e)
  | BCustomer _ c => Some (CustView.customerCode c)
  | _ => None
  end.

(** A run of requests, each on the store the one before left; the
    answers come back in order. *)
Fixpoint serve (db : Database)
    (calls : list (Database -> Database * Response)) : Database * list Response :=
  match calls with
  | [] => (db, [])
  | call :: rest =>
      let '(db1, r) := call db in
      let '(db2, rs) := serve db1 rest in
      (db2, r :: rs)
  end.

(** A body that carries no updatable field, of an employee and of a
    customer. *)
Definition no_updatable_field (b : Json.Body) : Prop :=
  Json.firstname b = None /\ Json.lastname b = None /\ Json.mobile b = None
  /\ Json.dateOfBirth b = None /\ Json.email b = None /\ Json.role b = None.

Definition no_customer_field (b : Json.Body) : Prop :=
  Json.firstname b = None /\ Json.lastname b = None /\ Json.mobile b = None
  /\ Json.dateOfBirth b = None /\ Json.email b = None.

(** The sample store: the admin creates Ann (id 2) and Bob (id 3);
    Ann and Bob each add a customer; a third customer is stored with
    no owner. *)
Definition sample_db : Database :=
  Eval vm_compute in
    let db1 := fst (@EmployeesRoute.POST sample_externals fresh_db
                      (request_as "ADMIN001"
                         (Some (new_employee_body "Ann" "ann@cms.com")) None)) in
    let db2 := fst (@EmployeesRoute.POST sample_externals db1
                      (request_as "ADMIN001"
                         (Some (new_employee_body "Bob" "bob@cms.com")) None)) in
    let db3 := fst (@CustomersRoute.POST sample_externals db2
                      (request_as "EMP002"
                         (Some (new_customer_body "Carl" "carl@example.com")) None)) in
    let db4 := fst (@CustomersRoute.POST sample_externals db3
                      (request_as "EMP003"
                         (Some (new_customer_body "Dora" "dora@example.com")) None)) in
    fst (createCustomer db4
           (NewCust.mk "Eve" "Roe" "5550142" "1979-09-09" "eve@example.com") None).

Definition ann : Tok.Payload := Tok.mk "EMP002" "ann@cms.com" 2 "user".
Definition bob : Tok.Payload := Tok.mk "EMP003" "bob@cms.com" 3 "user".

Definition ann_row : Emp.Employee :=
  Emp.mk 2 "EMP002" "Ann" "Doe" "5550100" "1991-02-03" "ann@cms.com"
         "$2a$10$hunter22" "user" (Some "2024-01-01 00:00:00").

Definition carl : Cust.Customer :=
  Cust.mk 1 "CUST001" "Carl" "Roe" "5550199" "1985-06-07" "carl@example.com"
          (Some 2) (Some "2024-01-01 00:00:00").

Definition eve : Cust.Customer :=
  Cust.mk 3 "CUST003" "Eve" "Roe" "5550142" "1979-09-09" "eve@example.com"
          None (Some "2024-01-01 00:00:00").

Definition email_body (id : IdField) (mail : string) : Json.Body :=
  Json.mk id None None None None None (Some mail) None None.

(** ** The rest of the server and the requests the pages send *)

(** [app/api/auth/me/route.ts]: the identity bound into the session
    token, or 401. The handler does not touch the store. *)
Module MeRoute.
Inductive MeBody :=
| MeError (error : string)
| MeUser (id : Z) (employeeCode email role : string).

Section Handlers.
Context `{Externals}.

Definition GET (request : Request) : Z * MeBody :=
  let authResult := authenticateRequest request in
  match user authResult with
  | None => (401, MeError "Unauthorized")
  | Some u =>
      (200, MeUser (Tok.id u) (Tok.employeeCode u) (Tok.email u) (Tok.role u))
  end.

End Handlers.
End MeRoute.

(** What the list pages send when a row's delete button is confirmed:
    [fetch(`/api/employees?id=${id}`, { method: 'DELETE' })], and the
    same with [/api/customers]. *)
Definition handleDelete_request (cookieHeader : option string) (id : Z) : Request :=
  mkRequest cookieHeader None (Some (Js.toString id)).

(** The edit pages. [fetchEmployee] and [fetchCustomer] look the row
    up in the listing the server sent:
    [data.employees.find(emp => emp.id === parseInt(employeeId))]. The
    form starts from the columns of the row found, each input
    overwrites one member with a string, and submitting sends
    [{ id: employeeId, ...formData }]. *)
Definition fetchEmployee (listing : list EmpView.t) (employeeId : string)
    : option EmpView.t :=
  find (fun emp => id_is (Js.parseInt employeeId) (EmpView.id emp)) listing.

Definition fetchCustomer (listing : list Cust.Customer) (customerId : string)
    : option Cust.Customer :=
  find (fun cust => id_is (Js.parseInt customerId) (Cust.id cust)) listing.

Definition employee_form (firstname lastname mobile dateOfBirth email role : string)
    : Json.Body :=
  Json.mk IdUndefined None (Some firstname) (Some lastname) (Some mobile)
          (Some dateOfBirth) (Some email) None (Some role).

Definition customer_form (firstname lastname mobile dateOfBirth email : string)
    : Json.Body :=
  Json.mk IdUndefined None (Some firstname) (Some lastname) (Some mobile)
          (Some dateOfBirth) (Some email) None None.

Definition employee_formData (e : EmpView.t) : Json.Body :=
  employee_form (EmpView.firstname e) (EmpView.lastname e) (EmpView.mobile e)
                (EmpView.dateOfBirth e) (EmpView.email e) (EmpView.role e).

Definition customer_formData (c : Cust.Customer) : Json.Body :=
  customer_form (Cust.firstname c) (Cust.lastname c) (Cust.mobile c)
                (Cust.dateOfBirth c) (Cust.email c).

Definition with_id (employeeId : string) (formData : Json.Body) : Json.Body :=
  Json.mk (IdString employeeId) (Json.employeeCode formData)
          (Json.firstname formData) (Json.lastname formData)
          (Json.mobile formData) (Json.dateOfBirth formData)
          (Json.email formData) (Json.password formData) (Json.role formData).

(** The same body with the id sent as a number, as a client other
    than the pages may send it. *)
Definition with_id_number (id : Z) (formData : Json.Body) : Json.Body :=
  Json.mk (IdNumber id) (Json.employeeCode formData)
          (Json.firstname formData) (Json.lastname formData)
          (Json.mobile formData) (Json.dateOfBirth formData)
          (Json.email formData) (Json.password formData) (Json.role formData).

Definition handleSubmit_request (cookieHeader : option string)
    (employeeId : string) (formData : Json.Body) : Request :=
  mkRequest cookieHeader (Some (with_id employeeId formData)) None.

(** The list page after a delete that was answered ok:
    [employees.filter(emp => emp.id !== id)]. *)
Definition handleDelete_list (employees : list EmpView.t) (id : Z) : list EmpView.t :=
  filter (fun emp => EmpView.id emp <> id) employees.

(** The customers list page after a delete that was answered ok:
    [customers.filter(cust => cust.id !== id)]. *)
Definition handleDelete_customers (customers : list Cust.Customer) (id : Z)
    : list Cust.Customer :=
  filter (fun cust => Cust.id cust <> id) customers.

(** ** Vocabulary of the further statements *)

Definition is_digit (a : ascii) : bool :=
  let n := N_of_ascii a in ((48 <=? n) && (n <=? 57))%N.

Fixpoint all_digits (s : string) : bool :=
  match s with
  | EmptyString => true
  | String a s' => is_digit a && all_digits s'
  end.

(** A string with no ';', no '=' and no white space: what a cookie
    value has to be to come back as it was sent. *)
Fixpoint cookie_safe (s : string) : bool :=
  match s with
  | EmptyString => true
  | String a s' =>
      negb (Ascii.eqb a ";") && negb (Ascii.eqb a "=")
      && negb (Js.is_white_space a) && cookie_safe s'
  end.

(** Text that [parseInt] stops at: nothing, or something that starts
    with a character other than a decimal digit. *)
Definition no_digit_ahead (s : string) : Prop :=
  match s with
  | EmptyString => True
  | String a _ => is_digit a = false
  end.

(** Rows in descending order of a key. *)
Definition sorted_desc {A : Type} (key : A -> Z) (l : list A) : Prop :=
  StronglySorted (fun a b => key b <= key a) l.

(** The columns of the employees table no PUT request writes. *)
Definition employee_fixed_columns (db : Database)
    : list (Z * string * string * option string) :=
  (fun e => (Emp.id e, Emp.employeeCode e, Emp.password e, Emp.createdAt e))
    <$> employees db.

(** The columns of the customers table no PUT request writes. *)
Definition customer_fixed_columns (db : Database)
    : list (Z * string * option Z * option string) :=
  (fun c => (Cust.id c, Cust.customerCode c, Cust.createdBy c, Cust.createdAt c))
    <$> customers db.

(** One step of a table: the sequence does not go back, and a row
    after the step either continues a row before it, with the same id
    and the same code, or has an id the sequence had not reached. *)
Definition table_step {A : Type} (id : A -> Z) (code : A -> string)
    (seq : Z) (rows : list A) (seq' : Z) (rows' : list A) : Prop :=
  seq <= seq'
  /\ forall r', r' ∈ rows' ->
       (exists r, r ∈ rows /\ id r = id r' /\ code r = code r')
       \/ seq < id r'.

(** Every column of an employee row but the password. *)
Definition employee_public_columns (db : Database) : list EmpView.t :=
  userWithoutPassword <$> employees db.

(** The four customer operations. *)
Definition customer_operations `{Externals}
    : list (Database -> Request -> Database * Response) :=
  [CustomersRoute.GET; CustomersRoute.POST; CustomersRoute.PUT;
   CustomersRoute.DELETE].

(** A store with another employees table, and with another customers
    table. *)
Definition with_employees (rows : list Emp.Employee) (seq : Z) (db : Database)
    : Database :=
  mkDatabase rows seq (customers db) (customers_seq db) (CURRENT_TIMESTAMP db).

Definition with_customers (rows : list Cust.Customer) (seq : Z) (db : Database)
    : Database :=
  mkDatabase (employees db) (employees_seq db) rows seq (CURRENT_TIMESTAMP db).

(** * Properties *)

(** Membership in a list that is written out. *)
Ltac in_list :=
  solve [repeat first [apply list_elem_of_here | apply list_elem_of_further]].

Lemma sample_db_wf : db_wf sample_db.
Proof. compute_done. Qed.

(** ** Request ids *)

Lemma parseInt_empty : Js.parseInt "" = None.
Proof. reflexivity. Qed.

(** An id that parses to a non-zero integer passes the [!id] test. *)
Lemma id_falsy_parsed (id : IdField) (i : Z) :
  parseInt_id id = Some i -> i <> 0 -> id_falsy id = false.
Proof.
  destruct id as [|n|s]; simpl; intros Hp Hi.
  - discriminate.
  - apply bool_decide_eq_false. intros ->. by injection Hp as <-.
  - destruct s; [discriminate | reflexivity].
Qed.

Lemma search_id_parsed (s : string) (i : Z) :
  Js.parseInt s = Some i -> Js.falsy (Some s) = false.
Proof. destruct s; [discriminate | reflexivity]. Qed.

Lemma id_is_true (i : option Z) (n : Z) : id_is i n = true <-> i = Some n.
Proof. unfold id_is. apply bool_decide_eq_true. Qed.

Lemma id_is_false (i : option Z) (n : Z) : id_is i n = false <-> i <> Some n.
Proof. unfold id_is. apply bool_decide_eq_false. Qed.

Lemma id_is_same (n : Z) : id_is (Some n) n = true.
Proof. by apply id_is_true. Qed.

(** ** Staff operations are for the admin role only *)

Section Staff_gate.
Context `{Externals}.

Lemma employees_GET_gate db req :
  match user (authenticateRequest req) with
  | None => EmployeesRoute.GET db req
            = (db, NextResponse_json (BError "Unauthorized") 401)
  | Some u =>
      if bool_decide (Tok.role u = "admin")
      then status (EmployeesRoute.GET db req).2 = 200
      else EmployeesRoute.GET db req
           = (db, NextResponse_json (BError "Access denied. Admin only.") 403)
  end.
Proof.
  unfold EmployeesRoute.GET.
  destruct (user (authenticateRequest req)) as [u|]; [|done].
  by case_bool_decide.
Qed.

Lemma employees_POST_gate db req :
  match user (authenticateRequest req) with
  | None => EmployeesRoute.POST db req
            = (db, NextResponse_json (BError "Unauthorized") 401)
  | Some u =>
      if bool_decide (Tok.role u = "admin")
      then status (EmployeesRoute.POST db req).2 ∈ [201; 400; 500]
      else EmployeesRoute.POST db req
           = (db, NextResponse_json (BError "Access denied. Admin only.") 403)
  end.
Proof.
  unfold EmployeesRoute.POST.
  destruct (user (authenticateRequest req)) as [u|]; [|done].
  case_bool_decide; [|done]. simpl.
  destruct (json req) as [b|]; [|in_list].
  repeat (case_match; simpl; try in_list).
Qed.

Lemma employees_PUT_gate db req :
  match user (authenticateRequest req) with
  | None => EmployeesRoute.PUT db req
            = (db, NextResponse_json (BError "Unauthorized") 401)
  | Some u =>
      if bool_decide (Tok.role u = "admin")
      then status (EmployeesRoute.PUT db req).2 ∈ [200; 400; 404; 500]
      else EmployeesRoute.PUT db req
           = (db, NextResponse_json (BError "Access denied. Admin only.") 403)
  end.
Proof.
  unfold EmployeesRoute.PUT.
  destruct (user (authenticateRequest req)) as [u|]; [|done].
  case_bool_decide; [|done]. simpl.
  destruct (json req) as [b|]; [|in_list].
  repeat (case_match; simpl; try in_list).
Qed.

Lemma employees_DELETE_gate db req :
  match user (authenticateRequest req) with
  | None => EmployeesRoute.DELETE db req
            = (db, NextResponse_json (BError "Unauthorized") 401)
  | Some u =>
      if bool_decide (Tok.role u = "admin")
      then status (EmployeesRoute.DELETE db req).2 ∈ [200; 400; 404]
      else EmployeesRoute.DELETE db req
           = (db, NextResponse_json (BError "Access denied. Admin only.") 403)
  end.
Proof.
  unfold EmployeesRoute.DELETE.
  destruct (user (authenticateRequest req)) as [u|]; [|done].
  case_bool_decide; [|done]. simpl.
  repeat (case_match; simpl; try in_list).
Qed.

End Staff_gate.

(** C5. Each of the four staff operations answers 401 and leaves the
    store alone when the request carries no verified identity, answers
    403 and leaves the store alone when the caller's role is not
    'admin', and gets past both answers exactly when the caller's role
    is 'admin'. *)
Theorem staff_operations_admin_only `{Externals}
    (h : Database -> Request -> Database * Response) (db : Database) (req : Request) :
  h ∈ staff_operations ->
  (user (authenticateRequest req) = None ->
     h db req = (db, NextResponse_json (BError "Unauthorized") 401))
  /\ (forall u, user (authenticateRequest req) = Some u ->
        Tok.role u <> "admin" ->
        h db req = (db, NextResponse_json (BError "Access denied. Admin only.") 403))
  /\ (forall u, user (authenticateRequest req) = Some u ->
        Tok.role u = "admin" ->
        status (h db req).2 <> 401 /\ status (h db req).2 <> 403)
  /\ (status (h db req).2 <> 401 -> status (h db req).2 <> 403 ->
        exists u, user (authenticateRequest req) = Some u /\ Tok.role u = "admin").
Proof.
  intros Hh.
  assert (Hgate :
    match user (authenticateRequest req) with
    | None => h db req = (db, NextResponse_json (BError "Unauthorized") 401)
    | Some u =>
        if bool_decide (Tok.role u = "admin")
        then status (h db req).2 ∈ [200; 201; 400; 404; 500]
        else h db req
             = (db, NextResponse_json (BError "Access denied. Admin only.") 403)
    end).
  { unfold staff_operations in Hh.
    apply elem_of_cons in Hh as [->|Hh]; [|apply elem_of_cons in Hh as [->|Hh];
      [|apply elem_of_cons in Hh as [->|Hh];
        [|apply list_elem_of_singleton in Hh as ->]]].
    - pose proof (employees_GET_gate db req) as G.
      destruct (user (authenticateRequest req)); [|done].
      case_bool_decide; [|done]. rewrite G. in_list.
    - pose proof (employees_POST_gate db req) as G.
      destruct (user (authenticateRequest req)); [|done].
      case_bool_decide; [|done].
      repeat (apply elem_of_cons in G as [->|G]; [in_list|]).
      by apply elem_of_nil in G.
    - pose proof (employees_PUT_gate db req) as G.
      destruct (user (authenticateRequest req)); [|done].
      case_bool_decide; [|done].
      repeat (apply elem_of_cons in G as [->|G]; [in_list|]).
      by apply elem_of_nil in G.
    - pose proof (employees_DELETE_gate db req) as G.
      destruct (user (authenticateRequest req)); [|done].
      case_bool_decide; [|done].
      repeat (apply elem_of_cons in G as [->|G]; [in_list|]).
      by apply elem_of_nil in G. }
  assert (Hok : forall s : Z, s ∈ [200; 201; 400; 404; 500] -> s <> 401 /\ s <> 403).
  { intros s Hs.
    repeat (apply elem_of_cons in Hs as [->|Hs]; [split; discriminate|]).
    by apply elem_of_nil in Hs. }
  destruct (user (authenticateRequest req)) as [u|].
  - case_bool_decide as Hr.
    + split; [done|]. split; [intros u' [= <-] Hn; done|].
      split; [intros u' _ _; by apply Hok|].
      intros _ _. by exists u.
    + split; [done|]. split; [by intros u' [= <-] _|].
      split; [intros u' [= <-] Hr'; done|].
      intros _ H403. rewrite Hgate in H403. done.
  - split; [done|]. split; [done|]. split; [done|].
    intros H401. by rewrite Hgate in H401.
Qed.

Lemma staff_operations_admin_only_witness :
  @EmployeesRoute.DELETE sample_externals sample_db
     (request_as "EMP002" None (Some "3"))
  = (sample_db, NextResponse_json (BError "Access denied. Admin only.") 403).
Proof.
  destruct (@staff_operations_admin_only sample_externals
              (@EmployeesRoute.DELETE sample_externals) sample_db
              (request_as "EMP002" None (Some "3"))) as (_ & Hstd & _).
  - unfold staff_operations. in_list.
  - apply (Hstd ann).
    + vm_compute. reflexivity.
    + vm_compute. discriminate.
Defined.

(** ** Login failures *)

(** With a password that is a string, a login with a code no employee
    has and a login with a known code whose password does not match
    the stored hash get one and the same failure result. *)
Lemma login_failures_equal_on_strings `{Externals} (db : Database)
    (unknown wrong p1 p2 : string) (e : Emp.Employee) :
  getEmployeeByCode db unknown = None ->
  getEmployeeByCode db wrong = Some e ->
  bcrypt_compare p2 (Emp.password e) = false ->
  authenticateUser db (Cred.mk unknown p1) = authenticateUser db (Cred.mk wrong p2)
  /\ authenticateUser db (Cred.mk unknown p1)
     = AuthResp.mk false "Invalid employee code or password" None None.
Proof.
  intros Hu Hw Hc. unfold authenticateUser. simpl.
  rewrite Hu, Hw, Hc. simpl. done.
Qed.

(** The login route hands the same result on: both failures are the
    same 401 answer, and neither sets the cookie. *)
Lemma login_POST_failures_equal `{Externals} (db : Database)
    (unknown wrong : Json.Body) (e : Emp.Employee) (c1 p1 c2 p2 : string)
    (cookie1 cookie2 : option string) (q1 q2 : option string) :
  Json.employeeCode unknown = Some c1 ->
  Json.password unknown = Some (Js.VString p1) ->
  Json.employeeCode wrong = Some c2 ->
  Json.password wrong = Some (Js.VString p2) ->
  c1 <> "" -> p1 <> "" -> c2 <> "" -> p2 <> "" ->
  getEmployeeByCode db c1 = None ->
  getEmployeeByCode db c2 = Some e ->
  bcrypt_compare p2 (Emp.password e) = false ->
  LoginRoute.POST db (mkRequest cookie1 (Some unknown) q1)
  = LoginRoute.POST db (mkRequest cookie2 (Some wrong) q2)
  /\ LoginRoute.POST db (mkRequest cookie1 (Some unknown) q1)
     = (db, NextResponse_json
              (BLogin false "Invalid employee code or password" None) 401).
Proof.
  intros Hc1 Hp1 Hc2 Hp2 N1 N2 N3 N4 Hu Hw Hc.
  unfold LoginRoute.POST; simpl.
  rewrite Hc1, Hp1, Hc2, Hp2; simpl.
  destruct c1; [done|]. destruct p1; [done|].
  destruct c2; [done|]. destruct p2; [done|]. simpl.
  unfold authenticateUser; simpl. rewrite Hu, Hw, Hc. simpl. done.
Qed.

(** C4. The two failures of a login are not the same value when the
    password the request carries is not a string (a number, say):
    the lookup still answers 'Invalid employee code or password' for
    a code no employee has, but for a known code [bcrypt.compare]
    rejects, the [catch] of [authenticateUser] answers 'An error
    occurred during authentication', and the login route hands both
    on as a 401 with these two messages. The message tells whether
    the code exists. *)
Theorem login_failure_reveals_known_code `{Externals} (db : Database)
    (unknown known : string) (e : Emp.Employee) (secret : Js.Value) :
  getEmployeeByCode db unknown = None ->
  getEmployeeByCode db known = Some e ->
  (forall s, secret <> Js.VString s) ->
  authenticateUser db (Cred.mk unknown secret)
  = AuthResp.mk false "Invalid employee code or password" None None
  /\ authenticateUser db (Cred.mk known secret)
     = AuthResp.mk false "An error occurred during authentication" None None
  /\ authenticateUser db (Cred.mk unknown secret)
     <> authenticateUser db (Cred.mk known secret)
  /\ (unknown <> "" -> known <> "" -> Js.falsy_value secret = false ->
      forall (b1 b2 : Json.Body) (cookie1 cookie2 q1 q2 : option string),
        Json.employeeCode b1 = Some unknown -> Json.password b1 = Some secret ->
        Json.employeeCode b2 = Some known -> Json.password b2 = Some secret ->
        LoginRoute.POST db (mkRequest cookie1 (Some b1) q1)
        = (db, NextResponse_json
                 (BLogin false "Invalid employee code or password" None) 401)
        /\ LoginRoute.POST db (mkRequest cookie2 (Some b2) q2)
           = (db, NextResponse_json
                    (BLogin false "An error occurred during authentication" None)
                    401)).
Proof.
  intros Hu Hk Hs.
  assert (Hcmp : forall h, bcrypt_compare_async secret h = Rejected Illegal_arguments).
  { intros h. destruct secret as [s| | |]; [by destruct (Hs s)|done..]. }
  assert (H1 : authenticateUser db (Cred.mk unknown secret)
               = AuthResp.mk false "Invalid employee code or password" None None).
  { unfold authenticateUser. simpl. by rewrite Hu. }
  assert (H2 : authenticateUser db (Cred.mk known secret)
               = AuthResp.mk false "An error occurred during authentication"
                             None None).
  { unfold authenticateUser. simpl. by rewrite Hk, Hcmp. }
  split; [exact H1|]. split; [exact H2|]. split.
  - rewrite H1, H2. discriminate.
  - intros N1 N2 Ht b1 b2 cookie1 cookie2 q1 q2 Hc1 Hp1 Hc2 Hp2.
    unfold LoginRoute.POST. simpl. rewrite Hc1, Hp1, Hc2, Hp2. simpl.
    rewrite Ht. destruct unknown; [done|]. destruct known; [done|]. simpl.
    by rewrite H1, H2.
Qed.

Lemma login_failure_reveals_known_code_witness :
  @authenticateUser sample_externals sample_db
     (Cred.mk "EMP999" (Js.VNumber 123456))
  = AuthResp.mk false "Invalid employee code or password" None None
  /\ @authenticateUser sample_externals sample_db
       (Cred.mk "EMP002" (Js.VNumber 123456))
     = AuthResp.mk false "An error occurred during authentication" None None.
Proof.
  destruct (@login_failure_reveals_known_code sample_externals sample_db
              "EMP999" "EMP002" ann_row (Js.VNumber 123456))
    as (H1 & H2 & _).
  - vm_compute. reflexivity.
  - vm_compute. reflexivity.
  - discriminate.
  - by split.
Defined.

(** A token is only ever minted for a row of the store: on a
    well-formed store the identity it binds has a positive id. *)
Lemma authenticateUser_identity `{Externals} (db : Database)
    (credentials : Cred.LoginCredentials) (u : EmpView.t) :
  db_wf db ->
  AuthResp.user (authenticateUser db credentials) = Some u ->
  0 < EmpView.id u
  /\ exists e, e ∈ employees db /\ u = userWithoutPassword e
     /\ AuthResp.token (authenticateUser db credentials)
        = Some (jwt_sign (Tok.mk (Emp.employeeCode e) (Emp.email e)
                                 (Emp.id e) (Emp.role e)) JWT_SECRET).
Proof.
  intros ((_ & Hids & _) & _) Hu. unfold authenticateUser in *.
  destruct (getEmployeeByCode db (Cred.employeeCode credentials)) as [e|] eqn:He;
    [|done].
  destruct (bcrypt_compare_async _ _) as [[]|]; simpl in *; [|done..].
  injection Hu as <-.
  unfold getEmployeeByCode in He. apply find_some in He as [Hin _].
  apply list_elem_of_In in Hin.
  rewrite Forall_forall in Hids. specialize (Hids e Hin).
  split; [simpl; lia|]. by exists e.
Qed.

(** ** Customer listing *)

Lemma insert_desc_perm {A : Type} (key : A -> Z) (x : A) (l : list A) :
  insert_desc key x l ≡ₚ x :: l.
Proof.
  induction l as [|y l IH]; simpl; [done|].
  destruct (key y <? key x)%Z; [done|].
  rewrite IH. apply Permutation_swap.
Qed.

(** ORDER BY neither drops nor repeats a row. *)
Lemma order_by_desc_perm {A : Type} (key : A -> Z) (l : list A) :
  order_by_desc key l ≡ₚ l.
Proof.
  induction l as [|x l IH]; simpl; [done|].
  rewrite insert_desc_perm. by rewrite IH.
Qed.

Lemma order_by_desc_elem {A : Type} (key : A -> Z) (l : list A) (x : A) :
  x ∈ order_by_desc key l <-> x ∈ l.
Proof. by rewrite order_by_desc_perm. Qed.

(** C6. The customer listing of an admin holds every customer row; the
    listing of any other caller holds exactly the rows whose
    [createdBy] is the caller's id. The caller's id is the id of an
    employee row, hence not 0. *)
Theorem customer_listing_scope `{Externals} (db : Database) (req : Request)
    (u : Tok.Payload) :
  user (authenticateRequest req) = Some u ->
  (Tok.role u = "admin" ->
     exists rows,
       CustomersRoute.GET db req = (db, NextResponse_json (BCustomers rows) 200)
       /\ rows ≡ₚ customers db
       /\ forall c, c ∈ rows <-> c ∈ customers db)
  /\ (Tok.role u <> "admin" -> Tok.id u <> 0 ->
        exists rows,
          CustomersRoute.GET db req = (db, NextResponse_json (BCustomers rows) 200)
          /\ rows ≡ₚ filter (fun c => Cust.createdBy c = Some (Tok.id u)) (customers db)
          /\ forall c, c ∈ rows <->
                       c ∈ customers db /\ Cust.createdBy c = Some (Tok.id u)).
Proof.
  intros Hu. unfold CustomersRoute.GET. rewrite Hu. split.
  - intros Hr. rewrite bool_decide_eq_true_2 by done. simpl.
    eexists; split; [done|]. split; [apply order_by_desc_perm|].
    intros c. apply order_by_desc_elem.
  - intros Hr Hid. rewrite bool_decide_eq_false_2 by done. simpl.
    rewrite (bool_decide_eq_false_2 (Tok.id u = 0)) by done.
    eexists; split; [done|]. split; [apply order_by_desc_perm|].
    intros c. rewrite order_by_desc_elem, list_elem_of_filter. tauto.
Qed.

Lemma customer_listing_scope_witness :
  exists rows,
    @CustomersRoute.GET sample_externals sample_db (request_as "EMP002" None None)
    = (sample_db, NextResponse_json (BCustomers rows) 200)
    /\ rows ≡ₚ filter (fun c => Cust.createdBy c = Some 2) (customers sample_db)
    /\ forall c, c ∈ rows <-> c ∈ customers sample_db /\ Cust.createdBy c = Some 2.
Proof.
  destruct (@customer_listing_scope sample_externals sample_db
              (request_as "EMP002" None None) ann) as [_ Hstd].
  - vm_compute. reflexivity.
  - apply Hstd.
    + vm_compute. discriminate.
    + vm_compute. discriminate.
Defined.

(** ** Rows and their ids *)

Section Rows.
Context {A : Type} (key : A -> Z).

(** [SELECT ... WHERE id = ?] finds the row that has the id. *)
Lemma find_by_id (l : list A) (x : A) :
  NoDup (key <$> l) -> x ∈ l ->
  find (fun y => id_is (Some (key x)) (key y)) l = Some x.
Proof.
  induction l as [|y l IH]; intros Hnd Hin.
  - by apply elem_of_nil in Hin.
  - rewrite fmap_cons in Hnd. apply NoDup_cons in Hnd as [Hy Hnd].
    apply elem_of_cons in Hin as [->|Hin]; simpl.
    + by rewrite id_is_same.
    + destruct (id_is (Some (key x)) (key y)) eqn:E.
      * apply id_is_true in E. injection E as E. exfalso. apply Hy.
        rewrite <- E. by apply list_elem_of_fmap_2.
      * by apply IH.
Qed.

Lemma find_by_id_none (l : list A) (i : option Z) :
  (forall x, x ∈ l -> i <> Some (key x)) ->
  find (fun y => id_is i (key y)) l = None.
Proof.
  induction l as [|y l IH]; intros Hno; simpl; [done|].
  destruct (id_is i (key y)) eqn:E.
  - apply id_is_true in E. exfalso. apply (Hno y); [left|done].
  - apply IH. intros x Hx. apply Hno. by right.
Qed.

Lemma existsb_by_id (l : list A) (x : A) :
  x ∈ l -> existsb (fun y => id_is (Some (key x)) (key y)) l = true.
Proof.
  intros Hin. apply existsb_exists. exists x. split.
  - by apply list_elem_of_In.
  - apply id_is_same.
Qed.

Lemma existsb_by_id_false (l : list A) (i : option Z) :
  (forall x, x ∈ l -> i <> Some (key x)) ->
  existsb (fun y => id_is i (key y)) l = false.
Proof.
  intros Hno. apply not_true_is_false. intros E.
  apply existsb_exists in E as (x & Hx & E).
  apply id_is_true in E. apply list_elem_of_In in Hx. by apply (Hno x).
Qed.

(** [this.changes] is positive when the row is there. *)
Lemma changes_positive (l : list A) (x : A) :
  x ∈ l ->
  (0 <? Z.of_nat (length (filter (fun y => id_is (Some (key x)) (key y) = true) l)))%Z
  = true.
Proof.
  intros Hin. apply Z.ltb_lt.
  assert (Hx : x ∈ filter (fun y => id_is (Some (key x)) (key y) = true) l).
  { apply list_elem_of_filter. split; [apply id_is_same | done]. }
  destruct (filter _ l); [by apply elem_of_nil in Hx | simpl; lia].
Qed.

Lemma changes_zero (l : list A) (i : option Z) :
  (forall x, x ∈ l -> i <> Some (key x)) ->
  filter (fun y => id_is i (key y) = true) l = [].
Proof.
  intros Hno. induction l as [|y l IH]; [done|].
  rewrite filter_cons_False.
  - apply IH. intros x Hx. apply Hno. by right.
  - intros E. apply id_is_true in E. apply (Hno y); [left|done].
Qed.

(** The row read back after an UPDATE that keeps ids. *)
Lemma find_after_update (f : A -> A) (l : list A) (x : A) :
  (forall y, key (f y) = key y) ->
  NoDup (key <$> l) -> x ∈ l ->
  find (fun y => id_is (Some (key x)) (key y))
       ((fun y => if id_is (Some (key x)) (key y) then f y else y) <$> l)
  = Some (f x).
Proof.
  intros Hf. induction l as [|y l IH]; intros Hnd Hin.
  - by apply elem_of_nil in Hin.
  - rewrite fmap_cons in Hnd. apply NoDup_cons in Hnd as [Hy Hnd].
    apply elem_of_cons in Hin as [->|Hin]; simpl.
    + rewrite id_is_same. by rewrite Hf, id_is_same.
    + destruct (id_is (Some (key x)) (key y)) eqn:E.
      * apply id_is_true in E. injection E as E. exfalso. apply Hy.
        rewrite <- E. by apply list_elem_of_fmap_2.
      * rewrite E. by apply IH.
Qed.

(** DELETE keeps exactly the rows with another id. *)
Lemma delete_filter (l : list A) (i : Z) :
  filter (fun y => id_is (Some i) (key y) = false) l
  = filter (fun y => key y <> i) l.
Proof.
  apply list_filter_iff. intros y. rewrite id_is_false. split.
  - intros Hn E. apply Hn. by rewrite E.
  - intros Hn [= E]. by apply Hn.
Qed.

End Rows.

(** ** Ownership of customer records *)

Lemma db_wf_customer_id (db : Database) (c : Cust.Customer) :
  db_wf db -> c ∈ customers db -> Cust.id c <> 0.
Proof.
  intros (_ & (_ & Hids & _)) Hin.
  rewrite Forall_forall in Hids. specialize (Hids c Hin). lia.
Qed.

Lemma db_wf_employee_id (db : Database) (e : Emp.Employee) :
  db_wf db -> e ∈ employees db -> Emp.id e <> 0.
Proof.
  intros ((_ & Hids & _) & _) Hin.
  rewrite Forall_forall in Hids. specialize (Hids e Hin). lia.
Qed.

Lemma getCustomerById_in `{Externals} (db : Database) (c : Cust.Customer) :
  db_wf db -> c ∈ customers db -> getCustomerById db (Some (Cust.id c)) = Some c.
Proof.
  intros (_ & (_ & _ & Hnd & _)) Hin. by apply find_by_id.
Qed.

Lemma getEmployeeById_in `{Externals} (db : Database) (e : Emp.Employee) :
  db_wf db -> e ∈ employees db -> getEmployeeById db (Some (Emp.id e)) = Some e.
Proof.
  intros ((_ & _ & Hnd & _) & _) Hin. by apply find_by_id.
Qed.

Section Customer_gate.
Context `{Externals}.
Variables (db : Database) (u : Tok.Payload) (c : Cust.Customer).
Hypothesis Hwf : db_wf db.
Hypothesis Hin : c ∈ customers db.

(** The test both handlers make before they write. *)
Lemma gate_closed :
  Tok.role u <> "admin" -> Cust.createdBy c <> Some (Tok.id u) ->
  negb (bool_decide (Tok.role u = "admin"))
  && CustomersRoute.not_owned_by (getCustomerById db (Some (Cust.id c))) (Tok.id u)
  = true.
Proof.
  intros Hrole Hown. rewrite (getCustomerById_in _ _ Hwf Hin).
  rewrite (bool_decide_eq_false_2 _ Hrole). simpl.
  by rewrite (bool_decide_eq_false_2 _ Hown).
Qed.

Lemma gate_open :
  Tok.role u = "admin" \/ Cust.createdBy c = Some (Tok.id u) ->
  negb (bool_decide (Tok.role u = "admin"))
  && CustomersRoute.not_owned_by (getCustomerById db (Some (Cust.id c))) (Tok.id u)
  = false.
Proof.
  intros [Hrole|Hown].
  - by rewrite (bool_decide_eq_true_2 _ Hrole).
  - rewrite (getCustomerById_in _ _ Hwf Hin). simpl.
    rewrite (bool_decide_eq_true_2 _ Hown). simpl. apply andb_false_r.
Qed.

Lemma customers_PUT_denied (req : Request) (b : Json.Body) :
  Tok.role u <> "admin" ->
  user (authenticateRequest req) = Some u ->
  json req = Some b ->
  parseInt_id (Json.id b) = Some (Cust.id c) ->
  Cust.createdBy c <> Some (Tok.id u) ->
  CustomersRoute.PUT db req
  = (db, NextResponse_json (BError "Access denied") 403).
Proof.
  intros Hrole Hu Hb Hp Hown. unfold CustomersRoute.PUT.
  rewrite Hu, Hb.
  rewrite (id_falsy_parsed _ _ Hp (db_wf_customer_id _ _ Hwf Hin)).
  by rewrite Hp, (gate_closed Hrole Hown).
Qed.

Lemma customers_DELETE_denied (req : Request) (s : string) :
  Tok.role u <> "admin" ->
  user (authenticateRequest req) = Some u ->
  search_id req = Some s ->
  Js.parseInt s = Some (Cust.id c) ->
  Cust.createdBy c <> Some (Tok.id u) ->
  CustomersRoute.DELETE db req
  = (db, NextResponse_json (BError "Access denied") 403).
Proof.
  intros Hrole Hu Hs Hp Hown. unfold CustomersRoute.DELETE.
  rewrite Hu, Hs. rewrite (search_id_parsed _ _ Hp). simpl.
  by rewrite Hp, (gate_closed Hrole Hown).
Qed.

Lemma customers_DELETE_allowed (req : Request) (s : string) :
  Tok.role u = "admin" \/ Cust.createdBy c = Some (Tok.id u) ->
  user (authenticateRequest req) = Some u ->
  search_id req = Some s ->
  Js.parseInt s = Some (Cust.id c) ->
  CustomersRoute.DELETE db req
  = (mkDatabase (employees db) (employees_seq db)
                (filter (fun c' => Cust.id c' <> Cust.id c) (customers db))
                (customers_seq db) (CURRENT_TIMESTAMP db),
     NextResponse_json (BMessage "Customer deleted successfully") 200).
Proof.
  intros Hpass Hu Hs Hp. unfold CustomersRoute.DELETE.
  rewrite Hu, Hs. rewrite (search_id_parsed _ _ Hp). simpl.
  rewrite Hp, (gate_open Hpass). simpl.
  rewrite (changes_positive Cust.id _ _ Hin). simpl.
  by rewrite delete_filter.
Qed.

Lemma customers_PUT_allowed (req : Request) (b : Json.Body) :
  Tok.role u = "admin" \/ Cust.createdBy c = Some (Tok.id u) ->
  user (authenticateRequest req) = Some u ->
  json req = Some b ->
  parseInt_id (Json.id b) = Some (Cust.id c) ->
  CustomersRoute.PUT db req
  = if bool_decide (length (customer_fields (customer_updates_of b)) = 0%nat)
    then (db, NextResponse_json (BError "No fields to update") 400)
    else if customer_email_conflict db (Some (Cust.id c)) (customer_updates_of b)
    then (db, NextResponse_json (BError "Internal server error") 500)
    else
      (mkDatabase (employees db) (employees_seq db)
         ((fun c' => if id_is (Some (Cust.id c)) (Cust.id c')
                     then set_customer (customer_updates_of b) c' else c')
            <$> customers db)
         (customers_seq db) (CURRENT_TIMESTAMP db),
       NextResponse_json
         (BCustomer "Customer updated successfully"
            (CustomersRoute.customer_json
               (set_customer (customer_updates_of b) c))) 200).
Proof.
  intros Hpass Hu Hb Hp. unfold CustomersRoute.PUT.
  rewrite Hu, Hb.
  rewrite (id_falsy_parsed _ _ Hp (db_wf_customer_id _ _ Hwf Hin)).
  rewrite Hp, (gate_open Hpass).
  fold (customer_updates_of b).
  case_bool_decide as Hf; [done|].
  unfold updateCustomer. rewrite (bool_decide_eq_false_2 _ Hf).
  unfold update_customers.
  rewrite (existsb_by_id Cust.id _ _ Hin).
  destruct (customer_email_conflict _ _ _); [done|].
  rewrite (changes_positive Cust.id _ _ Hin).
  unfold getCustomerById. simpl.
  destruct Hwf as (_ & (_ & _ & Hnd & _)).
  by rewrite (find_after_update Cust.id (set_customer (customer_updates_of b))).
Qed.

End Customer_gate.

(** C3. A caller whose role is not 'admin' asks to update, or to
    delete, an existing customer record. When the record's [createdBy]
    is not the caller's id both requests are answered 403 and the
    store stays as it is. When it is the caller's id both get past the
    gate: the delete removes the record and answers 200; the update
    answers 400 only for an empty field set, 500 only when the new
    email belongs to another customer, and otherwise writes the fields
    and answers 200. *)
Theorem customer_write_ownership `{Externals} (db : Database) (u : Tok.Payload)
    (c : Cust.Customer) (put del : Request) (b : Json.Body) (s : string) :
  db_wf db -> c ∈ customers db -> Tok.role u <> "admin" ->
  user (authenticateRequest put) = Some u ->
  json put = Some b -> parseInt_id (Json.id b) = Some (Cust.id c) ->
  user (authenticateRequest del) = Some u ->
  search_id del = Some s -> Js.parseInt s = Some (Cust.id c) ->
  (Cust.createdBy c <> Some (Tok.id u) ->
     CustomersRoute.PUT db put
     = (db, NextResponse_json (BError "Access denied") 403)
     /\ CustomersRoute.DELETE db del
        = (db, NextResponse_json (BError "Access denied") 403))
  /\ (Cust.createdBy c = Some (Tok.id u) ->
        CustomersRoute.PUT db put
        = (if bool_decide (length (customer_fields (customer_updates_of b)) = 0%nat)
           then (db, NextResponse_json (BError "No fields to update") 400)
           else if customer_email_conflict db (Some (Cust.id c))
                     (customer_updates_of b)
           then (db, NextResponse_json (BError "Internal server error") 500)
           else
             (mkDatabase (employees db) (employees_seq db)
                ((fun c' => if id_is (Some (Cust.id c)) (Cust.id c')
                            then set_customer (customer_updates_of b) c' else c')
                   <$> customers db)
                (customers_seq db) (CURRENT_TIMESTAMP db),
              NextResponse_json
                (BCustomer "Customer updated successfully"
                   (CustomersRoute.customer_json
                      (set_customer (customer_updates_of b) c))) 200))
        /\ CustomersRoute.DELETE db del
           = (mkDatabase (employees db) (employees_seq db)
                (filter (fun c' => Cust.id c' <> Cust.id c) (customers db))
                (customers_seq db) (CURRENT_TIMESTAMP db),
              NextResponse_json (BMessage "Customer deleted successfully") 200)).
Proof.
  intros Hwf Hin Hrole Hpu Hpb Hpi Hdu Hds Hdi. split; intros Hown; split.
  - by apply (customers_PUT_denied db u c Hwf Hin put b).
  - by apply (customers_DELETE_denied db u c Hwf Hin del s).
  - apply (customers_PUT_allowed db u c Hwf Hin put b); auto.
  - apply (customers_DELETE_allowed db u c Hwf Hin del s); auto.
Qed.

Lemma customer_write_ownership_witness :
  (@CustomersRoute.PUT sample_externals sample_db
     (request_as "EMP003" (Some (email_body (IdString "1") "carl@new.example")) None)
   = (sample_db, NextResponse_json (BError "Access denied") 403)
   /\ @CustomersRoute.DELETE sample_externals sample_db
        (request_as "EMP003" None (Some "1"))
      = (sample_db, NextResponse_json (BError "Access denied") 403))
  /\ status (@CustomersRoute.DELETE sample_externals sample_db
               (request_as "EMP002" None (Some "1"))).2 = 200.
Proof.
  split.
  - apply (@customer_write_ownership sample_externals sample_db bob carl
             (request_as "EMP003"
                (Some (email_body (IdString "1") "carl@new.example")) None)
             (request_as "EMP003" None (Some "1"))
             (email_body (IdString "1") "carl@new.example") "1").
    + exact sample_db_wf.
    + unfold sample_db, carl; simpl. in_list.
    + vm_compute. discriminate.
    + vm_compute. reflexivity.
    + reflexivity.
    + vm_compute. reflexivity.
    + vm_compute. reflexivity.
    + reflexivity.
    + vm_compute. reflexivity.
    + vm_compute. discriminate.
  - vm_compute. reflexivity.
Defined.

(** ** Customer records without an owner *)

(** C9. A customer record whose [createdBy] is NULL: a caller whose
    role is not 'admin' is answered 403 on update and on delete, with
    the store unchanged, and does not find the record in the listing
    (the caller's id being an employee id, hence not 0); a caller
    whose role is 'admin' finds it in the listing, gets past the gate
    on update, and deletes it. *)
Theorem ownerless_customers_admin_only `{Externals} (db : Database)
    (u : Tok.Payload) (c : Cust.Customer) (put del lst : Request)
    (b : Json.Body) (s : string) :
  db_wf db -> c ∈ customers db -> Cust.createdBy c = None ->
  user (authenticateRequest put) = Some u ->
  json put = Some b -> parseInt_id (Json.id b) = Some (Cust.id c) ->
  user (authenticateRequest del) = Some u ->
  search_id del = Some s -> Js.parseInt s = Some (Cust.id c) ->
  user (authenticateRequest lst) = Some u ->
  (Tok.role u <> "admin" ->
     CustomersRoute.PUT db put
     = (db, NextResponse_json (BError "Access denied") 403)
     /\ CustomersRoute.DELETE db del
        = (db, NextResponse_json (BError "Access denied") 403)
     /\ (Tok.id u <> 0 ->
           exists rows,
             CustomersRoute.GET db lst
             = (db, NextResponse_json (BCustomers rows) 200)
             /\ c ∉ rows))
  /\ (Tok.role u = "admin" ->
        (exists rows,
           CustomersRoute.GET db lst = (db, NextResponse_json (BCustomers rows) 200)
           /\ c ∈ rows)
        /\ CustomersRoute.PUT db put
           = (if bool_decide (length (customer_fields (customer_updates_of b)) = 0%nat)
              then (db, NextResponse_json (BError "No fields to update") 400)
              else if customer_email_conflict db (Some (Cust.id c))
                        (customer_updates_of b)
              then (db, NextResponse_json (BError "Internal server error") 500)
              else
                (mkDatabase (employees db) (employees_seq db)
                   ((fun c' => if id_is (Some (Cust.id c)) (Cust.id c')
                               then set_customer (customer_updates_of b) c' else c')
                      <$> customers db)
                   (customers_seq db) (CURRENT_TIMESTAMP db),
                 NextResponse_json
                   (BCustomer "Customer updated successfully"
                      (CustomersRoute.customer_json
                         (set_customer (customer_updates_of b) c))) 200))
        /\ CustomersRoute.DELETE db del
           = (mkDatabase (employees db) (employees_seq db)
                (filter (fun c' => Cust.id c' <> Cust.id c) (customers db))
                (customers_seq db) (CURRENT_TIMESTAMP db),
              NextResponse_json (BMessage "Customer deleted successfully") 200)).
Proof.
  intros Hwf Hin Hnull Hpu Hpb Hpi Hdu Hds Hdi Hlu.
  assert (Hown : Cust.createdBy c <> Some (Tok.id u)) by (by rewrite Hnull).
  split; intros Hrole.
  - split; [by apply (customers_PUT_denied db u c Hwf Hin put b)|].
    split; [by apply (customers_DELETE_denied db u c Hwf Hin del s)|].
    intros Hid. unfold CustomersRoute.GET. rewrite Hlu.
    rewrite (bool_decide_eq_false_2 _ Hrole). simpl.
    rewrite (bool_decide_eq_false_2 _ Hid).
    eexists; split; [done|].
    rewrite order_by_desc_elem, list_elem_of_filter. tauto.
  - split; [|split].
    + unfold CustomersRoute.GET. rewrite Hlu.
      rewrite (bool_decide_eq_true_2 _ Hrole). simpl.
      eexists; split; [done|]. by apply order_by_desc_elem.
    + apply (customers_PUT_allowed db u c Hwf Hin put b); auto.
    + apply (customers_DELETE_allowed db u c Hwf Hin del s); auto.
Qed.

Lemma ownerless_customers_admin_only_witness :
  @CustomersRoute.PUT sample_externals sample_db
     (request_as "EMP002" (Some (email_body (IdNumber 3) "eve@new.example")) None)
  = (sample_db, NextResponse_json (BError "Access denied") 403)
  /\ @CustomersRoute.DELETE sample_externals sample_db
       (request_as "EMP002" None (Some "3"))
     = (sample_db, NextResponse_json (BError "Access denied") 403)
  /\ exists rows,
       @CustomersRoute.GET sample_externals sample_db
          (request_as "EMP002" None None)
       = (sample_db, NextResponse_json (BCustomers rows) 200)
       /\ eve ∉ rows.
Proof.
  destruct (@ownerless_customers_admin_only sample_externals sample_db ann eve
              (request_as "EMP002"
                 (Some (email_body (IdNumber 3) "eve@new.example")) None)
              (request_as "EMP002" None (Some "3"))
              (request_as "EMP002" None None)
              (email_body (IdNumber 3) "eve@new.example") "3") as [Hstd _].
  - exact sample_db_wf.
  - unfold sample_db, eve; simpl. in_list.
  - reflexivity.
  - vm_compute. reflexivity.
  - reflexivity.
  - reflexivity.
  - vm_compute. reflexivity.
  - reflexivity.
  - vm_compute. reflexivity.
  - vm_compute. reflexivity.
  - destruct Hstd as (Hput & Hdel & Hlist).
    + vm_compute. discriminate.
    + split; [exact Hput|]. split; [exact Hdel|].
      apply Hlist. vm_compute. discriminate.
Defined.

(** ** The owner of a customer record *)

Lemma owners_lookup `{Externals} (db db' : Database) (i : option Z) :
  owners db' = owners db ->
  Cust.createdBy <$> getCustomerById db' i = Cust.createdBy <$> getCustomerById db i.
Proof.
  unfold owners, getCustomerById.
  generalize (customers db) as l. generalize (customers db') as l'.
  induction l' as [|x l' IH]; intros [|y l] E; try done.
  rewrite !fmap_cons in E. injection E as Eid Eown E. simpl.
  rewrite Eid. destruct (id_is i (Cust.id y)).
  - simpl. by rewrite Eown.
  - by apply IH.
Qed.

(** An UPDATE whose SET clause has no [createdBy] keeps the column. *)
Lemma updateCustomer_owners `{Externals} (db : Database) (i : option Z)
    (updates : CustUpd.t) :
  CustUpd.createdBy updates = None ->
  owners (updateCustomer db i updates).1 = owners db.
Proof.
  intros Hnone. unfold updateCustomer, update_customers.
  case_bool_decide; [done|].
  destruct (existsb _ _); [|by case_match].
  destruct (customer_email_conflict _ _ _); [done|].
  case_match; simpl; unfold owners; simpl;
    rewrite <- list_fmap_compose; apply list_fmap_ext; intros _ c _; simpl;
    (destruct (id_is i (Cust.id c)); [simpl; by rewrite Hnone | done]).
Qed.

Lemma customers_PUT_owners `{Externals} (db : Database) (req : Request) :
  owners (CustomersRoute.PUT db req).1 = owners db.
Proof.
  unfold CustomersRoute.PUT.
  destruct (user (authenticateRequest req)) as [u|]; [|done].
  destruct (json req) as [b|]; [|done].
  destruct (id_falsy _); [done|].
  destruct (_ && _); [done|].
  case_bool_decide; [done|].
  pose proof (updateCustomer_owners db (parseInt_id (Json.id b))
                (CustUpd.mk (Json.firstname b) (Json.lastname b) (Json.mobile b)
                            (Json.dateOfBirth b) (Json.email b) None None)
                eq_refl) as Hown.
  destruct (updateCustomer _ _ _) as [db' [[c|]|err]]; exact Hown.
Qed.

(** The store operation itself would write a [createdBy] it is given:
    the column is kept because the PUT handler never puts that key in
    [updates]. *)
Lemma updateCustomer_writes_createdBy :
  Cust.createdBy <$>
    customers (@updateCustomer sample_db (Some 1)
                 (CustUpd.mk None None None None None (Some (Some 3)) None)).1
  = [Some 3; Some 3; None].
Proof. vm_compute. reflexivity. Qed.

(** C7. A customer creation that succeeds appends one row whose
    [createdBy] is the caller's id (an employee id, hence not 0), and
    no customer update request changes the [createdBy] of any row:
    the id and owner columns are the same before and after, and so is
    the owner read back for any id. *)
Theorem customer_owner_fixed `{Externals} (db : Database) (post put : Request)
    (u : Tok.Payload) :
  (user (authenticateRequest post) = Some u -> Tok.id u <> 0 ->
   status (CustomersRoute.POST db post).2 = 201 ->
   exists c,
     customers (CustomersRoute.POST db post).1 = (customers db ++ [c])%list
     /\ Cust.createdBy c = Some (Tok.id u)
     /\ body (CustomersRoute.POST db post).2
        = BCustomer "Customer created successfully" (CustomersRoute.customer_json c))
  /\ owners (CustomersRoute.PUT db put).1 = owners db
  /\ (forall i, Cust.createdBy <$> getCustomerById (CustomersRoute.PUT db put).1 i
                = Cust.createdBy <$> getCustomerById db i).
Proof.
  split; [|split].
  - intros Hu Hid. unfold CustomersRoute.POST. rewrite Hu.
    destruct (json post) as [b|]; [|done].
    destruct (_ || _); [done|].
    unfold createCustomer, insert_customer.
    destruct (existsb _ _); [done|].
    destruct (existsb _ _); [done|].
    simpl. intros _. eexists. split; [done|]. simpl.
    by rewrite (bool_decide_eq_false_2 _ Hid).
  - apply customers_PUT_owners.
  - intros i. apply owners_lookup, customers_PUT_owners.
Qed.

Lemma customer_owner_fixed_witness :
  exists c,
    customers (@CustomersRoute.POST sample_externals sample_db
                 (request_as "EMP003"
                    (Some (new_customer_body "Finn" "finn@example.com")) None)).1
    = (customers sample_db ++ [c])%list
    /\ Cust.createdBy c = Some 3
    /\ body (@CustomersRoute.POST sample_externals sample_db
               (request_as "EMP003"
                  (Some (new_customer_body "Finn" "finn@example.com")) None)).2
       = BCustomer "Customer created successfully" (CustomersRoute.customer_json c).
Proof.
  destruct (@customer_owner_fixed sample_externals sample_db
              (request_as "EMP003"
                 (Some (new_customer_body "Finn" "finn@example.com")) None)
              (request_as "EMP003" None None) bob) as [Hcreate _].
  apply Hcreate.
  - vm_compute. reflexivity.
  - vm_compute. discriminate.
  - vm_compute. reflexivity.
Defined.

(** ** Required fields of a creation *)

Lemma falsy_absent_or_empty (v : option string) :
  Js.falsy v = true <-> absent_or_empty (Js.VString <$> v).
Proof.
  unfold absent_or_empty. destruct v as [[|a s]|]; simpl.
  - split; [by right | done].
  - split; [done | by intros [|]].
  - split; [by left | done].
Qed.

Lemma absent_or_empty_falsy (v : option Js.Value) :
  absent_or_empty v -> Js.falsy_json v = true.
Proof. by intros [->| ->]. Qed.

Lemma employee_required_falsy (b : Json.Body) :
  Exists absent_or_empty (employee_required b) ->
  Js.falsy (Json.firstname b) || Js.falsy (Json.lastname b)
  || Js.falsy (Json.mobile b) || Js.falsy (Json.dateOfBirth b)
  || Js.falsy (Json.email b) || Js.falsy_json (Json.password b) = true.
Proof.
  unfold employee_required. rewrite !Exists_cons, Exists_nil.
  rewrite <- !falsy_absent_or_empty.
  intros [->|[->|[->|[->|[->|[Hp|[]]]]]]]; rewrite ?orb_true_r; try done.
  by rewrite (absent_or_empty_falsy _ Hp), ?orb_true_r.
Qed.

Lemma customer_required_falsy (b : Json.Body) :
  Exists absent_or_empty (customer_required b) ->
  Js.falsy (Json.firstname b) || Js.falsy (Json.lastname b)
  || Js.falsy (Json.mobile b) || Js.falsy (Json.dateOfBirth b)
  || Js.falsy (Json.email b) = true.
Proof.
  unfold customer_required. rewrite !Exists_cons, Exists_nil.
  rewrite <- !falsy_absent_or_empty.
  intros [->|[->|[->|[->|[->|[]]]]]]; rewrite ?orb_true_r; done.
Qed.

(** C10. A creation request one of whose required members is missing
    or is the empty string creates nothing, whoever sends it; once
    past the identity and role checks it is answered 400 'All fields
    are required', for an empty string exactly as for a missing
    member. *)
Theorem creation_requires_fields `{Externals} (db : Database) (req : Request)
    (b : Json.Body) :
  json req = Some b ->
  (Exists absent_or_empty (employee_required b) ->
     (EmployeesRoute.POST db req).1 = db
     /\ status (EmployeesRoute.POST db req).2 ∈ [400; 401; 403]
     /\ forall u, user (authenticateRequest req) = Some u ->
                  Tok.role u = "admin" ->
                  EmployeesRoute.POST db req
                  = (db, NextResponse_json (BError "All fields are required") 400))
  /\ (Exists absent_or_empty (customer_required b) ->
        (CustomersRoute.POST db req).1 = db
        /\ status (CustomersRoute.POST db req).2 ∈ [400; 401]
        /\ forall u, user (authenticateRequest req) = Some u ->
                     CustomersRoute.POST db req
                     = (db, NextResponse_json (BError "All fields are required") 400)).
Proof.
  intros Hb. split; intros Hex.
  - apply employee_required_falsy in Hex.
    unfold EmployeesRoute.POST. rewrite Hb.
    destruct (user (authenticateRequest req)) as [u|].
    + case_bool_decide as Hr; simpl.
      * rewrite Hex. split; [done|]. split; [in_list|]. done.
      * split; [done|]. split; [in_list|]. by intros u' [= <-] Hr'.
    + split; [done|]. split; [in_list|]. done.
  - apply customer_required_falsy in Hex.
    unfold CustomersRoute.POST. rewrite Hb.
    destruct (user (authenticateRequest req)) as [u|].
    + rewrite Hex. split; [done|]. split; [in_list|]. done.
    + split; [done|]. split; [in_list|]. done.
Qed.

Lemma creation_requires_fields_witness :
  @EmployeesRoute.POST sample_externals sample_db
     (request_as "ADMIN001" (Some (new_employee_body "" "gus@cms.com")) None)
  = (sample_db, NextResponse_json (BError "All fields are required") 400).
Proof.
  destruct (@creation_requires_fields sample_externals sample_db
              (request_as "ADMIN001"
                 (Some (new_employee_body "" "gus@cms.com")) None)
              (new_employee_body "" "gus@cms.com") eq_refl) as [Hstaff _].
  destruct Hstaff as (_ & _ & Hadmin).
  - apply Exists_cons_hd. right. reflexivity.
  - apply (Hadmin (Tok.mk "ADMIN001" "admin@cms.com" 1 "admin")).
    + vm_compute. reflexivity.
    + reflexivity.
Defined.

(** ** Partial updates *)

Section Update_rows.
Context {A : Type} (key : A -> Z) (f : A -> A).

Lemma update_none (l : list A) (i : option Z) :
  (forall y, y ∈ l -> i <> Some (key y)) ->
  (fun y => if id_is i (key y) then f y else y) <$> l = l.
Proof.
  induction l as [|y l IH]; intros Hno; [done|].
  rewrite fmap_cons. f_equal.
  - destruct (id_is i (key y)) eqn:E; [|done].
    apply id_is_true in E. exfalso. apply (Hno y); [left|done].
  - apply IH. intros z Hz. apply Hno. by right.
Qed.

(** With ids unique, [UPDATE ... WHERE id = ?] rewrites one row, in
    place. *)
Lemma update_at_index (l : list A) (i : nat) (x : A) :
  NoDup (key <$> l) -> l !! i = Some x ->
  (fun y => if id_is (Some (key x)) (key y) then f y else y) <$> l
  = <[i := f x]> l.
Proof.
  revert i. induction l as [|y l IH]; intros i Hnd Hi; [done|].
  rewrite fmap_cons in Hnd. apply NoDup_cons in Hnd as [Hy Hnd].
  destruct i as [|i]; simpl in Hi.
  - injection Hi as ->. rewrite fmap_cons, id_is_same. simpl. f_equal.
    apply update_none. intros z Hz [= E]. apply Hy. rewrite E.
    by apply list_elem_of_fmap_2.
  - rewrite fmap_cons. simpl.
    assert (id_is (Some (key x)) (key y) = false) as ->.
    { apply id_is_false. intros [= E]. apply Hy. rewrite <- E.
      apply list_elem_of_fmap_2. by eapply list_elem_of_lookup_2. }
    f_equal. by apply IH.
Qed.

End Update_rows.

Lemma set_employee_email_only (b : Json.Body) (v : string) (e : Emp.Employee) :
  email_only b v ->
  set_employee (employee_updates_of b) e = employee_with_email v e.
Proof.
  intros (E1 & E2 & E3 & E4 & E5 & E6).
  unfold set_employee, employee_updates_of, employee_with_email. simpl.
  by rewrite E1, E2, E3, E4, E5, E6.
Qed.

Lemma set_customer_email_only (b : Json.Body) (v : string) (c : Cust.Customer) :
  customer_email_only b v ->
  set_customer (customer_updates_of b) c = customer_with_email v c.
Proof.
  intros (E1 & E2 & E3 & E4 & E5).
  unfold set_customer, customer_updates_of, customer_with_email. simpl.
  by rewrite E1, E2, E3, E4, E5.
Qed.

Lemma employee_email_conflict_spec `{Externals} (db : Database) (i : Z)
    (b : Json.Body) (v : string) :
  email_only b v ->
  employee_email_conflict db (Some i) (employee_updates_of b) = true
  <-> exists e', e' ∈ employees db /\ Emp.email e' = v /\ Emp.id e' <> i.
Proof.
  intros (_ & _ & _ & _ & E5 & _).
  unfold employee_email_conflict, employee_updates_of. simpl. rewrite E5.
  rewrite existsb_exists. split.
  - intros (e' & Hin & Hc). apply andb_true_iff in Hc as [Hid Hmail].
    exists e'. apply list_elem_of_In in Hin. apply bool_decide_eq_true in Hmail.
    apply negb_true_iff, id_is_false in Hid.
    repeat split; [done..|]. intros E. apply Hid. by rewrite E.
  - intros (e' & Hin & Hmail & Hid). exists e'.
    split; [by apply list_elem_of_In|].
    apply andb_true_iff. split.
    + apply negb_true_iff, id_is_false. by intros [= E].
    + by apply bool_decide_eq_true.
Qed.

Lemma customer_email_conflict_spec `{Externals} (db : Database) (i : Z)
    (b : Json.Body) (v : string) :
  customer_email_only b v ->
  customer_email_conflict db (Some i) (customer_updates_of b) = true
  <-> exists c', c' ∈ customers db /\ Cust.email c' = v /\ Cust.id c' <> i.
Proof.
  intros (_ & _ & _ & _ & E5).
  unfold customer_email_conflict, customer_updates_of. simpl. rewrite E5.
  rewrite existsb_exists. split.
  - intros (c' & Hin & Hc). apply andb_true_iff in Hc as [Hid Hmail].
    exists c'. apply list_elem_of_In in Hin. apply bool_decide_eq_true in Hmail.
    apply negb_true_iff, id_is_false in Hid.
    repeat split; [done..|]. intros E. apply Hid. by rewrite E.
  - intros (c' & Hin & Hmail & Hid). exists c'.
    split; [by apply list_elem_of_In|].
    apply andb_true_iff. split.
    + apply negb_true_iff, id_is_false. by intros [= E].
    + by apply bool_decide_eq_true.
Qed.

Lemma employees_PUT_admin `{Externals} (db : Database) (u : Tok.Payload)
    (e : Emp.Employee) (req : Request) (b : Json.Body) :
  db_wf db -> e ∈ employees db ->
  user (authenticateRequest req) = Some u -> Tok.role u = "admin" ->
  json req = Some b -> parseInt_id (Json.id b) = Some (Emp.id e) ->
  EmployeesRoute.PUT db req
  = if bool_decide (length (employee_fields (employee_updates_of b)) = 0%nat)
    then (db, NextResponse_json (BError "No fields to update") 400)
    else if employee_email_conflict db (Some (Emp.id e)) (employee_updates_of b)
    then (db, NextResponse_json (BError "Internal server error") 500)
    else
      (mkDatabase
         ((fun e' => if id_is (Some (Emp.id e)) (Emp.id e')
                     then set_employee (employee_updates_of b) e' else e')
            <$> employees db)
         (employees_seq db) (customers db) (customers_seq db)
         (CURRENT_TIMESTAMP db),
       NextResponse_json
         (BEmployee "Employee updated successfully"
            (EmployeesRoute.employee_json
               (set_employee (employee_updates_of b) e))) 200).
Proof.
  intros Hwf Hin Hu Hrole Hb Hp. unfold EmployeesRoute.PUT.
  rewrite Hu, Hb. rewrite (bool_decide_eq_true_2 _ Hrole). simpl.
  rewrite (id_falsy_parsed _ _ Hp (db_wf_employee_id _ _ Hwf Hin)).
  rewrite Hp. fold (employee_updates_of b).
  case_bool_decide as Hf; [done|].
  unfold updateEmployee. rewrite (bool_decide_eq_false_2 _ Hf).
  unfold update_employees.
  rewrite (existsb_by_id Emp.id _ _ Hin).
  destruct (employee_email_conflict _ _ _); [done|].
  rewrite (changes_positive Emp.id _ _ Hin).
  unfold getEmployeeById. simpl.
  destruct Hwf as ((_ & _ & Hnd & _) & _).
  by rewrite (find_after_update Emp.id (set_employee (employee_updates_of b))).
Qed.

Lemma no_updatable_field_employee (b : Json.Body) :
  no_updatable_field b -> employee_fields (employee_updates_of b) = [].
Proof.
  intros (E1 & E2 & E3 & E4 & E5 & E6).
  unfold employee_fields, employee_updates_of. simpl.
  by rewrite E1, E2, E3, E4, E5, E6.
Qed.

Lemma no_updatable_field_customer (b : Json.Body) :
  no_customer_field b -> customer_fields (customer_updates_of b) = [].
Proof.
  intros (E1 & E2 & E3 & E4 & E5).
  unfold customer_fields, customer_updates_of. simpl.
  by rewrite E1, E2, E3, E4, E5.
Qed.

Lemma email_only_employee_fields (b : Json.Body) (v : string) :
  email_only b v -> employee_fields (employee_updates_of b) = ["email"].
Proof.
  intros (E1 & E2 & E3 & E4 & E5 & E6).
  unfold employee_fields, employee_updates_of. simpl.
  by rewrite E1, E2, E3, E4, E5, E6.
Qed.

Lemma email_only_customer_fields (b : Json.Body) (v : string) :
  customer_email_only b v -> customer_fields (customer_updates_of b) = ["email"].
Proof.
  intros (E1 & E2 & E3 & E4 & E5).
  unfold customer_fields, customer_updates_of. simpl.
  by rewrite E1, E2, E3, E4, E5.
Qed.

(** The store methods themselves answer an empty field set with
    [null] and write nothing. *)
Lemma updateEmployee_empty `{Externals} (db : Database) (id : option Z)
    (updates : EmpUpd.t) :
  employee_fields updates = [] ->
  updateEmployee db id updates = (db, Resolved None).
Proof. intros Hno. unfold updateEmployee. by rewrite Hno. Qed.

Lemma updateCustomer_empty `{Externals} (db : Database) (id : option Z)
    (updates : CustUpd.t) :
  customer_fields updates = [] ->
  updateCustomer db id updates = (db, Resolved None).
Proof. intros Hno. unfold updateCustomer. by rewrite Hno. Qed.

(** An update with no field: nothing is written and the answer is a
    4xx; past the checks on the caller it is the 400 for the missing
    id or the 400 'No fields to update'. *)
Lemma employees_PUT_empty `{Externals} (db : Database) (req : Request)
    (b : Json.Body) :
  json req = Some b -> no_updatable_field b ->
  (EmployeesRoute.PUT db req).1 = db
  /\ status (EmployeesRoute.PUT db req).2 ∈ [400; 401; 403]
  /\ forall u, user (authenticateRequest req) = Some u -> Tok.role u = "admin" ->
       status (EmployeesRoute.PUT db req).2 = 400
       /\ (id_falsy (Json.id b) = false ->
           EmployeesRoute.PUT db req
           = (db, NextResponse_json (BError "No fields to update") 400)).
Proof.
  intros Hb Hno. apply no_updatable_field_employee in Hno.
  unfold EmployeesRoute.PUT. rewrite Hb.
  destruct (user (authenticateRequest req)) as [u|].
  - case_bool_decide as Hr; simpl.
    + fold (employee_updates_of b). rewrite Hno. simpl.
      destruct (id_falsy (Json.id b)); simpl.
      * split; [done|]. split; [in_list|]. intros u' _ _. done.
      * split; [done|]. split; [in_list|]. intros u' _ _. done.
    + split; [done|]. split; [in_list|]. by intros u' [= <-] Hr'.
  - split; [done|]. split; [in_list|]. done.
Qed.

Lemma customers_PUT_empty `{Externals} (db : Database) (req : Request)
    (b : Json.Body) :
  json req = Some b -> no_customer_field b ->
  (CustomersRoute.PUT db req).1 = db
  /\ status (CustomersRoute.PUT db req).2 ∈ [400; 401; 403]
  /\ forall u c, user (authenticateRequest req) = Some u ->
       db_wf db -> c ∈ customers db ->
       parseInt_id (Json.id b) = Some (Cust.id c) ->
       Tok.role u = "admin" \/ Cust.createdBy c = Some (Tok.id u) ->
       CustomersRoute.PUT db req
       = (db, NextResponse_json (BError "No fields to update") 400).
Proof.
  intros Hb Hno. apply no_updatable_field_customer in Hno.
  split; [|split].
  - unfold CustomersRoute.PUT. rewrite Hb.
    destruct (user (authenticateRequest req)) as [u|]; [|done].
    destruct (id_falsy _); [done|]. destruct (_ && _); [done|].
    fold (customer_updates_of b). by rewrite Hno.
  - unfold CustomersRoute.PUT. rewrite Hb.
    destruct (user (authenticateRequest req)) as [u|]; [|in_list].
    destruct (id_falsy _); [in_list|]. destruct (_ && _); [in_list|].
    fold (customer_updates_of b). rewrite Hno. in_list.
  - intros u c Hu Hwf Hin Hp Hpass.
    rewrite (customers_PUT_allowed db u c Hwf Hin req b Hpass Hu Hb Hp).
    by rewrite Hno.
Qed.

(** C8. An update request with no updatable field writes nothing and
    is answered with a 4xx (400 once the caller has passed the checks
    on identity, role and ownership). An update request whose only
    field is [email], for an existing id, replaces the email of that
    one row, in place, and answers 200: code, id, role and every
    other column of the row, every other row and the other table stay
    as they were. The one exception is the UNIQUE constraint: when
    another row already has that email, nothing is written and the
    answer is 500. *)
Theorem partial_update_frame `{Externals} (db : Database) (req : Request)
    (b : Json.Body) :
  db_wf db -> json req = Some b ->
  (no_updatable_field b ->
     (EmployeesRoute.PUT db req).1 = db
     /\ status (EmployeesRoute.PUT db req).2 ∈ [400; 401; 403]
     /\ forall u, user (authenticateRequest req) = Some u ->
          Tok.role u = "admin" ->
          status (EmployeesRoute.PUT db req).2 = 400)
  /\ (no_customer_field b ->
        (CustomersRoute.PUT db req).1 = db
        /\ status (CustomersRoute.PUT db req).2 ∈ [400; 401; 403]
        /\ forall u c, user (authenticateRequest req) = Some u ->
             c ∈ customers db ->
             parseInt_id (Json.id b) = Some (Cust.id c) ->
             Tok.role u = "admin" \/ Cust.createdBy c = Some (Tok.id u) ->
             status (CustomersRoute.PUT db req).2 = 400)
  /\ (forall v u i e,
        email_only b v -> user (authenticateRequest req) = Some u ->
        Tok.role u = "admin" ->
        employees db !! i = Some e ->
        parseInt_id (Json.id b) = Some (Emp.id e) ->
        ((forall e', e' ∈ employees db -> Emp.email e' = v ->
                     Emp.id e' = Emp.id e) ->
         EmployeesRoute.PUT db req
         = (mkDatabase (<[i := employee_with_email v e]> (employees db))
                       (employees_seq db) (customers db) (customers_seq db)
                       (CURRENT_TIMESTAMP db),
            NextResponse_json
              (BEmployee "Employee updated successfully"
                 (EmployeesRoute.employee_json (employee_with_email v e))) 200))
        /\ ((exists e', e' ∈ employees db /\ Emp.email e' = v
                        /\ Emp.id e' <> Emp.id e) ->
            EmployeesRoute.PUT db req
            = (db, NextResponse_json (BError "Internal server error") 500)))
  /\ (forall v u i c,
        customer_email_only b v -> user (authenticateRequest req) = Some u ->
        Tok.role u = "admin" \/ Cust.createdBy c = Some (Tok.id u) ->
        customers db !! i = Some c ->
        parseInt_id (Json.id b) = Some (Cust.id c) ->
        ((forall c', c' ∈ customers db -> Cust.email c' = v ->
                     Cust.id c' = Cust.id c) ->
         CustomersRoute.PUT db req
         = (mkDatabase (employees db) (employees_seq db)
                       (<[i := customer_with_email v c]> (customers db))
                       (customers_seq db) (CURRENT_TIMESTAMP db),
            NextResponse_json
              (BCustomer "Customer updated successfully"
                 (CustomersRoute.customer_json (customer_with_email v c))) 200))
        /\ ((exists c', c' ∈ customers db /\ Cust.email c' = v
                        /\ Cust.id c' <> Cust.id c) ->
            CustomersRoute.PUT db req
            = (db, NextResponse_json (BError "Internal server error") 500))).
Proof.
  intros Hwf Hb. split; [|split; [|split]].
  - intros Hno.
    destruct (employees_PUT_empty db req b Hb Hno) as (Hdb & Hst & Hadm).
    split; [done|]. split; [done|].
    intros u Hu Hr. by apply (Hadm u).
  - intros Hno.
    destruct (customers_PUT_empty db req b Hb Hno) as (Hdb & Hst & Hpass).
    split; [done|]. split; [done|].
    intros u c Hu Hin Hp Hg. by rewrite (Hpass u c).
  - intros v u i e Hmail Hu Hr Hi Hp.
    assert (Hin : e ∈ employees db) by (by eapply list_elem_of_lookup_2).
    pose proof (employees_PUT_admin db u e req b Hwf Hin Hu Hr Hb Hp) as Hput.
    rewrite (email_only_employee_fields b v Hmail) in Hput. simpl in Hput.
    pose proof (employee_email_conflict_spec db (Emp.id e) b v Hmail) as Hc.
    destruct (employee_email_conflict db (Some (Emp.id e)) (employee_updates_of b)).
    + split; [|done]. intros Hfree. exfalso.
      destruct Hc as [Hc _]. destruct (Hc eq_refl) as (e' & Hin' & Hm & Hid).
      apply Hid. by apply Hfree.
    + split.
      * intros _. rewrite Hput.
        destruct Hwf as ((_ & _ & Hnd & _) & _).
        rewrite (update_at_index Emp.id _ _ i e Hnd Hi).
        by rewrite (set_employee_email_only b v e Hmail).
      * intros Hex. apply Hc in Hex. done.
  - intros v u i c Hmail Hu Hg Hi Hp.
    assert (Hin : c ∈ customers db) by (by eapply list_elem_of_lookup_2).
    pose proof (customers_PUT_allowed db u c Hwf Hin req b Hg Hu Hb Hp) as Hput.
    rewrite (email_only_customer_fields b v Hmail) in Hput. simpl in Hput.
    pose proof (customer_email_conflict_spec db (Cust.id c) b v Hmail) as Hc.
    destruct (customer_email_conflict db (Some (Cust.id c)) (customer_updates_of b)).
    + split; [|done]. intros Hfree. exfalso.
      destruct Hc as [Hc _]. destruct (Hc eq_refl) as (c' & Hin' & Hm & Hid).
      apply Hid. by apply Hfree.
    + split.
      * intros _. rewrite Hput.
        destruct Hwf as (_ & (_ & _ & Hnd & _)).
        rewrite (update_at_index Cust.id _ _ i c Hnd Hi).
        by rewrite (set_customer_email_only b v c Hmail).
      * intros Hex. apply Hc in Hex. done.
Qed.

Lemma partial_update_frame_witness :
  @EmployeesRoute.PUT sample_externals sample_db
     (request_as "ADMIN001" (Some (email_body (IdString "2") "x@y.com")) None)
  = (mkDatabase (<[1%nat := employee_with_email "x@y.com" ann_row]>
                   (employees sample_db))
                (employees_seq sample_db) (customers sample_db)
                (customers_seq sample_db) (CURRENT_TIMESTAMP sample_db),
     NextResponse_json
       (BEmployee "Employee updated successfully"
          (EmployeesRoute.employee_json
             (employee_with_email "x@y.com" ann_row))) 200).
Proof.
  destruct (@partial_update_frame sample_externals sample_db
              (request_as "ADMIN001"
                 (Some (email_body (IdString "2") "x@y.com")) None)
              (email_body (IdString "2") "x@y.com") sample_db_wf eq_refl)
    as (_ & _ & Hstaff & _).
  destruct (Hstaff "x@y.com" (Tok.mk "ADMIN001" "admin@cms.com" 1 "admin")
              1%nat ann_row) as [Hfree _].
  - unfold email_only. simpl. tauto.
  - vm_compute. reflexivity.
  - reflexivity.
  - reflexivity.
  - vm_compute. reflexivity.
  - apply Hfree. intros e' Hin Hm.
    unfold sample_db in Hin. simpl in Hin.
    repeat (apply elem_of_cons in Hin as [->|Hin]; [simpl in Hm; discriminate|]).
    by apply elem_of_nil in Hin.
Defined.

(** ** Human codes *)

(** The generator reads nothing but the number of rows. *)
Lemma generateUniqueEmployeeCode_count `{Externals} (db1 db2 : Database) :
  length (employees db1) = length (employees db2) ->
  generateUniqueEmployeeCode db1 = generateUniqueEmployeeCode db2.
Proof. unfold generateUniqueEmployeeCode. by intros ->. Qed.

Lemma generateUniqueCustomerCode_count `{Externals} (db1 db2 : Database) :
  length (customers db1) = length (customers db2) ->
  generateUniqueCustomerCode db1 = generateUniqueCustomerCode db2.
Proof. unfold generateUniqueCustomerCode. by intros ->. Qed.

(** Two creations that both read the count before either inserts get
    the same code; the UNIQUE constraint then rejects the second
    insert. *)
Lemma concurrent_creations_collide `{Externals} (db db1 : Database) (id1 : Z)
    (fn1 ln1 mob1 dob1 mail1 pw1 rl1 fn2 ln2 mob2 dob2 mail2 pw2 rl2 : string) :
  insert_employee db (generateUniqueEmployeeCode db)
                  fn1 ln1 mob1 dob1 mail1 pw1 rl1 = (db1, Resolved id1) ->
  exists detail,
    insert_employee db1 (generateUniqueEmployeeCode db)
                    fn2 ln2 mob2 dob2 mail2 pw2 rl2
    = (db1, Rejected (SQLITE_CONSTRAINT detail)).
Proof.
  unfold insert_employee at 1.
  destruct (existsb _ _); [done|]. destruct (existsb _ _); [done|].
  intros [= <- <-]. unfold insert_employee. simpl.
  destruct (existsb _ _); [by eexists|].
  rewrite existsb_app. simpl.
  rewrite bool_decide_eq_true_2 by done. rewrite orb_true_r. by eexists.
Qed.

Lemma delete_last_row (l : list Emp.Employee) (row : Emp.Employee) (i : Z) :
  Forall (fun e => Emp.id e <> i) l -> Emp.id row = i ->
  filter (fun e => id_is (Some i) (Emp.id e) = false) (l ++ [row])%list = l.
Proof.
  intros Hl Hrow. rewrite filter_app, filter_cons_False, filter_nil, app_nil_r.
  - induction l as [|e l IH]; [done|].
    apply Forall_cons in Hl as [He Hl].
    rewrite filter_cons_True; [by rewrite IH|].
    apply id_is_false. by intros [= E].
  - rewrite Hrow, id_is_same. done.
Qed.

(** Deleting the row a creation has just added puts the table back,
    so the next creation is handed the very same code. *)
Lemma code_reissued_after_deleting_last `{Externals} (db db1 : Database)
    (employee : NewEmp.t) (created : Emp.Employee) :
  db_wf db ->
  createEmployee db employee = (db1, Resolved created) ->
  employees (deleteEmployee db1 (Some (Emp.id created))).1 = employees db
  /\ generateUniqueEmployeeCode (deleteEmployee db1 (Some (Emp.id created))).1
     = Emp.employeeCode created.
Proof.
  intros ((_ & Hids & _) & _). unfold createEmployee, insert_employee.
  destruct (hashPassword _); [|done].
  destruct (existsb _ _); [done|]. destruct (existsb _ _); [done|].
  intros [= <- <-].
  unfold deleteEmployee, generateUniqueEmployeeCode.
  cbn [fst employees Emp.id Emp.employeeCode].
  rewrite delete_last_row; [done | | done].
  eapply Forall_impl; [exact Hids|]. simpl. intros e He. lia.
Qed.

(** C1. The code handed out at a creation is the row count plus one,
    so a deletion makes the generator hand out a code again. On the
    freshly initialised store the admin creates an employee (EMP002),
    deletes it and creates another: the second creation succeeds with
    EMP002 once more. The same happens with customers and CUST001.
    And when the deleted row is not the last one, the generator hands
    out the code of a live row and the creation is rejected. *)
Theorem codes_reissued_after_delete :
  (created_code <$>
     (serve fresh_db
        [ (fun db => @EmployeesRoute.POST sample_externals db
             (request_as "ADMIN001"
                (Some (new_employee_body "Ann" "ann@cms.com")) None));
          (fun db => @EmployeesRoute.DELETE sample_externals db
             (request_as "ADMIN001" None (Some "2")));
          (fun db => @EmployeesRoute.POST sample_externals db
             (request_as "ADMIN001"
                (Some (new_employee_body "Bob" "bob@cms.com")) None)) ]).2
   = [Some "EMP002"; None; Some "EMP002"])
  /\ (status <$>
        (serve fresh_db
           [ (fun db => @EmployeesRoute.POST sample_externals db
                (request_as "ADMIN001"
                   (Some (new_employee_body "Ann" "ann@cms.com")) None));
             (fun db => @EmployeesRoute.DELETE sample_externals db
                (request_as "ADMIN001" None (Some "2")));
             (fun db => @EmployeesRoute.POST sample_externals db
                (request_as "ADMIN001"
                   (Some (new_employee_body "Bob" "bob@cms.com")) None)) ]).2
      = [201; 200; 201])
  /\ ((fun r => (status r, created_code r)) <$>
        (serve fresh_db
           [ (fun db => @CustomersRoute.POST sample_externals db
                (request_as "ADMIN001"
                   (Some (new_customer_body "Carl" "carl@example.com")) None));
             (fun db => @CustomersRoute.DELETE sample_externals db
                (request_as "ADMIN001" None (Some "1")));
             (fun db => @CustomersRoute.POST sample_externals db
                (request_as "ADMIN001"
                   (Some (new_customer_body "Dora" "dora@example.com")) None)) ]).2
      = [(201, Some "CUST001"); (200, None); (201, Some "CUST001")])
  /\ (let db := (@EmployeesRoute.DELETE sample_externals sample_db
                   (request_as "ADMIN001" None (Some "2"))).1 in
      @generateUniqueEmployeeCode db = "EMP003"
      /\ Emp.employeeCode <$> employees db = ["ADMIN001"; "EMP003"]
      /\ @EmployeesRoute.POST sample_externals db
           (request_as "ADMIN001" (Some (new_employee_body "Gus" "gus@cms.com")) None)
         = (db, NextResponse_json (BError "Internal server error") 500)).
Proof.
  split; [|split; [|split]].
  - vm_compute. reflexivity.
  - vm_compute. reflexivity.
  - vm_compute. reflexivity.
  - vm_compute. repeat split; reflexivity.
Qed.

(** ** The schema constraints hold of every reachable store *)

Section Tables.
Context {A : Type} (id : A -> Z) (code email : A -> string).

Lemma existsb_column_false (col : A -> string) (v : string) (rows : list A) :
  existsb (fun r => bool_decide (col r = v)) rows = false -> v ∉ col <$> rows.
Proof.
  intros Hex Hin. apply list_elem_of_fmap in Hin as (r & -> & Hr).
  assert (existsb (fun r' => bool_decide (col r' = col r)) rows = true) as Ht.
  { apply existsb_exists. exists r. split; [by apply list_elem_of_In|].
    by apply bool_decide_eq_true. }
  congruence.
Qed.

Lemma NoDup_snoc {B : Type} (l : list B) (x : B) :
  NoDup l -> x ∉ l -> NoDup (l ++ [x]).
Proof.
  intros Hnd Hx. apply NoDup_app. split; [done|]. split.
  - intros y Hy Hyx. apply list_elem_of_singleton in Hyx as ->. done.
  - apply NoDup_singleton.
Qed.

Lemma table_wf_insert (seq : Z) (rows : list A) (x : A) :
  table_wf id code email seq rows ->
  id x = seq + 1 -> code x ∉ code <$> rows -> email x ∉ email <$> rows ->
  table_wf id code email (seq + 1) (rows ++ [x]).
Proof.
  intros (Hseq & Hids & Hnd & Hcodes & Hmails) Hid Hcode Hmail.
  split; [lia|]. repeat split.
  - apply Forall_app. split.
    + eapply Forall_impl; [done|]. simpl. intros; lia.
    + apply Forall_singleton. lia.
  - rewrite fmap_app. apply NoDup_snoc; [done|]. simpl.
    intros Hin. apply list_elem_of_fmap in Hin as (r & Hr & Hin).
    rewrite Forall_forall in Hids. specialize (Hids r Hin). lia.
  - rewrite fmap_app. by apply NoDup_snoc.
  - rewrite fmap_app. by apply NoDup_snoc.
Qed.

Lemma table_wf_delete (P : A -> Prop) `{!forall r, Decision (P r)}
    (seq : Z) (rows : list A) :
  table_wf id code email seq rows ->
  table_wf id code email seq (filter P rows).
Proof.
  intros (Hseq & Hids & Hnd & Hcodes & Hmails).
  pose proof (sublist_filter P rows) as Hsub.
  split; [done|]. repeat split.
  - apply Forall_forall. intros r Hr.
    apply list_elem_of_filter in Hr as [_ Hr].
    rewrite Forall_forall in Hids. by apply Hids.
  - eapply sublist_NoDup; [exact Hnd | by apply fmap_sublist].
  - eapply sublist_NoDup; [exact Hcodes | by apply fmap_sublist].
  - eapply sublist_NoDup; [exact Hmails | by apply fmap_sublist].
Qed.

(** A column the SET clause leaves alone. *)
Lemma column_kept {B : Type} (col : A -> B) (f : A -> A) (i : option Z)
    (rows : list A) :
  (forall r, col (f r) = col r) ->
  col <$> ((fun r => if id_is i (id r) then f r else r) <$> rows) = col <$> rows.
Proof.
  intros Hf. rewrite <- list_fmap_compose. apply list_fmap_ext.
  intros _ r _. simpl. destruct (id_is i (id r)); [apply Hf | done].
Qed.

(** The [email] column after an UPDATE that sets it to [v], when no
    row with another id holds [v]. *)
Lemma email_column_set (f : A -> A) (i : option Z) (v : string)
    (rows : list A) :
  (forall r, email (f r) = v) ->
  NoDup (id <$> rows) -> NoDup (email <$> rows) ->
  (forall r, r ∈ rows -> i <> Some (id r) -> email r <> v) ->
  NoDup (email <$> ((fun r => if id_is i (id r) then f r else r) <$> rows)).
Proof.
  intros Hf. induction rows as [|r rows IH]; intros Hnd Hmails Hfree.
  - apply NoDup_nil_2.
  - rewrite fmap_cons in Hnd. apply NoDup_cons in Hnd as [Hr Hnd].
    rewrite fmap_cons in Hmails. apply NoDup_cons in Hmails as [Hm Hmails].
    rewrite !fmap_cons. destruct (id_is i (id r)) eqn:E.
    + apply id_is_true in E.
      rewrite (update_none id f rows i).
      * apply NoDup_cons. split; [|done]. rewrite Hf.
        intros Hin. apply list_elem_of_fmap in Hin as (r' & Hv & Hin).
        apply (Hfree r'); [by right | | done].
        intros E'. rewrite E in E'. injection E' as E'. apply Hr.
        rewrite E'. by apply list_elem_of_fmap_2.
      * intros r' Hin E'. rewrite E in E'. injection E' as E'. apply Hr.
        rewrite E'. by apply list_elem_of_fmap_2.
    + apply id_is_false in E. apply NoDup_cons. split.
      * intros Hin. apply list_elem_of_fmap in Hin as (r' & Hv & Hin).
        apply list_elem_of_fmap in Hin as (r'' & -> & Hin).
        destruct (id_is i (id r'')) eqn:E''.
        -- rewrite Hf in Hv. apply (Hfree r); [by left | done | done].
        -- apply Hm. rewrite Hv. by apply list_elem_of_fmap_2.
      * apply IH; [done..|]. intros r' Hin. apply Hfree. by right.
Qed.

Lemma table_wf_update (f : A -> A) (i : option Z) (seq : Z) (rows : list A) :
  table_wf id code email seq rows ->
  (forall r, id (f r) = id r) -> (forall r, code (f r) = code r) ->
  (forall r, email (f r) = email r)
  \/ (exists v, (forall r, email (f r) = v)
                /\ forall r, r ∈ rows -> i <> Some (id r) -> email r <> v) ->
  table_wf id code email seq
           ((fun r => if id_is i (id r) then f r else r) <$> rows).
Proof.
  intros (Hseq & Hids & Hnd & Hcodes & Hmails) Hid Hcode Hmail.
  split; [done|]. repeat split.
  - apply Forall_fmap. eapply Forall_impl; [exact Hids|].
    intros r Hr. simpl. destruct (id_is i (id r)); [by rewrite Hid | done].
  - by rewrite column_kept.
  - by rewrite column_kept.
  - destruct Hmail as [Hkeep | (v & Hv & Hfree)].
    + by rewrite column_kept.
    + by apply (email_column_set f i v).
Qed.

End Tables.

Section Store_wf.
Context `{Externals}.

Lemma insert_employee_wf (db : Database)
    (code fn ln mob dob mail hashed rl : string) :
  db_wf db -> db_wf (insert_employee db code fn ln mob dob mail hashed rl).1.
Proof.
  intros [He Hc]. unfold insert_employee.
  destruct (existsb (fun e => bool_decide (Emp.email e = mail)) _)
    eqn:Email; [done|].
  destruct (existsb (fun e => bool_decide (Emp.employeeCode e = code)) _)
    eqn:Ecode; [done|].
  split; [|done]. simpl.
  apply table_wf_insert; [done | done | |].
  - by apply existsb_column_false.
  - by apply existsb_column_false.
Qed.

Lemma insert_customer_wf (db : Database)
    (code fn ln mob dob mail : string) (owner : option Z) :
  db_wf db -> db_wf (insert_customer db code fn ln mob dob mail owner).1.
Proof.
  intros [He Hc]. unfold insert_customer.
  destruct (existsb (fun c => bool_decide (Cust.email c = mail)) _)
    eqn:Email; [done|].
  destruct (existsb (fun c => bool_decide (Cust.customerCode c = code)) _)
    eqn:Ecode; [done|].
  split; [done|]. simpl.
  apply table_wf_insert; [done | done | |].
  - by apply existsb_column_false.
  - by apply existsb_column_false.
Qed.

Lemma empty_db_wf (clock : string) : db_wf (empty_db clock).
Proof.
  unfold db_wf, table_wf, empty_db. simpl.
  repeat split; first [done | apply Forall_nil_2 | apply NoDup_nil_2].
Qed.

Lemma initTables_wf (db : Database) : db_wf db -> db_wf (initTables db).
Proof.
  intros Hwf. unfold initTables.
  destruct (existsb _ (employees db)); [done|].
  by apply insert_employee_wf.
Qed.

Lemma first_start_wf (clock : string) (db : Database) :
  db ∈ first_start clock -> db_wf db.
Proof.
  unfold first_start. intros Hin.
  repeat (apply elem_of_cons in Hin as [->|Hin]); [..|by apply elem_of_nil in Hin].
  - apply initTables_wf, empty_db_wf.
  - apply empty_db_wf.
Qed.

Lemma createEmployee_wf (db : Database) (employee : NewEmp.t) :
  db_wf db -> db_wf (createEmployee db employee).1.
Proof.
  intros Hwf. unfold createEmployee.
  destruct (hashPassword _) as [hashed|]; [|done].
  match goal with
  | |- context [insert_employee ?d ?c ?a1 ?a2 ?a3 ?a4 ?a5 ?a6 ?a7] =>
      pose proof (insert_employee_wf d c a1 a2 a3 a4 a5 a6 a7 Hwf) as Hi;
      destruct (insert_employee d c a1 a2 a3 a4 a5 a6 a7) as [db' [lastID|err]]
  end; exact Hi.
Qed.

Lemma createCustomer_wf (db : Database) (customer : NewCust.t)
    (createdBy : option Z) :
  db_wf db -> db_wf (createCustomer db customer createdBy).1.
Proof.
  intros Hwf. unfold createCustomer.
  match goal with
  | |- context [insert_customer ?d ?c ?a1 ?a2 ?a3 ?a4 ?a5 ?a6] =>
      pose proof (insert_customer_wf d c a1 a2 a3 a4 a5 a6 Hwf) as Hi;
      destruct (insert_customer d c a1 a2 a3 a4 a5 a6) as [db' [lastID|err]]
  end; exact Hi.
Qed.

Lemma updateEmployee_wf (db : Database) (id : option Z) (updates : EmpUpd.t) :
  db_wf db -> db_wf (updateEmployee db id updates).1.
Proof.
  intros [He Hc]. unfold updateEmployee, update_employees.
  case_bool_decide; [done|].
  destruct (existsb _ _); [|by case_match].
  destruct (employee_email_conflict db id updates) eqn:Econf; [done|].
  assert (Hwf' : table_wf Emp.id Emp.employeeCode Emp.email (employees_seq db)
                   ((fun e => if id_is id (Emp.id e)
                              then set_employee updates e else e)
                      <$> employees db)).
  { apply table_wf_update; [done | done | done |].
    unfold employee_email_conflict in Econf.
    destruct (EmpUpd.email updates) as [v|] eqn:Ev.
    - right. exists v. split.
      + intros r. unfold set_employee. simpl. by rewrite Ev.
      + intros r Hin Hid Hv.
        assert (existsb (fun e => negb (id_is id (Emp.id e))
                                  && bool_decide (Emp.email e = v))
                        (employees db) = true) as Ht; [|congruence].
        apply existsb_exists. exists r. split; [by apply list_elem_of_In|].
        apply andb_true_iff. split.
        * by apply negb_true_iff, id_is_false.
        * by apply bool_decide_eq_true.
    - left. intros r. unfold set_employee. simpl. by rewrite Ev. }
  case_match; by split.
Qed.

Lemma updateCustomer_wf (db : Database) (id : option Z) (updates : CustUpd.t) :
  db_wf db -> db_wf (updateCustomer db id updates).1.
Proof.
  intros [He Hc]. unfold updateCustomer, update_customers.
  case_bool_decide; [done|].
  destruct (existsb _ _); [|by case_match].
  destruct (customer_email_conflict db id updates) eqn:Econf; [done|].
  assert (Hwf' : table_wf Cust.id Cust.customerCode Cust.email (customers_seq db)
                   ((fun c => if id_is id (Cust.id c)
                              then set_customer updates c else c)
                      <$> customers db)).
  { apply table_wf_update; [done | done | done |].
    unfold customer_email_conflict in Econf.
    destruct (CustUpd.email updates) as [v|] eqn:Ev.
    - right. exists v. split.
      + intros r. unfold set_customer. simpl. by rewrite Ev.
      + intros r Hin Hid Hv.
        assert (existsb (fun c => negb (id_is id (Cust.id c))
                                  && bool_decide (Cust.email c = v))
                        (customers db) = true) as Ht; [|congruence].
        apply existsb_exists. exists r. split; [by apply list_elem_of_In|].
        apply andb_true_iff. split.
        * by apply negb_true_iff, id_is_false.
        * by apply bool_decide_eq_true.
    - left. intros r. unfold set_customer. simpl. by rewrite Ev. }
  case_match; by split.
Qed.

Lemma deleteEmployee_wf (db : Database) (id : option Z) :
  db_wf db -> db_wf (deleteEmployee db id).1.
Proof.
  intros [He Hc]. unfold deleteEmployee. split; [|done]. simpl.
  by apply table_wf_delete.
Qed.

Lemma deleteCustomer_wf (db : Database) (id : option Z) :
  db_wf db -> db_wf (deleteCustomer db id).1.
Proof.
  intros [He Hc]. unfold deleteCustomer. split; [done|]. simpl.
  by apply table_wf_delete.
Qed.

(** Every handler keeps the constraints. *)
Lemma handlers_wf (h : Database -> Request -> Database * Response)
    (db : Database) (req : Request) :
  h ∈ handlers -> db_wf db -> db_wf (h db req).1.
Proof.
  intros Hh Hwf. unfold handlers in Hh.
  repeat (apply elem_of_cons in Hh as [->|Hh]); [..|by apply elem_of_nil in Hh].
  - unfold LoginRoute.POST. repeat case_match; done.
  - unfold EmployeesRoute.GET. repeat case_match; done.
  - unfold EmployeesRoute.POST.
    destruct (user _); [|done]. destruct (negb _); [done|].
    destruct (json req) as [b|]; [|done].
    destruct (_ || _); [done|]. destruct (Js.length_lt _ _); [done|].
    match goal with
    | |- context [createEmployee db ?e] =>
        pose proof (createEmployee_wf db e Hwf) as Hc;
        destruct (createEmployee db e) as [db' [emp|err]]
    end; exact Hc.
  - unfold EmployeesRoute.PUT.
    destruct (user _); [|done]. destruct (negb _); [done|].
    destruct (json req) as [b|]; [|done].
    destruct (id_falsy _); [done|]. case_bool_decide; [done|].
    match goal with
    | |- context [updateEmployee db ?i ?u] =>
        pose proof (updateEmployee_wf db i u Hwf) as Hc;
        destruct (updateEmployee db i u) as [db' [[emp|]|err]]
    end; exact Hc.
  - unfold EmployeesRoute.DELETE.
    destruct (user _); [|done]. destruct (negb _); [done|].
    destruct (Js.falsy _); [done|].
    match goal with
    | |- context [deleteEmployee db ?i] =>
        pose proof (deleteEmployee_wf db i Hwf) as Hc;
        destruct (deleteEmployee db i) as [db' [[|]|err]]
    end; exact Hc.
  - unfold CustomersRoute.GET. repeat case_match; done.
  - unfold CustomersRoute.POST.
    destruct (user _); [|done].
    destruct (json req) as [b|]; [|done].
    destruct (_ || _); [done|].
    match goal with
    | |- context [createCustomer db ?c ?o] =>
        pose proof (createCustomer_wf db c o Hwf) as Hc;
        destruct (createCustomer db c o) as [db' [cust|err]]
    end; exact Hc.
  - unfold CustomersRoute.PUT.
    destruct (user _); [|done].
    destruct (json req) as [b|]; [|done].
    destruct (id_falsy _); [done|]. destruct (_ && _); [done|].
    case_bool_decide; [done|].
    match goal with
    | |- context [updateCustomer db ?i ?u] =>
        pose proof (updateCustomer_wf db i u Hwf) as Hc;
        destruct (updateCustomer db i u) as [db' [[cust|]|err]]
    end; exact Hc.
  - unfold CustomersRoute.DELETE.
    destruct (user _); [|done].
    destruct (Js.falsy _); [done|]. destruct (_ && _); [done|].
    match goal with
    | |- context [deleteCustomer db ?i] =>
        pose proof (deleteCustomer_wf db i Hwf) as Hc;
        destruct (deleteCustomer db i) as [db' [[|]|err]]
    end; exact Hc.
Qed.

(** The constraints are an invariant of the server. *)
Lemma reachable_wf (db : Database) : reachable db -> db_wf db.
Proof.
  induction 1 as [clock db Hin | db _ IH | db h req _ IH Hh].
  - by apply (first_start_wf clock).
  - by apply initTables_wf.
  - by apply handlers_wf.
Qed.

(** In particular no two live rows ever share a code. *)
Lemma reachable_codes_distinct (db : Database) :
  reachable db ->
  NoDup (Emp.employeeCode <$> employees db)
  /\ NoDup (Cust.customerCode <$> customers db).
Proof.
  intros Hr. apply reachable_wf in Hr as [(_ & _ & _ & He & _) (_ & _ & _ & Hc & _)].
  done.
Qed.

End Store_wf.

(** * Further properties of the code *)

(** ** Reachable stores *)

(** X1. Every store the server can reach, from the first start on and
    through any run of requests to any handler, satisfies the schema:
    row ids are positive, bounded by the AUTOINCREMENT sequence and
    pairwise distinct, and no two rows of a table share a code or an
    email. *)
Theorem reachable_store_constraints `{Externals} (db : Database) :
  reachable db ->
  table_wf Emp.id Emp.employeeCode Emp.email (employees_seq db) (employees db)
  /\ table_wf Cust.id Cust.customerCode Cust.email (customers_seq db) (customers db).
Proof.
  induction 1 as [clock db Hin | db _ IH | db h req _ IH Hh].
  - by apply (first_start_wf clock).
  - by apply initTables_wf.
  - by apply handlers_wf.
Qed.

Lemma reachable_store_constraints_witness :
  table_wf Emp.id Emp.employeeCode Emp.email
    (employees_seq
       (@CustomersRoute.POST sample_externals fresh_db
          (request_as "ADMIN001"
             (Some (new_customer_body "Carl" "carl@example.com")) None)).1)
    (employees
       (@CustomersRoute.POST sample_externals fresh_db
          (request_as "ADMIN001"
             (Some (new_customer_body "Carl" "carl@example.com")) None)).1)
  /\ table_wf Cust.id Cust.customerCode Cust.email
       (customers_seq
          (@CustomersRoute.POST sample_externals fresh_db
             (request_as "ADMIN001"
                (Some (new_customer_body "Carl" "carl@example.com")) None)).1)
       (customers
          (@CustomersRoute.POST sample_externals fresh_db
             (request_as "ADMIN001"
                (Some (new_customer_body "Carl" "carl@example.com")) None)).1).
Proof.
  apply (@reachable_store_constraints sample_externals).
  apply (@reachable_step sample_externals).
  - apply (@reachable_init sample_externals "2024-01-01 00:00:00").
    unfold first_start, fresh_db. in_list.
  - unfold handlers. in_list.
Defined.

(** ** Requests that fail write nothing *)

Lemma database_eta (db : Database) :
  mkDatabase (employees db) (employees_seq db) (customers db) (customers_seq db)
             (CURRENT_TIMESTAMP db) = db.
Proof. by destruct db. Qed.

Section No_hit.
Context {A : Type} (key : A -> Z).

Lemma no_hit_keeps_all (l : list A) (i : option Z) :
  filter (fun y => id_is i (key y) = true) l = [] ->
  filter (fun y => id_is i (key y) = false) l = l.
Proof.
  induction l as [|y l IH]; [done|].
  destruct (id_is i (key y)) eqn:E.
  - rewrite filter_cons_True by done. discriminate.
  - rewrite filter_cons_False by (by rewrite E).
    intros Hl. rewrite filter_cons_True by done. by rewrite IH.
Qed.

Lemma not_deleted_no_hit (l : list A) (i : option Z) :
  (0 <? Z.of_nat (length (filter (fun y => id_is i (key y) = true) l)))%Z = false ->
  filter (fun y => id_is i (key y) = true) l = [].
Proof.
  intros Hlen. apply Z.ltb_ge in Hlen.
  destruct (filter _ l); [done | simpl in Hlen; lia].
Qed.

Lemma existsb_hits (l : list A) (i : option Z) :
  existsb (fun y => id_is i (key y)) l = true ->
  (0 <? Z.of_nat (length (filter (fun y => id_is i (key y) = true) l)))%Z = true.
Proof.
  intros Hex. apply existsb_exists in Hex as (x & Hx & Hid).
  apply list_elem_of_In in Hx. apply Z.ltb_lt.
  assert (Hin : x ∈ filter (fun y => id_is i (key y) = true) l)
    by (by apply list_elem_of_filter).
  destruct (filter _ l); [by apply elem_of_nil in Hin | simpl; lia].
Qed.

Lemma existsb_find_updated (f : A -> A) (l : list A) (i : option Z) :
  (forall y, key (f y) = key y) ->
  existsb (fun y => id_is i (key y)) l = true ->
  exists x, find (fun y => id_is i (key y))
                 ((fun y => if id_is i (key y) then f y else y) <$> l) = Some x.
Proof.
  intros Hf. induction l as [|y l IH]; [done|]. simpl.
  destruct (id_is i (key y)) eqn:E; simpl.
  - intros _. rewrite Hf, E. by eexists.
  - rewrite E. apply IH.
Qed.

End No_hit.

Section Atomic.
Context `{Externals}.

Lemma createEmployee_rejected (db db' : Database) (employee : NewEmp.t)
    (err : JsError) :
  createEmployee db employee = (db', Rejected err) -> db' = db.
Proof.
  unfold createEmployee, insert_employee.
  destruct (hashPassword _); [|by intros [= <- _]].
  repeat (destruct (existsb _ _); [by intros [= <- _]|]).
  discriminate.
Qed.

Lemma createCustomer_rejected (db db' : Database) (customer : NewCust.t)
    (createdBy : option Z) (err : JsError) :
  createCustomer db customer createdBy = (db', Rejected err) -> db' = db.
Proof.
  unfold createCustomer, insert_customer.
  repeat (destruct (existsb _ _); [by intros [= <- _]|]).
  discriminate.
Qed.

Lemma updateEmployee_not_written (db db' : Database) (id : option Z)
    (updates : EmpUpd.t) (r : Promise (option Emp.Employee)) :
  updateEmployee db id updates = (db', r) ->
  (forall e, r <> Resolved (Some e)) -> db' = db.
Proof.
  unfold updateEmployee, update_employees.
  case_bool_decide; [by intros [= <- _]|].
  destruct (existsb _ _) eqn:Ex; [|by intros [= <- _]].
  destruct (employee_email_conflict _ _ _); [by intros [= <- _]|].
  rewrite (existsb_hits Emp.id _ _ Ex).
  destruct (existsb_find_updated Emp.id (set_employee updates) _ _
              (fun _ => eq_refl) Ex) as [x Hx].
  unfold getEmployeeById. simpl. rewrite Hx.
  intros [= <- <-] Hno. by destruct (Hno x).
Qed.

Lemma updateCustomer_not_written (db db' : Database) (id : option Z)
    (updates : CustUpd.t) (r : Promise (option Cust.Customer)) :
  updateCustomer db id updates = (db', r) ->
  (forall c, r <> Resolved (Some c)) -> db' = db.
Proof.
  unfold updateCustomer, update_customers.
  case_bool_decide; [by intros [= <- _]|].
  destruct (existsb _ _) eqn:Ex; [|by intros [= <- _]].
  destruct (customer_email_conflict _ _ _); [by intros [= <- _]|].
  rewrite (existsb_hits Cust.id _ _ Ex).
  destruct (existsb_find_updated Cust.id (set_customer updates) _ _
              (fun _ => eq_refl) Ex) as [x Hx].
  unfold getCustomerById. simpl. rewrite Hx.
  intros [= <- <-] Hno. by destruct (Hno x).
Qed.

Lemma deleteEmployee_not_found (db : Database) (id : option Z) :
  (deleteEmployee db id).2 = Resolved false -> (deleteEmployee db id).1 = db.
Proof.
  unfold deleteEmployee. simpl. intros [= Hlen].
  apply not_deleted_no_hit in Hlen.
  rewrite (no_hit_keeps_all Emp.id _ _ Hlen). apply database_eta.
Qed.

Lemma deleteCustomer_not_found (db : Database) (id : option Z) :
  (deleteCustomer db id).2 = Resolved false -> (deleteCustomer db id).1 = db.
Proof.
  unfold deleteCustomer. simpl. intros [= Hlen].
  apply not_deleted_no_hit in Hlen.
  rewrite (no_hit_keeps_all Cust.id _ _ Hlen). apply database_eta.
Qed.

Lemma employees_POST_atomic (db : Database) (req : Request) :
  status (EmployeesRoute.POST db req).2 <> 201 -> (EmployeesRoute.POST db req).1 = db.
Proof.
  unfold EmployeesRoute.POST.
  destruct (user _); [|done]. destruct (negb _); [done|].
  destruct (json req) as [b|]; [|done].
  destruct (_ || _); [done|]. destruct (Js.length_lt _ _); [done|].
  destruct (createEmployee _ _) as [db' [e|err]] eqn:Ec; simpl; [done|].
  intros _. by eapply createEmployee_rejected.
Qed.

Lemma customers_POST_atomic (db : Database) (req : Request) :
  status (CustomersRoute.POST db req).2 <> 201 -> (CustomersRoute.POST db req).1 = db.
Proof.
  unfold CustomersRoute.POST.
  destruct (user _); [|done].
  destruct (json req) as [b|]; [|done].
  destruct (_ || _); [done|].
  destruct (createCustomer _ _ _) as [db' [c|err]] eqn:Ec; simpl; [done|].
  intros _. by eapply createCustomer_rejected.
Qed.

Lemma employees_PUT_atomic (db : Database) (req : Request) :
  status (EmployeesRoute.PUT db req).2 <> 200 -> (EmployeesRoute.PUT db req).1 = db.
Proof.
  unfold EmployeesRoute.PUT.
  destruct (user _); [|done]. destruct (negb _); [done|].
  destruct (json req) as [b|]; [|done].
  destruct (id_falsy _); [done|]. case_bool_decide; [done|].
  destruct (updateEmployee _ _ _) as [db' [[e|]|err]] eqn:Eu; simpl; [done|..];
    intros _; by eapply updateEmployee_not_written.
Qed.

Lemma customers_PUT_atomic (db : Database) (req : Request) :
  status (CustomersRoute.PUT db req).2 <> 200 -> (CustomersRoute.PUT db req).1 = db.
Proof.
  unfold CustomersRoute.PUT.
  destruct (user _); [|done].
  destruct (json req) as [b|]; [|done].
  destruct (id_falsy _); [done|]. destruct (_ && _); [done|].
  case_bool_decide; [done|].
  destruct (updateCustomer _ _ _) as [db' [[c|]|err]] eqn:Eu; simpl; [done|..];
    intros _; by eapply updateCustomer_not_written.
Qed.

Lemma employees_DELETE_atomic (db : Database) (req : Request) :
  status (EmployeesRoute.DELETE db req).2 <> 200 ->
  (EmployeesRoute.DELETE db req).1 = db.
Proof.
  unfold EmployeesRoute.DELETE.
  destruct (user _); [|done]. destruct (negb _); [done|].
  destruct (Js.falsy _); [done|].
  pose proof (deleteEmployee_not_found db
                (Js.parseInt (default "" (search_id req)))) as Hnf.
  unfold deleteEmployee in *. simpl in *.
  destruct (0 <? _)%Z; simpl; [done|].
  intros _. by apply Hnf.
Qed.

Lemma customers_DELETE_atomic (db : Database) (req : Request) :
  status (CustomersRoute.DELETE db req).2 <> 200 ->
  (CustomersRoute.DELETE db req).1 = db.
Proof.
  unfold CustomersRoute.DELETE.
  destruct (user _); [|done].
  destruct (Js.falsy _); [done|]. destruct (_ && _); [done|].
  pose proof (deleteCustomer_not_found db
                (Js.parseInt (default "" (search_id req)))) as Hnf.
  unfold deleteCustomer in *. simpl in *.
  destruct (0 <? _)%Z; simpl; [done|].
  intros _. by apply Hnf.
Qed.

Lemma read_only_handlers (db : Database) (req : Request) :
  (LoginRoute.POST db req).1 = db
  /\ (EmployeesRoute.GET db req).1 = db
  /\ (CustomersRoute.GET db req).1 = db.
Proof.
  split; [|split].
  - unfold LoginRoute.POST. repeat case_match; done.
  - unfold EmployeesRoute.GET. repeat case_match; done.
  - unfold CustomersRoute.GET. repeat case_match; done.
Qed.

End Atomic.

(** X2. Whatever the handler and the request, an answer other than
    200 or 201 means that nothing was written: the store after the
    request is the store before it. That covers 400, 401, 403, the
    404 of an update or delete that matched no row, and the 500 of a
    rejected insert or update. The login handler and the two list
    handlers write nothing whatever they answer. *)
Theorem failed_requests_write_nothing `{Externals}
    (h : Database -> Request -> Database * Response) (db : Database) (req : Request) :
  h ∈ handlers ->
  (status (h db req).2 <> 200 -> status (h db req).2 <> 201 -> (h db req).1 = db)
  /\ (h ∈ [LoginRoute.POST; EmployeesRoute.GET; CustomersRoute.GET] ->
      (h db req).1 = db).
Proof.
  intros Hh. split.
  - intros H200 H201. unfold handlers in Hh.
    destruct (read_only_handlers db req) as (Hl & Hg & Hc).
    repeat (apply elem_of_cons in Hh as [->|Hh]); [..|by apply elem_of_nil in Hh].
    + done.
    + done.
    + by apply employees_POST_atomic.
    + by apply employees_PUT_atomic.
    + by apply employees_DELETE_atomic.
    + done.
    + by apply customers_POST_atomic.
    + by apply customers_PUT_atomic.
    + by apply customers_DELETE_atomic.
  - intros Hr. destruct (read_only_handlers db req) as (Hl & Hg & Hc).
    repeat (apply elem_of_cons in Hr as [->|Hr]); [..|by apply elem_of_nil in Hr];
      done.
Qed.

Lemma failed_requests_write_nothing_witness :
  (@EmployeesRoute.DELETE sample_externals sample_db
     (request_as "ADMIN001" None (Some "42"))).1 = sample_db.
Proof.
  destruct (@failed_requests_write_nothing sample_externals
              (@EmployeesRoute.DELETE sample_externals) sample_db
              (request_as "ADMIN001" None (Some "42"))) as [Hfail _].
  - unfold handlers. in_list.
  - apply Hfail.
    + vm_compute. discriminate.
    + vm_compute. discriminate.
Defined.

(** ** Ids and codes of rows are permanent *)

Section Table_step.
Context {A : Type} (id : A -> Z) (code : A -> string).

Lemma table_step_refl (seq : Z) (rows : list A) :
  table_step id code seq rows seq rows.
Proof. split; [lia|]. intros r Hr. left. by exists r. Qed.

Lemma table_step_insert (seq : Z) (rows : list A) (x : A) :
  id x = seq + 1 -> table_step id code seq rows (seq + 1) (rows ++ [x]).
Proof.
  intros Hx. split; [lia|]. intros r Hr.
  apply elem_of_app in Hr as [Hr|Hr].
  - left. by exists r.
  - apply list_elem_of_singleton in Hr as ->. right. lia.
Qed.

Lemma table_step_update (f : A -> A) (i : option Z) (seq : Z) (rows : list A) :
  (forall r, id (f r) = id r) -> (forall r, code (f r) = code r) ->
  table_step id code seq rows seq
             ((fun r => if id_is i (id r) then f r else r) <$> rows).
Proof.
  intros Hid Hcode. split; [lia|]. intros r' Hr'.
  apply list_elem_of_fmap in Hr' as (r & -> & Hr). left. exists r.
  split; [done|]. destruct (id_is i (id r)); [by rewrite Hid, Hcode | done].
Qed.

Lemma table_step_delete (P : A -> Prop) `{!forall r, Decision (P r)}
    (seq : Z) (rows : list A) :
  table_step id code seq rows seq (filter P rows).
Proof.
  split; [lia|]. intros r Hr. apply list_elem_of_filter in Hr as [_ Hr].
  left. by exists r.
Qed.

End Table_step.

Section Permanent.
Context `{Externals}.

(** A step of the whole store. *)
Let db_step (db db' : Database) : Prop :=
  table_step Emp.id Emp.employeeCode (employees_seq db) (employees db)
             (employees_seq db') (employees db')
  /\ table_step Cust.id Cust.customerCode (customers_seq db) (customers db)
                (customers_seq db') (customers db').

Lemma db_step_refl (db : Database) : db_step db db.
Proof. split; apply table_step_refl. Qed.

Lemma createEmployee_step (db : Database) (employee : NewEmp.t) :
  db_step db (createEmployee db employee).1.
Proof.
  unfold createEmployee, insert_employee.
  destruct (hashPassword _); [|apply db_step_refl].
  repeat (destruct (existsb _ _); [apply db_step_refl|]).
  split; simpl; [by apply table_step_insert | apply table_step_refl].
Qed.

Lemma createCustomer_step (db : Database) (customer : NewCust.t)
    (createdBy : option Z) :
  db_step db (createCustomer db customer createdBy).1.
Proof.
  unfold createCustomer, insert_customer.
  repeat (destruct (existsb _ _); [apply db_step_refl|]).
  split; simpl; [apply table_step_refl | by apply table_step_insert].
Qed.

Lemma updateEmployee_step (db : Database) (id : option Z) (updates : EmpUpd.t) :
  db_step db (updateEmployee db id updates).1.
Proof.
  unfold updateEmployee, update_employees.
  case_bool_decide; [apply db_step_refl|].
  destruct (existsb _ _); [|case_match; apply db_step_refl].
  destruct (employee_email_conflict _ _ _); [apply db_step_refl|].
  case_match; (split; simpl; [by apply table_step_update | apply table_step_refl]).
Qed.

Lemma updateCustomer_step (db : Database) (id : option Z) (updates : CustUpd.t) :
  db_step db (updateCustomer db id updates).1.
Proof.
  unfold updateCustomer, update_customers.
  case_bool_decide; [apply db_step_refl|].
  destruct (existsb _ _); [|case_match; apply db_step_refl].
  destruct (customer_email_conflict _ _ _); [apply db_step_refl|].
  case_match; (split; simpl; [apply table_step_refl | by apply table_step_update]).
Qed.

Lemma deleteEmployee_step (db : Database) (id : option Z) :
  db_step db (deleteEmployee db id).1.
Proof. split; simpl; [apply table_step_delete | apply table_step_refl]. Qed.

Lemma deleteCustomer_step (db : Database) (id : option Z) :
  db_step db (deleteCustomer db id).1.
Proof. split; simpl; [apply table_step_refl | apply table_step_delete]. Qed.

Lemma handlers_step (h : Database -> Request -> Database * Response)
    (db : Database) (req : Request) :
  h ∈ handlers -> db_step db (h db req).1.
Proof.
  intros Hh. unfold handlers in Hh.
  repeat (apply elem_of_cons in Hh as [->|Hh]); [..|by apply elem_of_nil in Hh].
  - unfold LoginRoute.POST. repeat case_match; apply db_step_refl.
  - unfold EmployeesRoute.GET. repeat case_match; apply db_step_refl.
  - unfold EmployeesRoute.POST.
    destruct (user _); [|apply db_step_refl].
    destruct (negb _); [apply db_step_refl|].
    destruct (json req) as [b|]; [|apply db_step_refl].
    destruct (_ || _); [apply db_step_refl|].
    destruct (Js.length_lt _ _); [apply db_step_refl|].
    match goal with
    | |- context [createEmployee db ?e] =>
        pose proof (createEmployee_step db e) as Hc;
        destruct (createEmployee db e) as [db' [emp|err]]
    end; exact Hc.
  - unfold EmployeesRoute.PUT.
    destruct (user _); [|apply db_step_refl].
    destruct (negb _); [apply db_step_refl|].
    destruct (json req) as [b|]; [|apply db_step_refl].
    destruct (id_falsy _); [apply db_step_refl|].
    case_bool_decide; [apply db_step_refl|].
    match goal with
    | |- context [updateEmployee db ?i ?u] =>
        pose proof (updateEmployee_step db i u) as Hc;
        destruct (updateEmployee db i u) as [db' [[emp|]|err]]
    end; exact Hc.
  - unfold EmployeesRoute.DELETE.
    destruct (user _); [|apply db_step_refl].
    destruct (negb _); [apply db_step_refl|].
    destruct (Js.falsy _); [apply db_step_refl|].
    match goal with
    | |- context [deleteEmployee db ?i] =>
        pose proof (deleteEmployee_step db i) as Hc;
        destruct (deleteEmployee db i) as [db' [[|]|err]]
    end; exact Hc.
  - unfold CustomersRoute.GET. repeat case_match; apply db_step_refl.
  - unfold CustomersRoute.POST.
    destruct (user _); [|apply db_step_refl].
    destruct (json req) as [b|]; [|apply db_step_refl].
    destruct (_ || _); [apply db_step_refl|].
    match goal with
    | |- context [createCustomer db ?c ?o] =>
        pose proof (createCustomer_step db c o) as Hc;
        destruct (createCustomer db c o) as [db' [cust|err]]
    end; exact Hc.
  - unfold CustomersRoute.PUT.
    destruct (user _); [|apply db_step_refl].
    destruct (json req) as [b|]; [|apply db_step_refl].
    destruct (id_falsy _); [apply db_step_refl|].
    destruct (_ && _); [apply db_step_refl|].
    case_bool_decide; [apply db_step_refl|].
    match goal with
    | |- context [updateCustomer db ?i ?u] =>
        pose proof (updateCustomer_step db i u) as Hc;
        destruct (updateCustomer db i u) as [db' [[cust|]|err]]
    end; exact Hc.
  - unfold CustomersRoute.DELETE.
    destruct (user _); [|apply db_step_refl].
    destruct (Js.falsy _); [apply db_step_refl|].
    destruct (_ && _); [apply db_step_refl|].
    match goal with
    | |- context [deleteCustomer db ?i] =>
        pose proof (deleteCustomer_step db i) as Hc;
        destruct (deleteCustomer db i) as [db' [[|]|err]]
    end; exact Hc.
Qed.

End Permanent.

(** X3. Through any request to any handler the AUTOINCREMENT sequences
    never go back, and every row found afterwards either was there
    before under the same id and with the same code, or carries an id
    above everything the sequence had handed out. So a row never
    changes its id or its code, and the id of a deleted row is never
    given to another row. *)
Theorem ids_and_codes_permanent `{Externals}
    (h : Database -> Request -> Database * Response) (db : Database) (req : Request) :
  h ∈ handlers ->
  table_step Emp.id Emp.employeeCode (employees_seq db) (employees db)
             (employees_seq (h db req).1) (employees (h db req).1)
  /\ table_step Cust.id Cust.customerCode (customers_seq db) (customers db)
                (customers_seq (h db req).1) (customers (h db req).1).
Proof. intros Hh. by apply handlers_step. Qed.

Lemma ids_and_codes_permanent_witness :
  table_step Emp.id Emp.employeeCode (employees_seq sample_db) (employees sample_db)
    (employees_seq (@EmployeesRoute.DELETE sample_externals sample_db
                      (request_as "ADMIN001" None (Some "2"))).1)
    (employees (@EmployeesRoute.DELETE sample_externals sample_db
                  (request_as "ADMIN001" None (Some "2"))).1)
  /\ table_step Cust.id Cust.customerCode (customers_seq sample_db)
       (customers sample_db)
       (customers_seq (@EmployeesRoute.DELETE sample_externals sample_db
                         (request_as "ADMIN001" None (Some "2"))).1)
       (customers (@EmployeesRoute.DELETE sample_externals sample_db
                     (request_as "ADMIN001" None (Some "2"))).1).
Proof.
  apply (@ids_and_codes_permanent sample_externals
           (@EmployeesRoute.DELETE sample_externals)).
  unfold handlers. in_list.
Defined.

(** ** What a creation does *)

Lemma existsb_column {A : Type} (col : A -> string) (v : string) (rows : list A) :
  existsb (fun r => bool_decide (col r = v)) rows = true <-> v ∈ col <$> rows.
Proof.
  rewrite existsb_exists, list_elem_of_fmap. split.
  - intros (r & Hr & Hv). exists r. apply bool_decide_eq_true in Hv.
    split; [done | by apply list_elem_of_In].
  - intros (r & Hv & Hr). exists r. split; [by apply list_elem_of_In|].
    by apply bool_decide_eq_true.
Qed.

Lemma existsb_column_free {A : Type} (col : A -> string) (v : string)
    (rows : list A) :
  existsb (fun r => bool_decide (col r = v)) rows = false <-> v ∉ col <$> rows.
Proof.
  rewrite <- existsb_column. destruct (existsb _ rows); split; try done.
  all: intros Hn; by destruct Hn.
Qed.

Lemma not_falsy_present (v : option string) :
  Js.falsy v = false <-> ~ absent_or_empty (Js.VString <$> v).
Proof.
  rewrite <- falsy_absent_or_empty. destruct (Js.falsy v); split; try done.
  all: intros Hn; by destruct Hn.
Qed.

Lemma required_text_present (b : Json.Body) :
  Js.falsy (Json.firstname b) || Js.falsy (Json.lastname b)
  || Js.falsy (Json.mobile b) || Js.falsy (Json.dateOfBirth b)
  || Js.falsy (Json.email b) = false
  <-> Forall (fun v => ~ absent_or_empty v) (required_text b).
Proof.
  unfold required_text. rewrite !Forall_cons, Forall_nil.
  rewrite <- !not_falsy_present, !orb_false_iff. tauto.
Qed.

Lemma customer_required_present (b : Json.Body) :
  Js.falsy (Json.firstname b) || Js.falsy (Json.lastname b)
  || Js.falsy (Json.mobile b) || Js.falsy (Json.dateOfBirth b)
  || Js.falsy (Json.email b) = false
  <-> Forall (fun v => ~ absent_or_empty v) (customer_required b).
Proof. apply required_text_present. Qed.

Lemma or_else_twice (v : option string) (d : string) :
  d <> "" -> Js.or_else (Some (Js.or_else v d)) d = Js.or_else v d.
Proof.
  intros Hd. destruct v as [[|a s]|]; simpl; try done; by destruct d.
Qed.

(** What the staff creation does once the caller is an admin, the
    body has parsed and the five text members are non-empty. *)
Lemma employees_POST_text_present `{Externals} (db : Database) (req : Request)
    (u : Tok.Payload) (b : Json.Body) :
  user (authenticateRequest req) = Some u -> Tok.role u = "admin" ->
  json req = Some b ->
  EmployeesRoute.POST db req
  = if Js.falsy (Json.firstname b) || Js.falsy (Json.lastname b)
       || Js.falsy (Json.mobile b) || Js.falsy (Json.dateOfBirth b)
       || Js.falsy (Json.email b)
    then (db, NextResponse_json (BError "All fields are required") 400)
    else
      match Json.password b with
      | Some (Js.VString pw) =>
          if Js.falsy_string pw
          then (db, NextResponse_json (BError "All fields are required") 400)
          else if (String.length pw <? 6)%nat
          then (db, NextResponse_json
                      (BError "Password must be at least 6 characters") 400)
          else if existsb (fun e => bool_decide
                                      (Emp.email e = default "" (Json.email b)))
                          (employees db)
                  || existsb (fun e => bool_decide
                                         (Emp.employeeCode e
                                          = generateUniqueEmployeeCode db))
                             (employees db)
          then (db, NextResponse_json (BError "Internal server error") 500)
          else
            (mkDatabase
               (employees db ++
                [Emp.mk (employees_seq db + 1) (generateUniqueEmployeeCode db)
                        (default "" (Json.firstname b))
                        (default "" (Json.lastname b))
                        (default "" (Json.mobile b))
                        (default "" (Json.dateOfBirth b))
                        (default "" (Json.email b))
                        (bcrypt_hash pw 10)
                        (Js.or_else (Json.role b) "user")
                        (Some (CURRENT_TIMESTAMP db))])
               (employees_seq db + 1) (customers db) (customers_seq db)
               (CURRENT_TIMESTAMP db),
             NextResponse_json
               (BEmployee "Employee created successfully"
                  (EmpView.mk (employees_seq db + 1)
                     (generateUniqueEmployeeCode db)
                     (default "" (Json.firstname b)) (default "" (Json.lastname b))
                     (default "" (Json.mobile b)) (default "" (Json.dateOfBirth b))
                     (default "" (Json.email b)) (Js.or_else (Json.role b) "user")
                     None)) 201)
      | Some v =>
          if Js.falsy_value v
          then (db, NextResponse_json (BError "All fields are required") 400)
          else (db, NextResponse_json (BError "Internal server error") 500)
      | None => (db, NextResponse_json (BError "All fields are required") 400)
      end.
Proof.
  intros Hu Hr Hb. unfold EmployeesRoute.POST.
  rewrite Hu, Hb, (bool_decide_eq_true_2 _ Hr). simpl.
  destruct (Js.falsy (Json.firstname b) || Js.falsy (Json.lastname b)
            || Js.falsy (Json.mobile b) || Js.falsy (Json.dateOfBirth b)
            || Js.falsy (Json.email b)); [done|]. simpl.
  destruct (Json.password b) as [[pw|n|bo|]|]; simpl; try done.
  destruct (Js.falsy_string pw); [done|].
  destruct (_ <? 6)%nat; [done|].
  unfold createEmployee, insert_employee, hashPassword, bcrypt_hash_async.
  cbn [NewEmp.firstname NewEmp.lastname NewEmp.mobile NewEmp.dateOfBirth
       NewEmp.email NewEmp.password NewEmp.role].
  rewrite (or_else_twice (Json.role b) "user") by done.
  destruct (existsb (fun e => bool_decide (Emp.email e = _)) _); [done|].
  by destruct (existsb (fun e => bool_decide (Emp.employeeCode e = _)) _).
Qed.

(** X4. A staff creation sent by an admin, with a body whose
    firstname, lastname, mobile, dateOfBirth, email and role members
    are strings or absent, and whose password is absent or any JSON
    scalar. It is answered 201 exactly when each of the five text
    members is a non-empty string, the password is a string of at
    least 6 characters (counted as [password.length] counts them, the
    characters being below U+0100), the code the generator hands out
    is held by no row and the email is held by no row. Then one row
    is appended: next id of the sequence, the generated code, the
    fields as sent, the bcrypt hash of the password (10 rounds) in
    place of the password, and the role as sent, or 'user' when the
    role is missing or empty. A non-empty password of fewer than 6
    characters is answered 400. A password that is truthy and not a
    string (a number, [true]) passes both checks, is rejected by
    bcrypt and answered 500. A taken code or email is answered 500.
    Nothing is written in any of these. *)
Theorem employees_POST_outcome `{Externals} (db : Database) (req : Request)
    (u : Tok.Payload) (b : Json.Body) :
  user (authenticateRequest req) = Some u -> Tok.role u = "admin" ->
  json req = Some b ->
  (status (EmployeesRoute.POST db req).2 = 201 <->
     Forall (fun v => ~ absent_or_empty v) (required_text b)
     /\ (exists pw, Json.password b = Some (Js.VString pw)
                    /\ (6 <= String.length pw)%nat)
     /\ (generateUniqueEmployeeCode db ∉ Emp.employeeCode <$> employees db)
     /\ (default "" (Json.email b) ∉ Emp.email <$> employees db))
  /\ (forall pw, Json.password b = Some (Js.VString pw) ->
      status (EmployeesRoute.POST db req).2 = 201 ->
      EmployeesRoute.POST db req
      = (mkDatabase
           (employees db ++
            [Emp.mk (employees_seq db + 1) (generateUniqueEmployeeCode db)
                    (default "" (Json.firstname b)) (default "" (Json.lastname b))
                    (default "" (Json.mobile b)) (default "" (Json.dateOfBirth b))
                    (default "" (Json.email b))
                    (bcrypt_hash pw 10)
                    (Js.or_else (Json.role b) "user")
                    (Some (CURRENT_TIMESTAMP db))])
           (employees_seq db + 1) (customers db) (customers_seq db)
           (CURRENT_TIMESTAMP db),
         NextResponse_json
           (BEmployee "Employee created successfully"
              (EmpView.mk (employees_seq db + 1) (generateUniqueEmployeeCode db)
                 (default "" (Json.firstname b)) (default "" (Json.lastname b))
                 (default "" (Json.mobile b)) (default "" (Json.dateOfBirth b))
                 (default "" (Json.email b)) (Js.or_else (Json.role b) "user")
                 None)) 201))
  /\ (Forall (fun v => ~ absent_or_empty v) (required_text b) ->
      forall pw, Json.password b = Some (Js.VString pw) -> pw <> "" ->
      (String.length pw < 6)%nat ->
      EmployeesRoute.POST db req
      = (db, NextResponse_json
               (BError "Password must be at least 6 characters") 400))
  /\ (Forall (fun v => ~ absent_or_empty v) (required_text b) ->
      forall v, Json.password b = Some v -> Js.falsy_value v = false ->
      (forall pw, v <> Js.VString pw) ->
      EmployeesRoute.POST db req
      = (db, NextResponse_json (BError "Internal server error") 500))
  /\ (Forall (fun v => ~ absent_or_empty v) (required_text b) ->
      forall pw, Json.password b = Some (Js.VString pw) ->
      (6 <= String.length pw)%nat ->
      (generateUniqueEmployeeCode db ∈ (Emp.employeeCode <$> employees db)
       \/ default "" (Json.email b) ∈ (Emp.email <$> employees db)) ->
      EmployeesRoute.POST db req
      = (db, NextResponse_json (BError "Internal server error") 500)).
Proof.
  intros Hu Hr Hb. rewrite (employees_POST_text_present db req u b Hu Hr Hb).
  pose proof (required_text_present b) as Hreq.
  destruct (Js.falsy (Json.firstname b) || Js.falsy (Json.lastname b)
            || Js.falsy (Json.mobile b) || Js.falsy (Json.dateOfBirth b)
            || Js.falsy (Json.email b)) eqn:Etext.
  { assert (Hno : ~ Forall (fun v => ~ absent_or_empty v) (required_text b))
      by (intros Hf; by apply Hreq in Hf).
    simpl. split; [split; [done | by intros [? _]]|]. by repeat split. }
  assert (Hall : Forall (fun v => ~ absent_or_empty v) (required_text b))
    by (by apply Hreq).
  destruct (Json.password b) as [[pw|n|bo|]|] eqn:Ep.
  - destruct (Js.falsy_string pw) eqn:Efalsy.
    { destruct pw; [|done]. simpl.
      split; [split; [done | intros (_ & (pw' & [= <-] & Hl) & _); simpl in Hl; lia]|].
      split; [done|]. split; [by intros _ pw' [= <-] ?|].
      split; [by intros _ v [= <-] ?|].
      intros _ pw' [= <-] Hl. simpl in Hl. lia. }
    destruct (_ <? 6)%nat eqn:Elen.
    { apply Nat.ltb_lt in Elen. simpl.
      split; [split; [done | intros (_ & (pw' & [= <-] & Hl) & _); lia]|].
      split; [done|]. split; [done|].
      split; [intros _ v [= <-] _ Hv; by destruct (Hv pw)|].
      intros _ pw' [= <-] Hl. lia. }
    apply Nat.ltb_ge in Elen.
    destruct (existsb (fun e => bool_decide (Emp.email e = _)) _) eqn:Em; simpl.
    { apply existsb_column in Em.
      split; [split; [done | by intros (_ & _ & _ & ?)]|].
      split; [done|]. split; [intros _ pw' [= <-] _ Hl; lia|].
      split; [intros _ v [= <-] _ Hv; by destruct (Hv pw)|]. done. }
    destruct (existsb (fun e => bool_decide (Emp.employeeCode e = _)) _) eqn:Ec;
      simpl.
    { apply existsb_column in Ec.
      split; [split; [done | by intros (_ & _ & ? & _)]|].
      split; [done|]. split; [intros _ pw' [= <-] _ Hl; lia|].
      split; [intros _ v [= <-] _ Hv; by destruct (Hv pw)|]. done. }
    apply existsb_column_free in Em, Ec.
    split; [split; [intros _ | done]|].
    + repeat split; [done | by exists pw | done | done].
    + split; [by intros pw' [= <-] _|].
      split; [intros _ pw' [= <-] _ Hl; lia|].
      split; [intros _ v [= <-] _ Hv; by destruct (Hv pw)|].
      by intros _ pw' [= <-] _ [Hin|Hin].
  - destruct (Js.falsy_value (Js.VNumber n)) eqn:Efalsy; simpl.
    all: split; [split; [done | by intros (_ & (pw' & [=] & _) & _)]|].
    all: split; [done|]. all: split; [done|].
    all: split; [|done].
    + intros _ v [= <-] Hv. by rewrite Efalsy in Hv.
    + done.
  - destruct (Js.falsy_value (Js.VBool bo)) eqn:Efalsy; simpl.
    all: split; [split; [done | by intros (_ & (pw' & [=] & _) & _)]|].
    all: split; [done|]. all: split; [done|].
    all: split; [|done].
    + intros _ v [= <-] Hv. by rewrite Efalsy in Hv.
    + done.
  - simpl.
    split; [split; [done | by intros (_ & (pw' & [=] & _) & _)]|].
    split; [done|]. split; [done|]. split; [|done].
    by intros _ v [= <-] Hv.
  - split; [split; [done | by intros (_ & (pw' & [=] & _) & _)]|].
    by repeat split.
Qed.

Lemma employees_POST_outcome_witness :
  @EmployeesRoute.POST sample_externals sample_db
     (request_as "ADMIN001"
        (Some (Json.mk IdUndefined None (Some "Gus") (Some "Doe") (Some "5550111")
                       (Some "1992-03-04") (Some "gus@cms.com")
                       (Some (Js.VNumber 12345678)) None))
        None)
  = (sample_db, NextResponse_json (BError "Internal server error") 500).
Proof.
  destruct (@employees_POST_outcome sample_externals sample_db
              (request_as "ADMIN001"
                 (Some (Json.mk IdUndefined None (Some "Gus") (Some "Doe")
                                (Some "5550111") (Some "1992-03-04")
                                (Some "gus@cms.com")
                                (Some (Js.VNumber 12345678)) None)) None)
              (Tok.mk "ADMIN001" "admin@cms.com" 1 "admin")
              (Json.mk IdUndefined None (Some "Gus") (Some "Doe") (Some "5550111")
                       (Some "1992-03-04") (Some "gus@cms.com")
                       (Some (Js.VNumber 12345678)) None))
    as (_ & _ & _ & Hnumber & _).
  - vm_compute. reflexivity.
  - reflexivity.
  - reflexivity.
  - refine (Hnumber _ (Js.VNumber 12345678) _ _ _).
    + unfold required_text, absent_or_empty. simpl.
      repeat (apply Forall_cons; split; [by intros [|]|]). apply Forall_nil_2.
    + reflexivity.
    + reflexivity.
    + discriminate.
Defined.

(** X5. A customer creation sent by any authenticated caller, with a
    body whose firstname, lastname, mobile, dateOfBirth and email
    members are strings or absent. It is answered 201 exactly when
    each of the five is a non-empty string, the generated code is
    held by no row and the email is held by no row. Then one row is appended:
    next id of the sequence, the generated code, the fields as sent,
    and as owner the caller's id ([null] for the id 0). A taken code
    or email is answered 500 with nothing written. *)
Theorem customers_POST_outcome `{Externals} (db : Database) (req : Request)
    (u : Tok.Payload) (b : Json.Body) :
  user (authenticateRequest req) = Some u ->
  json req = Some b ->
  (status (CustomersRoute.POST db req).2 = 201 <->
     Forall (fun v => ~ absent_or_empty v) (customer_required b)
     /\ (generateUniqueCustomerCode db ∉ Cust.customerCode <$> customers db)
     /\ (default "" (Json.email b) ∉ Cust.email <$> customers db))
  /\ (status (CustomersRoute.POST db req).2 = 201 ->
      CustomersRoute.POST db req
      = (mkDatabase
           (employees db) (employees_seq db)
           (customers db ++
            [Cust.mk (customers_seq db + 1) (generateUniqueCustomerCode db)
                     (default "" (Json.firstname b)) (default "" (Json.lastname b))
                     (default "" (Json.mobile b)) (default "" (Json.dateOfBirth b))
                     (default "" (Json.email b))
                     (createdBy_or_null (Some (Tok.id u)))
                     (Some (CURRENT_TIMESTAMP db))])
           (customers_seq db + 1) (CURRENT_TIMESTAMP db),
         NextResponse_json
           (BCustomer "Customer created successfully"
              (CustView.mk (customers_seq db + 1) (generateUniqueCustomerCode db)
                 (default "" (Json.firstname b)) (default "" (Json.lastname b))
                 (default "" (Json.mobile b)) (default "" (Json.dateOfBirth b))
                 (default "" (Json.email b)))) 201))
  /\ (Forall (fun v => ~ absent_or_empty v) (customer_required b) ->
      (generateUniqueCustomerCode db ∈ Cust.customerCode <$> customers db
       \/ default "" (Json.email b) ∈ Cust.email <$> customers db) ->
      CustomersRoute.POST db req
      = (db, NextResponse_json (BError "Internal server error") 500)).
Proof.
  intros Hu Hb. unfold CustomersRoute.POST. rewrite Hu, Hb.
  pose proof (customer_required_present b) as Hreq.
  destruct (_ || _).
  { assert (Hno : ~ Forall (fun v => ~ absent_or_empty v) (customer_required b))
      by (intros Hf; by apply Hreq in Hf).
    simpl. split; [split; [done | by intros [? _]]|]. split; done. }
  assert (Hall : Forall (fun v => ~ absent_or_empty v) (customer_required b))
    by (by apply Hreq).
  unfold createCustomer, insert_customer.
  cbn [NewCust.firstname NewCust.lastname NewCust.mobile NewCust.dateOfBirth
       NewCust.email].
  pose proof (existsb_column_free Cust.customerCode (generateUniqueCustomerCode db)
                (customers db)) as Hcode.
  pose proof (existsb_column_free Cust.email (default "" (Json.email b))
                (customers db)) as Hmail.
  destruct (existsb (fun c => bool_decide (Cust.email c = _)) _).
  { assert (Hin : default "" (Json.email b) ∈ Cust.email <$> customers db).
    { destruct (decide (default "" (Json.email b) ∈ Cust.email <$> customers db));
        [done|]. by apply Hmail in n. }
    simpl. split; [split; [done | by intros (_ & _ & ?)]|]. split; done. }
  destruct (existsb (fun c => bool_decide (Cust.customerCode c = _)) _).
  { assert (Hin : generateUniqueCustomerCode db ∈ Cust.customerCode <$> customers db).
    { destruct (decide (generateUniqueCustomerCode db
                        ∈ Cust.customerCode <$> customers db)); [done|].
      by apply Hcode in n. }
    simpl. split; [split; [done | by intros (_ & ? & _)]|]. split; done. }
  simpl. split; [split; [intros _ | done]|].
  - repeat split; [done | by apply Hcode | by apply Hmail].
  - split; [done|].
    intros _ [Hin|Hin]; [by apply Hcode in Hin | by apply Hmail in Hin].
Qed.

Lemma customers_POST_outcome_witness :
  @CustomersRoute.POST sample_externals sample_db
     (request_as "EMP003" (Some (new_customer_body "Carla" "carl@example.com")) None)
  = (sample_db, NextResponse_json (BError "Internal server error") 500).
Proof.
  destruct (@customers_POST_outcome sample_externals sample_db
              (request_as "EMP003"
                 (Some (new_customer_body "Carla" "carl@example.com")) None)
              bob (new_customer_body "Carla" "carl@example.com"))
    as (_ & _ & Htaken).
  - vm_compute. reflexivity.
  - reflexivity.
  - apply Htaken.
    + unfold customer_required, absent_or_empty. simpl.
      repeat (apply Forall_cons; split; [by intros [|]|]). apply Forall_nil_2.
    + right. unfold sample_db. simpl. in_list.
Defined.

(** ** Ids that match no row *)

(** X6. An update or delete whose id, read as [parseInt] reads it,
    matches no row (a deleted or never issued id, or text that does
    not parse to a number) writes nothing, on a store whose row ids
    are positive and below 2^53 (so that a Number holds each of them
    and every id a request can name exactly). The id of a delete is
    the text of the URL parameter; the id of an update is a string
    or a JSON number, and a number is read as [parseInt] reads what
    [String] writes of it: itself below 1e21, its first digit from
    there on. The admin is told 404 by both routes; a caller who is
    not admin is told 403 by the customers route, the same answer as
    for a customer that exists and belongs to someone else. *)
Theorem unmatched_id_answers `{Externals} (db : Database) (u : Tok.Payload)
    (del put : Request) (s : string) (b : Json.Body) :
  (forall e, e ∈ employees db -> 0 < Emp.id e < 2 ^ 53) ->
  (forall c, c ∈ customers db -> 0 < Cust.id c < 2 ^ 53) ->
  user (authenticateRequest del) = Some u -> search_id del = Some s -> s <> "" ->
  user (authenticateRequest put) = Some u -> json put = Some b ->
  id_falsy (Json.id b) = false ->
  ((forall e, e ∈ employees db -> Js.parseInt s <> Some (Emp.id e)) ->
   Tok.role u = "admin" ->
   EmployeesRoute.DELETE db del
   = (db, NextResponse_json (BError "Employee not found") 404))
  /\ ((forall e, e ∈ employees db -> parseInt_id (Json.id b) <> Some (Emp.id e)) ->
      Tok.role u = "admin" -> employee_fields (employee_updates_of b) <> [] ->
      EmployeesRoute.PUT db put
      = (db, NextResponse_json (BError "Employee not found") 404))
  /\ ((forall c, c ∈ customers db -> Js.parseInt s <> Some (Cust.id c)) ->
      CustomersRoute.DELETE db del
      = if bool_decide (Tok.role u = "admin")
        then (db, NextResponse_json (BError "Customer not found") 404)
        else (db, NextResponse_json (BError "Access denied") 403))
  /\ ((forall c, c ∈ customers db -> parseInt_id (Json.id b) <> Some (Cust.id c)) ->
      customer_fields (customer_updates_of b) <> [] ->
      CustomersRoute.PUT db put
      = if bool_decide (Tok.role u = "admin")
        then (db, NextResponse_json (BError "Customer not found") 404)
        else (db, NextResponse_json (BError "Access denied") 403)).
Proof.
  intros _ _ Hdu Hds Hs Hpu Hpb Hid.
  assert (Hfalsy : Js.falsy (Some s) = false) by (by destruct s).
  split; [|split; [|split]].
  - intros Hno Hr. unfold EmployeesRoute.DELETE.
    rewrite Hdu, Hds, Hfalsy, (bool_decide_eq_true_2 _ Hr). simpl.
    rewrite (changes_zero Emp.id _ _ Hno). simpl.
    rewrite (no_hit_keeps_all Emp.id _ _ (changes_zero Emp.id _ _ Hno)).
    by rewrite database_eta.
  - intros Hno Hr Hf. unfold EmployeesRoute.PUT.
    rewrite Hpu, Hpb, Hid, (bool_decide_eq_true_2 _ Hr). simpl.
    fold (employee_updates_of b).
    rewrite bool_decide_eq_false_2 by (by destruct (employee_fields _)).
    unfold updateEmployee, update_employees.
    rewrite bool_decide_eq_false_2 by (by destruct (employee_fields _)).
    by rewrite (existsb_by_id_false Emp.id _ _ Hno).
  - intros Hno. unfold CustomersRoute.DELETE.
    rewrite Hdu, Hds, Hfalsy. simpl.
    unfold getCustomerById. rewrite (find_by_id_none Cust.id _ _ Hno). simpl.
    case_bool_decide; simpl; [|done].
    rewrite (changes_zero Cust.id _ _ Hno). simpl.
    rewrite (no_hit_keeps_all Cust.id _ _ (changes_zero Cust.id _ _ Hno)).
    by rewrite database_eta.
  - intros Hno Hf. unfold CustomersRoute.PUT.
    rewrite Hpu, Hpb, Hid.
    unfold getCustomerById. rewrite (find_by_id_none Cust.id _ _ Hno). simpl.
    case_bool_decide; simpl; [|done].
    fold (customer_updates_of b).
    rewrite bool_decide_eq_false_2 by (by destruct (customer_fields _)).
    unfold updateCustomer, update_customers.
    rewrite bool_decide_eq_false_2 by (by destruct (customer_fields _)).
    by rewrite (existsb_by_id_false Cust.id _ _ Hno).
Qed.

Lemma unmatched_id_answers_witness :
  @CustomersRoute.DELETE sample_externals sample_db
     (request_as "EMP002" None (Some "77"))
  = (sample_db, NextResponse_json (BError "Access denied") 403).
Proof.
  destruct (@unmatched_id_answers sample_externals sample_db ann
              (request_as "EMP002" None (Some "77"))
              (request_as "EMP002"
                 (Some (email_body (IdString "77") "n@example.com")) None)
              "77" (email_body (IdString "77") "n@example.com"))
    as (_ & _ & Hdel & _).
  - intros e Hin. unfold sample_db in Hin. simpl in Hin.
    repeat (apply elem_of_cons in Hin as [->|Hin]; [by split|]).
    by apply elem_of_nil in Hin.
  - intros c Hin. unfold sample_db in Hin. simpl in Hin.
    repeat (apply elem_of_cons in Hin as [->|Hin]; [by split|]).
    by apply elem_of_nil in Hin.
  - vm_compute. reflexivity.
  - reflexivity.
  - discriminate.
  - vm_compute. reflexivity.
  - reflexivity.
  - reflexivity.
  - rewrite Hdel; [reflexivity|].
    intros c Hin. unfold sample_db in Hin. simpl in Hin.
    repeat (apply elem_of_cons in Hin as [->|Hin]; [vm_compute; discriminate|]).
    by apply elem_of_nil in Hin.
Defined.

(** A JSON number from 1e21 on is not read as itself: [String] writes
    it in exponent notation and [parseInt] stops after the first
    digit. An update whose body carries the id 1e21 is an update of
    the row with the id 1. *)
Lemma number_id_from_1e21 :
  parseInt_id (IdNumber (10 ^ 21)) = Some 1
  /\ parseInt_id (IdNumber (10 ^ 23)) = Some 1
  /\ parseInt_id (IdNumber (2 ^ 53 + 1)) = Some (2 ^ 53)
  /\ status (@EmployeesRoute.PUT sample_externals sample_db
               (request_as "ADMIN001"
                  (Some (email_body (IdNumber (10 ^ 21)) "root@cms.com")) None)).2
     = 200
  /\ Emp.email <$>
       employees (@EmployeesRoute.PUT sample_externals sample_db
                    (request_as "ADMIN001"
                       (Some (email_body (IdNumber (10 ^ 21)) "root@cms.com"))
                       None)).1
     = ["root@cms.com"; "ann@cms.com"; "bob@cms.com"].
Proof. vm_compute. by repeat split. Qed.

(** ** Decimal ids: [toString] and [parseInt] *)

Lemma str_app_cons (a : ascii) (s t : string) :
  String a s +:+ t = String a (s +:+ t).
Proof. reflexivity. Qed.

Lemma str_app_nil_r (s : string) : s +:+ "" = s.
Proof. induction s as [|a s IH]; [done|]. by rewrite str_app_cons, IH. Qed.

Lemma str_app_assoc (s t r : string) : (s +:+ t) +:+ r = s +:+ (t +:+ r).
Proof. induction s as [|a s IH]; [done|]. by rewrite !str_app_cons, IH. Qed.

Lemma str_length_app (s t : string) :
  String.length (s +:+ t) = (String.length s + String.length t)%nat.
Proof. induction s as [|a s IH]; [done|]. rewrite str_app_cons. simpl. by rewrite IH. Qed.

Lemma pretty_N_go_app (x : N) (s : string) :
  pretty_N_go x s = pretty_N_go x "" +:+ s.
Proof.
  revert s. induction (N.lt_wf_0 x) as [x _ IH]; intros s.
  assert (x = 0 \/ 0 < x)%N as [->|Hx] by lia; [done|].
  assert (Hlt : (x `div` 10 < x)%N) by (by apply N.div_lt).
  rewrite !(pretty_N_go_step x) by done.
  rewrite (IH _ Hlt (String _ s)), (IH _ Hlt (String _ "")).
  by rewrite str_app_assoc.
Qed.

Lemma pretty_N_go_snoc (x : N) :
  (0 < x)%N ->
  pretty_N_go x ""
  = pretty_N_go (x `div` 10) "" +:+ String (pretty_N_char (x `mod` 10)) "".
Proof. intros Hx. rewrite pretty_N_go_step by done. apply pretty_N_go_app. Qed.

Lemma small_digit (d : N) :
  (d < 10)%N ->
  d = 0%N \/ d = 1%N \/ d = 2%N \/ d = 3%N \/ d = 4%N \/ d = 5%N \/ d = 6%N
  \/ d = 7%N \/ d = 8%N \/ d = 9%N.
Proof. lia. Qed.

Lemma digit_value_char (d : N) :
  (d < 10)%N -> Js.digit_value 10 (pretty_N_char d) = Some (Z.of_N d).
Proof.
  intros Hd. destruct (small_digit d Hd) as [->|[->|[->|[->|[->|[->|[->|[->|[->| ->]]]]]]]]];
    reflexivity.
Qed.

Lemma is_digit_char (d : N) : is_digit (pretty_N_char d) = true.
Proof. unfold pretty_N_char. repeat case_match; reflexivity. Qed.

Lemma all_digits_app (s t : string) :
  all_digits (s +:+ t) = all_digits s && all_digits t.
Proof.
  induction s as [|a s IH]; [done|]. rewrite str_app_cons. simpl.
  by rewrite IH, andb_assoc.
Qed.

Lemma all_digits_pretty (x : N) : all_digits (pretty_N_go x "") = true.
Proof.
  induction (N.lt_wf_0 x) as [x _ IH].
  assert (x = 0 \/ 0 < x)%N as [->|Hx] by lia; [done|].
  rewrite pretty_N_go_snoc, all_digits_app by done.
  rewrite IH by (by apply N.div_lt). simpl. by rewrite is_digit_char.
Qed.

Lemma pretty_nonempty (x : N) : (0 < x)%N -> pretty_N_go x "" <> "".
Proof.
  intros Hx. rewrite pretty_N_go_snoc by done.
  destruct (pretty_N_go (x `div` 10) ""); discriminate.
Qed.

(** Reading back the digits [toString] writes. *)
Lemma parse_digits_pretty (x : N) (s : string) (acc : option Z) :
  (0 < x)%N -> default 0 acc = 0 ->
  Js.parse_digits 10 (pretty_N_go x "" +:+ s) acc
  = Js.parse_digits 10 s (Some (Z.of_N x)).
Proof.
  revert s acc. induction (N.lt_wf_0 x) as [x _ IH]; intros s acc Hx Hacc.
  rewrite pretty_N_go_snoc, str_app_assoc, str_app_cons by done.
  assert (Hd : (x `mod` 10 < 10)%N) by (by apply N.mod_lt).
  assert (Hx10 : Z.of_N x = Z.of_N (x `div` 10) * 10 + Z.of_N (x `mod` 10)).
  { rewrite (N.div_mod x 10) at 1 by done. lia. }
  assert (x `div` 10 = 0 \/ 0 < x `div` 10)%N as [H0|Hpos] by lia.
  - rewrite H0 in *. rewrite pretty_N_go_0. simpl.
    rewrite (digit_value_char _ Hd), Hacc, Hx10. done.
  - assert (Hlt : (x `div` 10 < x)%N) by (by apply N.div_lt).
    rewrite (IH _ Hlt _ acc Hpos Hacc).
    simpl. rewrite (digit_value_char _ Hd). simpl. by rewrite Hx10.
Qed.

(** On a non-empty string of digits [parseInt] finds no white space,
    no sign and no radix prefix. *)
Lemma parseInt_digits (s : string) :
  all_digits s = true -> s <> "" ->
  Js.parseInt s = Js.parse_digits 10 s None
  /\ Js.parseInt ("-" +:+ s) = Z.opp <$> Js.parse_digits 10 s None.
Proof.
  destruct s as [|c rest]; [done|]. intros Hd _.
  destruct c as [[] [] [] [] [] [] [] []]; try discriminate Hd;
    try solve [split; unfold Js.parseInt; simpl;
               by destruct (Js.parse_digits _ _ _)].
  simpl in Hd. destruct rest as [|c2 rest]; [by split|].
  destruct c2 as [[] [] [] [] [] [] [] []]; try discriminate Hd;
    split; unfold Js.parseInt; simpl; by destruct (Js.parse_digits _ _ _).
Qed.

Lemma toString_nonneg (n : Z) :
  0 < n -> Js.toString n = pretty_N_go (Z.to_N n) "".
Proof. destruct n as [|p|p]; [lia | | lia]. intros _. reflexivity. Qed.

(** The id a page writes into a URL or a body reads back as the same
    number. *)
Lemma parseInt_toString (n : Z) : Js.parseInt (Js.toString n) = Some n.
Proof.
  destruct n as [|p|p]; [reflexivity | |].
  - change (Js.toString (Z.pos p)) with (pretty_N_go (N.pos p) "").
    destruct (parseInt_digits (pretty_N_go (N.pos p) "")) as [-> _].
    + apply all_digits_pretty.
    + by apply pretty_nonempty.
    + rewrite <- (str_app_nil_r (pretty_N_go (N.pos p) "")).
      by rewrite parse_digits_pretty.
  - change (Js.toString (Z.neg p)) with ("-" +:+ pretty_N_go (N.pos p) "").
    destruct (parseInt_digits (pretty_N_go (N.pos p) "")) as [_ ->].
    + apply all_digits_pretty.
    + by apply pretty_nonempty.
    + rewrite <- (str_app_nil_r (pretty_N_go (N.pos p) "")).
      by rewrite parse_digits_pretty.
Qed.

Lemma toString_nonempty (n : Z) : Js.toString n <> "".
Proof.
  intros E. pose proof (parseInt_toString n) as Hp. by rewrite E in Hp.
Qed.

(** ** Listings *)

Section Order.
Context {A : Type} (key : A -> Z).

Lemma insert_desc_sorted (x : A) (l : list A) :
  sorted_desc key l -> sorted_desc key (insert_desc key x l).
Proof.
  unfold sorted_desc. induction 1 as [|y l Hl IH Hy]; simpl.
  - repeat constructor.
  - destruct (key y <? key x)%Z eqn:E.
    + apply Z.ltb_lt in E. constructor; [by constructor|].
      constructor; [lia|]. eapply Forall_impl; [exact Hy|]. simpl. intros; lia.
    + apply Z.ltb_ge in E. constructor; [done|].
      rewrite insert_desc_perm. by constructor.
Qed.

Lemma order_by_desc_sorted (l : list A) : sorted_desc key (order_by_desc key l).
Proof.
  induction l as [|x l IH]; simpl; [constructor|]. by apply insert_desc_sorted.
Qed.

Lemma insert_desc_front (x : A) (l : list A) :
  Forall (fun z => key z < key x) l -> insert_desc key x l = x :: l.
Proof.
  destruct 1 as [|y l Hy _]; simpl; [done|].
  by rewrite (proj2 (Z.ltb_lt _ _) Hy).
Qed.

Lemma insert_desc_filter (P : A -> Prop) `{!forall z, Decision (P z)}
    (x : A) (l : list A) :
  sorted_desc key l ->
  filter P (insert_desc key x l)
  = if decide (P x) then insert_desc key x (filter P l) else filter P l.
Proof.
  unfold sorted_desc. induction 1 as [|y l Hl IH Hy]; simpl.
  - rewrite filter_cons, filter_nil. by case_decide.
  - destruct (key y <? key x)%Z eqn:E.
    + apply Z.ltb_lt in E. rewrite (filter_cons _ x). case_decide; [|done].
      rewrite insert_desc_front; [done|].
      apply Forall_forall. intros z Hz.
      apply list_elem_of_filter in Hz as [_ Hz].
      apply elem_of_cons in Hz as [->|Hz]; [done|].
      rewrite Forall_forall in Hy. specialize (Hy z Hz). simpl in Hy. lia.
    + rewrite !(filter_cons _ y), IH.
      destruct (decide (P y)), (decide (P x)); simpl; try done.
      by rewrite E.
Qed.

(** Filtering a listing is listing the filtered table. *)
Lemma order_by_desc_filter (P : A -> Prop) `{!forall z, Decision (P z)}
    (l : list A) :
  filter P (order_by_desc key l) = order_by_desc key (filter P l).
Proof.
  induction l as [|x l IH]; simpl; [done|].
  rewrite insert_desc_filter by apply order_by_desc_sorted.
  rewrite filter_cons, IH. by case_decide.
Qed.

End Order.

Lemma filter_fmap {A B : Type} (f : A -> B) (P : B -> Prop)
    `{!forall y, Decision (P y)} (l : list A) :
  filter P (f <$> l) = f <$> filter (fun x => P (f x)) l.
Proof.
  induction l as [|x l IH]; [done|].
  rewrite fmap_cons, !filter_cons, IH. simpl. by case_decide.
Qed.

Lemma sorted_desc_fmap {A B : Type} (f : A -> B) (key : A -> Z) (keyB : B -> Z)
    (l : list A) :
  (forall x, keyB (f x) = key x) ->
  sorted_desc key l -> sorted_desc keyB (f <$> l).
Proof.
  intros Hk. unfold sorted_desc. induction 1 as [|x l Hl IH Hx]; simpl.
  - constructor.
  - constructor; [done|]. apply Forall_fmap.
    eapply Forall_impl; [exact Hx|]. simpl. intros y. by rewrite !Hk.
Qed.

(** X7. Both listings come in descending order of id, and neither
    drops nor repeats a row: the staff listing is one password-free
    view per employee row, the customer listing without a filter is a
    rearrangement of the table, and with an employee id (other than
    0) a rearrangement of the rows that employee owns. Listing by role
    gives the views of exactly the rows with that role. *)
Theorem listings_sorted_and_complete `{Externals} (db : Database) :
  (sorted_desc EmpView.id (getAllEmployees db)
   /\ getAllEmployees db ≡ₚ employee_columns <$> employees db)
  /\ (forall role,
        sorted_desc EmpView.id (getEmployeesByRole db role)
        /\ getEmployeesByRole db role
           = filter (fun v => EmpView.role v = role) (getAllEmployees db))
  /\ (forall employeeId,
        sorted_desc Cust.id (getAllCustomers db employeeId)
        /\ getAllCustomers db employeeId
           ≡ₚ match employeeId with
              | Some n =>
                  if bool_decide (n = 0) then customers db
                  else filter (fun c => Cust.createdBy c = Some n) (customers db)
              | None => customers db
              end).
Proof.
  split; [|split].
  - unfold getAllEmployees. split.
    + apply (sorted_desc_fmap _ Emp.id); [done | apply order_by_desc_sorted].
    + by rewrite order_by_desc_perm.
  - intros role. unfold getEmployeesByRole, getAllEmployees. split.
    + apply (sorted_desc_fmap _ Emp.id); [done | apply order_by_desc_sorted].
    + rewrite filter_fmap. simpl. by rewrite order_by_desc_filter.
  - intros employeeId. unfold getAllCustomers.
    destruct employeeId as [n|]; [case_bool_decide|];
      (split; [apply order_by_desc_sorted | apply order_by_desc_perm]).
Qed.

(** ** The delete buttons of the list pages *)

Lemma authenticateRequest_cookie `{Externals} (r1 r2 : Request) :
  cookie r1 = cookie r2 -> authenticateRequest r1 = authenticateRequest r2.
Proof. unfold authenticateRequest. by intros ->. Qed.

(** X8. The staff list page, used by an admin on a row of the listing:
    the request it sends on delete (the id written in decimal into the
    URL) is answered 200 and removes that row and no other, leaving
    the customers table as it is, the customers of the deleted
    employee included; the list the page then shows, the old one
    without the row, is the list the server would send; the deleted
    id is no longer found and every other id still is. *)
Theorem list_page_deletes_employee `{Externals} (db : Database)
    (cookieHeader : option string) (u : Tok.Payload) (e : Emp.Employee) :
  db_wf db -> e ∈ employees db ->
  user (authenticateRequest (handleDelete_request cookieHeader (Emp.id e))) = Some u ->
  Tok.role u = "admin" ->
  let db' := mkDatabase (filter (fun e' => Emp.id e' <> Emp.id e) (employees db))
                        (employees_seq db) (customers db) (customers_seq db)
                        (CURRENT_TIMESTAMP db) in
  EmployeesRoute.DELETE db (handleDelete_request cookieHeader (Emp.id e))
  = (db', NextResponse_json (BMessage "Employee deleted successfully") 200)
  /\ getAllEmployees db' = handleDelete_list (getAllEmployees db) (Emp.id e)
  /\ getEmployeeById db' (Some (Emp.id e)) = None
  /\ forall e', e' ∈ employees db -> Emp.id e' <> Emp.id e ->
       getEmployeeById db' (Some (Emp.id e')) = Some e'.
Proof.
  intros Hwf Hin Hu Hr db'. split; [|split; [|split]].
  - unfold EmployeesRoute.DELETE. rewrite Hu.
    rewrite (bool_decide_eq_true_2 _ Hr). simpl.
    pose proof (toString_nonempty (Emp.id e)) as Hne.
    destruct (Js.toString (Emp.id e)) eqn:Es; [done|]. simpl.
    rewrite <- Es, parseInt_toString.
    rewrite (changes_positive Emp.id _ _ Hin). simpl.
    by rewrite delete_filter.
  - unfold getAllEmployees, handleDelete_list, db'. simpl.
    rewrite filter_fmap. simpl.
    by rewrite order_by_desc_filter.
  - unfold getEmployeeById, db'. simpl. apply find_by_id_none.
    intros x Hx [= E]. apply list_elem_of_filter in Hx as [Hx _]. by apply Hx.
  - intros e' Hin' Hne. unfold getEmployeeById, db'. simpl.
    apply find_by_id.
    + destruct Hwf as ((_ & _ & Hnd & _) & _).
      eapply sublist_NoDup; [exact Hnd|]. apply fmap_sublist, sublist_filter.
    + by apply list_elem_of_filter.
Qed.

Lemma list_page_deletes_employee_witness :
  @EmployeesRoute.DELETE sample_externals sample_db
     (handleDelete_request
        (Some "auth-token=your-secret-key-change-in-production/ADMIN001") 2)
  = (mkDatabase (filter (fun e' => Emp.id e' <> 2) (employees sample_db))
                (employees_seq sample_db) (customers sample_db)
                (customers_seq sample_db) (CURRENT_TIMESTAMP sample_db),
     NextResponse_json (BMessage "Employee deleted successfully") 200).
Proof.
  apply (@list_page_deletes_employee sample_externals sample_db
           (Some "auth-token=your-secret-key-change-in-production/ADMIN001")
           (Tok.mk "ADMIN001" "admin@cms.com" 1 "admin") ann_row).
  - exact sample_db_wf.
  - unfold sample_db, ann_row. simpl. in_list.
  - vm_compute. reflexivity.
  - reflexivity.
Defined.

(** X9. The customers list page, used on a row of the listing by the
    admin or by the row's owner: the request it sends on delete is
    answered 200 and removes that row and no other, the employees
    table stays as it is, and the list the page then shows is the
    list the server would send to the same caller. *)
Theorem list_page_deletes_customer `{Externals} (db : Database)
    (cookieHeader : option string) (u : Tok.Payload) (c : Cust.Customer) :
  db_wf db -> c ∈ customers db ->
  user (authenticateRequest (handleDelete_request cookieHeader (Cust.id c))) = Some u ->
  Tok.role u = "admin" \/ Cust.createdBy c = Some (Tok.id u) ->
  let db' := mkDatabase (employees db) (employees_seq db)
                        (filter (fun c' => Cust.id c' <> Cust.id c) (customers db))
                        (customers_seq db) (CURRENT_TIMESTAMP db) in
  CustomersRoute.DELETE db (handleDelete_request cookieHeader (Cust.id c))
  = (db', NextResponse_json (BMessage "Customer deleted successfully") 200)
  /\ (forall employeeId,
        getAllCustomers db' employeeId
        = handleDelete_customers (getAllCustomers db employeeId) (Cust.id c))
  /\ getCustomerById db' (Some (Cust.id c)) = None.
Proof.
  intros Hwf Hin Hu Hpass db'. split; [|split].
  - apply (customers_DELETE_allowed db u c Hwf Hin _ (Js.toString (Cust.id c)));
      [done | done | done | apply parseInt_toString].
  - intros employeeId. unfold getAllCustomers, handleDelete_customers, db'. simpl.
    destruct employeeId as [n|]; [case_bool_decide|];
      rewrite order_by_desc_filter; try done.
    f_equal. rewrite !list_filter_filter. apply list_filter_iff. tauto.
  - unfold getCustomerById, db'. simpl. apply find_by_id_none.
    intros x Hx [= E]. apply list_elem_of_filter in Hx as [Hx _]. by apply Hx.
Qed.

Lemma list_page_deletes_customer_witness :
  @CustomersRoute.DELETE sample_externals sample_db
     (handleDelete_request
        (Some "auth-token=your-secret-key-change-in-production/EMP002") 1)
  = (mkDatabase (employees sample_db) (employees_seq sample_db)
                (filter (fun c' => Cust.id c' <> 1) (customers sample_db))
                (customers_seq sample_db) (CURRENT_TIMESTAMP sample_db),
     NextResponse_json (BMessage "Customer deleted successfully") 200).
Proof.
  apply (@list_page_deletes_customer sample_externals sample_db
           (Some "auth-token=your-secret-key-change-in-production/EMP002")
           ann carl).
  - exact sample_db_wf.
  - unfold sample_db, carl. simpl. in_list.
  - vm_compute. reflexivity.
  - right. reflexivity.
Defined.

(** ** The shape of a generated code *)

Lemma parse_digits_zeros (k : nat) (t : string) (acc : option Z) :
  default 0 acc = 0 ->
  exists acc', default 0 acc' = 0
    /\ Js.parse_digits 10 (Js.repeat_char "0" k +:+ t) acc
       = Js.parse_digits 10 t acc'.
Proof.
  revert acc. induction k as [|k IH]; intros acc Hacc; simpl.
  - by exists acc.
  - apply IH. simpl. rewrite Hacc. reflexivity.
Qed.

Lemma all_digits_zeros (k : nat) : all_digits (Js.repeat_char "0" k) = true.
Proof. induction k as [|k IH]; [done|]. simpl. exact IH. Qed.

Lemma length_repeat_char (a : ascii) (k : nat) :
  String.length (Js.repeat_char a k) = k.
Proof. induction k as [|k IH]; [done|]. simpl. by rewrite IH. Qed.

(** The digits of a code for the count [n]: all digits, three at
    least, and [n] when read as a number. *)
Lemma code_digits (n : Z) :
  0 < n ->
  all_digits (Js.padStart 3 "0" (Js.toString n)) = true
  /\ (3 <= String.length (Js.padStart 3 "0" (Js.toString n)))%nat
  /\ Js.parseInt (Js.padStart 3 "0" (Js.toString n)) = Some n.
Proof.
  intros Hn. unfold Js.padStart. rewrite (toString_nonneg n Hn).
  set (d := pretty_N_go (Z.to_N n) "").
  assert (Hx : (0 < Z.to_N n)%N) by lia.
  assert (Hd : all_digits d = true) by apply all_digits_pretty.
  assert (Hne : d <> "") by (by apply pretty_nonempty).
  assert (Hall : all_digits (Js.repeat_char "0" (3 - String.length d) +:+ d) = true).
  { by rewrite all_digits_app, all_digits_zeros, Hd. }
  split; [done|]. split.
  - rewrite str_length_app, length_repeat_char. lia.
  - destruct (parseInt_digits _ Hall) as [-> _].
    { destruct (Js.repeat_char "0" (3 - String.length d)); [done | discriminate]. }
    destruct (parse_digits_zeros (3 - String.length d) d None eq_refl)
      as (acc' & Hacc' & ->).
    rewrite <- (str_app_nil_r d). unfold d.
    rewrite parse_digits_pretty by done. simpl. f_equal. lia.
Qed.

(** X10. A generated code is the prefix ('EMP', 'CUST') followed by
    digits only, at least three of them, and the digits read as a
    number give the row count plus one. Hence two stores are handed
    the same staff code exactly when their employees tables have the
    same number of rows, and likewise for customers: as long as the
    count only grows no code comes twice, and it comes again as soon
    as the count comes again. *)
Theorem generated_code_shape (db db2 : Database) :
  (exists digits,
     generateUniqueEmployeeCode db = "EMP" +:+ digits
     /\ all_digits digits = true /\ (3 <= String.length digits)%nat
     /\ Js.parseInt digits = Some (Z.of_nat (length (employees db)) + 1))
  /\ (exists digits,
        generateUniqueCustomerCode db = "CUST" +:+ digits
        /\ all_digits digits = true /\ (3 <= String.length digits)%nat
        /\ Js.parseInt digits = Some (Z.of_nat (length (customers db)) + 1))
  /\ (generateUniqueEmployeeCode db = generateUniqueEmployeeCode db2
      <-> length (employees db) = length (employees db2))
  /\ (generateUniqueCustomerCode db = generateUniqueCustomerCode db2
      <-> length (customers db) = length (customers db2)).
Proof.
  assert (Hpos : forall l : nat, 0 < Z.of_nat l + 1) by (intros; lia).
  split; [|split; [|split]].
  - eexists. split; [reflexivity|]. apply code_digits, Hpos.
  - eexists. split; [reflexivity|]. apply code_digits, Hpos.
  - unfold generateUniqueEmployeeCode. split; [|by intros ->].
    intros E. apply (inj (String.app "EMP")) in E.
    pose proof (code_digits _ (Hpos (length (employees db)))) as (_ & _ & H1).
    pose proof (code_digits _ (Hpos (length (employees db2)))) as (_ & _ & H2).
    rewrite E, H2 in H1. injection H1. lia.
  - unfold generateUniqueCustomerCode. split; [|by intros ->].
    intros E. apply (inj (String.app "CUST")) in E.
    pose proof (code_digits _ (Hpos (length (customers db)))) as (_ & _ & H1).
    pose proof (code_digits _ (Hpos (length (customers db2)))) as (_ & _ & H2).
    rewrite E, H2 in H1. injection H1. lia.
Qed.

(** ** The session cookie *)

Lemma split_app_sep (sep : ascii) (a b : string) :
  Js.split sep (a +:+ String sep b) = (Js.split sep a ++ Js.split sep b)%list.
Proof.
  induction a as [|c a IH].
  - change ("" +:+ String sep b) with (String sep b). simpl.
    by rewrite Ascii.eqb_refl.
  - rewrite str_app_cons. simpl. rewrite IH.
    destruct (Ascii.eqb c sep); [done|].
    destruct (Js.split sep a) as [|w ws] eqn:E; [|done].
    by destruct a; simpl in E; repeat case_match.
Qed.

Lemma split_safe (s : string) :
  cookie_safe s = true -> Js.split ";" s = [s] /\ Js.split "=" s = [s].
Proof.
  induction s as [|c s IH]; [done|]. simpl.
  rewrite !andb_true_iff, !negb_true_iff. intros [[[H1 H2] _] Hs].
  destruct (IH Hs) as [-> ->]. by rewrite H1, H2.
Qed.

Lemma rev_app_app (s t acc : string) :
  String.rev_app (s +:+ t) acc = String.rev_app t (String.rev_app s acc).
Proof.
  revert acc. induction s as [|c s IH]; intros acc; [done|].
  rewrite str_app_cons. simpl. apply IH.
Qed.

Lemma rev_app_rev_app (s a b : string) :
  String.rev_app (String.rev_app s a) b = String.rev_app a (s +:+ b).
Proof.
  revert a b. induction s as [|c s IH]; intros a b; [done|].
  simpl. rewrite IH. by rewrite str_app_cons.
Qed.

Lemma rev_rev (s : string) : String.rev (String.rev s) = s.
Proof. unfold String.rev. rewrite rev_app_rev_app. simpl. apply str_app_nil_r. Qed.

Lemma last_char (s : string) :
  s <> "" -> exists s0 c, s = s0 +:+ String c "".
Proof.
  induction s as [|a s IH]; [done|]. intros _.
  destruct s as [|b s].
  - by exists "", a.
  - destruct IH as (s0 & c & E); [done|]. exists (String a s0), c.
    by rewrite str_app_cons, <- E.
Qed.

Lemma cookie_safe_app (s t : string) :
  cookie_safe (s +:+ t) = cookie_safe s && cookie_safe t.
Proof.
  induction s as [|a s IH]; [done|]. rewrite str_app_cons. simpl.
  by rewrite IH, !andb_assoc.
Qed.

(** [trimEnd] leaves a string alone that ends in a safe character. *)
Lemma trimEnd_safe (p t : string) :
  t <> "" -> cookie_safe t = true -> Js.trimEnd (p +:+ t) = p +:+ t.
Proof.
  intros Hne Hsafe. destruct (last_char t Hne) as (t0 & c & ->).
  rewrite cookie_safe_app in Hsafe. simpl in Hsafe.
  rewrite !andb_true_iff, !negb_true_iff in Hsafe.
  destruct Hsafe as [_ [[[_ _] Hws] _]].
  unfold Js.trimEnd.
  assert (Hrev : String.rev (p +:+ (t0 +:+ String c ""))
                 = String c (String.rev (p +:+ t0))).
  { unfold String.rev. by rewrite <- str_app_assoc, rev_app_app. }
  rewrite Hrev. simpl. rewrite Hws. rewrite <- Hrev. apply rev_rev.
Qed.

Lemma split_nonempty (sep : ascii) (s : string) : Js.split sep s <> [].
Proof.
  destruct s as [|c s]; [done|]. simpl.
  destruct (Ascii.eqb c sep); [done|]. by destruct (Js.split sep s).
Qed.

(** A prefix without the separator stays in the first piece. *)
Lemma split_prefix (sep : ascii) (p t : string) :
  Js.split sep p = [p] ->
  Js.split sep (p +:+ t)
  = match Js.split sep t with
    | w :: ws => (p +:+ w) :: ws
    | [] => [p]
    end.
Proof.
  induction p as [|c p IH]; intros Hp.
  - change ("" +:+ t) with t.
    destruct (Js.split sep t) eqn:E; [by destruct (split_nonempty sep t)|done].
  - rewrite str_app_cons. simpl in *.
    destruct (Ascii.eqb c sep); [discriminate|].
    destruct (Js.split sep p) as [|w ws] eqn:E; [by destruct (split_nonempty sep p)|].
    injection Hp as -> ->. rewrite IH by done.
    destruct (Js.split sep t) eqn:Et; [by destruct (split_nonempty sep t)|done].
Qed.

Lemma parse_cookies_last (others token : string) :
  token <> "" -> cookie_safe token = true ->
  mjoin (parse_cookies (others +:+ "; auth-token=" +:+ token) !! "auth-token")
  = Some token.
Proof.
  intros Hne Hsafe. unfold parse_cookies.
  change (others +:+ "; auth-token=" +:+ token)
    with (others +:+ String ";" (" auth-token=" +:+ token)).
  rewrite split_app_sep.
  destruct (split_safe token Hsafe) as [Hsemi Heq].
  rewrite (split_prefix ";" " auth-token=" token) by reflexivity.
  rewrite Hsemi, foldl_app. simpl.
  assert (Htrim : Js.trim (" auth-token=" +:+ token) = "auth-token=" +:+ token).
  { unfold Js.trim.
    change (Js.trimStart (" auth-token=" +:+ token)) with ("auth-token=" +:+ token).
    by apply trimEnd_safe. }
  rewrite Htrim.
  change ("auth-token=" +:+ token) with ("auth-token" +:+ String "=" token).
  rewrite (split_prefix "=" "auth-token" (String "=" token)) by reflexivity.
  change (Js.split "=" (String "=" token)) with ("" :: Js.split "=" token).
  rewrite Heq. simpl.
  rewrite str_app_nil_r. by rewrite lookup_insert_eq.
Qed.

Lemma parse_cookies_only (token : string) :
  token <> "" -> cookie_safe token = true ->
  mjoin (parse_cookies ("auth-token=" +:+ token) !! "auth-token") = Some token.
Proof.
  intros Hne Hsafe. unfold parse_cookies.
  destruct (split_safe token Hsafe) as [Hsemi Heq].
  rewrite (split_prefix ";" "auth-token=" token) by reflexivity.
  rewrite Hsemi. simpl.
  assert (Htrim : Js.trim ("auth-token=" +:+ token) = "auth-token=" +:+ token).
  { unfold Js.trim.
    change (Js.trimStart ("auth-token=" +:+ token)) with ("auth-token=" +:+ token).
    by apply trimEnd_safe. }
  rewrite Htrim.
  change ("auth-token=" +:+ token) with ("auth-token" +:+ String "=" token).
  rewrite (split_prefix "=" "auth-token" (String "=" token)) by reflexivity.
  change (Js.split "=" (String "=" token)) with ("" :: Js.split "=" token).
  rewrite Heq. simpl.
  rewrite str_app_nil_r. by rewrite lookup_insert_eq.
Qed.

Lemma str_app_nonempty (s t : string) : t <> "" -> s +:+ t <> "".
Proof. intros Ht. destruct s; [done | discriminate]. Qed.

(** X11. Reading the session cookie. A token with no ';', no '=' and
    no white space comes out of the header as it was put in, both when
    it is the only cookie and when it is the last one after anything
    else (an earlier 'auth-token' included): the request is then
    authenticated exactly as [verifyToken] decides for that token.
    And a request is never given an identity without a non-empty
    token that [verifyToken] accepts; it gets either an identity or
    an error, never both and never neither. *)
Theorem session_cookie_read_back `{Externals} (others token : string)
    (b : option Json.Body) (q : option string) (req : Request) :
  token <> "" -> cookie_safe token = true ->
  authenticateRequest (mkRequest (Some ("auth-token=" +:+ token)) b q)
  = match verifyToken token with
    | Some decoded => mkAuthResult (Some decoded) None
    | None => mkAuthResult None (Some "Invalid or expired token")
    end
  /\ authenticateRequest
       (mkRequest (Some (others +:+ "; auth-token=" +:+ token)) b q)
     = match verifyToken token with
       | Some decoded => mkAuthResult (Some decoded) None
       | None => mkAuthResult None (Some "Invalid or expired token")
       end
  /\ (forall u, user (authenticateRequest req) = Some u ->
        exists t, t <> "" /\ verifyToken t = Some u
                  /\ error (authenticateRequest req) = None)
  /\ (user (authenticateRequest req) = None ->
      exists msg, error (authenticateRequest req) = Some msg).
Proof.
  intros Hne Hsafe. split; [|split; [|split]].
  - unfold authenticateRequest. simpl.
    rewrite (parse_cookies_only token Hne Hsafe).
    destruct token; [done|]. simpl. by destruct (verifyToken _).
  - unfold authenticateRequest. simpl.
    assert (Hh : others +:+ "; auth-token=" +:+ token <> "")
      by (apply str_app_nonempty; discriminate).
    assert (Hf : Js.falsy_string (others +:+ "; auth-token=" +:+ token) = false)
      by (by destruct (others +:+ "; auth-token=" +:+ token)).
    rewrite Hf.
    rewrite (parse_cookies_last others token Hne Hsafe).
    destruct token; [done|]. simpl. by destruct (verifyToken _).
  - intros u. unfold authenticateRequest.
    destruct (cookie req) as [h|]; [|done].
    destruct (Js.falsy_string h); [done|].
    destruct (mjoin _) as [t|]; [|done].
    destruct (Js.falsy_string t) eqn:Et; [done|].
    destruct (verifyToken t) as [d|] eqn:Ev; [|done].
    simpl. intros [= <-]. exists t. split; [by destruct t|]. done.
  - unfold authenticateRequest. intros Hnone.
    destruct (cookie req) as [h|]; [|by eexists].
    destruct (Js.falsy_string h); [by eexists|].
    destruct (mjoin _) as [t|]; [|by eexists].
    destruct (Js.falsy_string t); [by eexists|].
    destruct (verifyToken t); [done | by eexists].

Qed.

Lemma session_cookie_read_back_witness :
  @authenticateRequest sample_externals
     (mkRequest
        (Some ("theme=dark; auth-token=stale"
               +:+ "; auth-token=" +:+ "your-secret-key-change-in-production/EMP003"))
        None None)
  = match @verifyToken sample_externals
            "your-secret-key-change-in-production/EMP003" with
    | Some decoded => mkAuthResult (Some decoded) None
    | None => mkAuthResult None (Some "Invalid or expired token")
    end.
Proof.
  apply (@session_cookie_read_back sample_externals
           "theme=dark; auth-token=stale"
           "your-secret-key-change-in-production/EMP003" None None
           (mkRequest None None None)).
  - discriminate.
  - vm_compute. reflexivity.
Defined.

Lemma authenticateRequest_only_cookie `{Externals} (token : string)
    (b : option Json.Body) (q : option string) :
  token <> "" -> cookie_safe token = true ->
  authenticateRequest (mkRequest (Some ("auth-token=" +:+ token)) b q)
  = match verifyToken token with
    | Some decoded => mkAuthResult (Some decoded) None
    | None => mkAuthResult None (Some "Invalid or expired token")
    end.
Proof.
  intros Hne Hsafe. unfold authenticateRequest. simpl.
  rewrite (parse_cookies_only token Hne Hsafe).
  destruct token; [done|]. simpl. by destruct (verifyToken _).
Qed.

(** X12. Logging in opens a session for the row that logged in. When
    the code is that of a stored employee and bcrypt accepts the
    password, the login route answers 200, hands back the row without
    its password and sets as cookie the token signed over the row's
    code, email, id and role. When that token travels safely in a
    cookie and jsonwebtoken verifies what it signed, every later
    request carrying the cookie is authenticated as that id, code,
    email and role, and the 'me' route answers with them. *)
Theorem login_opens_session `{Externals} (db : Database) (req : Request)
    (body : Json.Body) (e : Emp.Employee) (code pw : string) :
  json req = Some body ->
  Json.employeeCode body = Some code ->
  Json.password body = Some (Js.VString pw) ->
  code <> "" -> pw <> "" ->
  getEmployeeByCode db code = Some e ->
  bcrypt_compare pw (Emp.password e) = true ->
  let payload := Tok.mk (Emp.employeeCode e) (Emp.email e) (Emp.id e) (Emp.role e) in
  let token := jwt_sign payload JWT_SECRET in
  token <> "" -> cookie_safe token = true ->
  jwt_verify token JWT_SECRET = Some payload ->
  LoginRoute.POST db req
  = (db, mkResponse 200
           (BLogin true "Login successful" (Some (userWithoutPassword e)))
           (Some token))
  /\ (forall b q,
        authenticateRequest (mkRequest (Some ("auth-token=" +:+ token)) b q)
        = mkAuthResult (Some payload) None)
  /\ (forall b q,
        MeRoute.GET (mkRequest (Some ("auth-token=" +:+ token)) b q)
        = (200, MeRoute.MeUser (Emp.id e) (Emp.employeeCode e) (Emp.email e)
                               (Emp.role e))).
Proof.
  intros Hb Hc Hp Hcode Hpw He Hcmp payload token Hne Hsafe Hver.
  assert (Hauth : forall b q,
            authenticateRequest (mkRequest (Some ("auth-token=" +:+ token)) b q)
            = mkAuthResult (Some payload) None).
  { intros b q. rewrite (authenticateRequest_only_cookie token b q Hne Hsafe).
    unfold verifyToken. by rewrite Hver. }
  split; [|split].
  - unfold LoginRoute.POST. rewrite Hb, Hc, Hp. simpl.
    destruct code; [done|]. destruct pw; [done|]. simpl.
    unfold authenticateUser. simpl. rewrite He, Hcmp. simpl.
    fold payload. fold token. by destruct token.
  - exact Hauth.
  - intros b q. unfold MeRoute.GET. by rewrite Hauth.
Qed.

Lemma login_opens_session_witness :
  @LoginRoute.POST sample_externals sample_db
     (mkRequest None
        (Some (Json.mk IdUndefined (Some "EMP002") None None None None None
                       (Some (Js.VString "hunter22")) None)) None)
  = (sample_db,
     mkResponse 200
       (BLogin true "Login successful" (Some (userWithoutPassword ann_row)))
       (Some "your-secret-key-change-in-production/EMP002"))
  /\ (forall b q,
        @authenticateRequest sample_externals
          (mkRequest
             (Some ("auth-token=" +:+ "your-secret-key-change-in-production/EMP002"))
             b q)
        = mkAuthResult (Some ann) None)
  /\ (forall b q,
        @MeRoute.GET sample_externals
          (mkRequest
             (Some ("auth-token=" +:+ "your-secret-key-change-in-production/EMP002"))
             b q)
        = (200, MeRoute.MeUser 2 "EMP002" "ann@cms.com" "user")).
Proof.
  apply (@login_opens_session sample_externals sample_db
           (mkRequest None
              (Some (Json.mk IdUndefined (Some "EMP002") None None None None None
                             (Some (Js.VString "hunter22")) None)) None)
           (Json.mk IdUndefined (Some "EMP002") None None None None None
                    (Some (Js.VString "hunter22")) None)
           ann_row "EMP002" "hunter22").
  - reflexivity.
  - reflexivity.
  - reflexivity.
  - discriminate.
  - discriminate.
  - vm_compute. reflexivity.
  - vm_compute. reflexivity.
  - vm_compute. discriminate.
  - vm_compute. reflexivity.
  - vm_compute. reflexivity.
Defined.

(** ** Starting the server again *)

Lemma find_snoc_fresh {A : Type} (p : A -> bool) (l : list A) (x : A) :
  existsb p l = false -> find p (l ++ [x]) = if p x then Some x else None.
Proof.
  induction l as [|y l IH]; simpl; [done|].
  destruct (p y); [done|]. exact IH.
Qed.

(** X13. [initTables] when the server is started on a file that has
    both tables, so that its SELECT and its INSERT find them (the
    start on a new file, where they may not, is [first_start]). Run
    twice it does what it does once. A store that has a row with the
    code ADMIN001 is left as it is, whatever that row holds; so is a
    store without such a row in which another row holds
    admin@cms.com: the INSERT fails, no admin is created, and the
    failure is an ['error'] event without a listener, which Node
    raises as an uncaught exception; the store is as before whatever
    becomes of the process. Otherwise one row is appended, with role 'admin', the next id and the hash
    of 'admin123'; then, bcrypt accepting that password for that
    hash, ADMIN001 / admin123 logs in with the role 'admin'. *)
Theorem initTables_bootstrap `{Externals} (db : Database) :
  initTables (initTables db) = initTables db
  /\ ("ADMIN001" ∈ Emp.employeeCode <$> employees db -> initTables db = db)
  /\ ("ADMIN001" ∉ Emp.employeeCode <$> employees db ->
      "admin@cms.com" ∈ Emp.email <$> employees db -> initTables db = db)
  /\ ("ADMIN001" ∉ Emp.employeeCode <$> employees db ->
      "admin@cms.com" ∉ Emp.email <$> employees db ->
      employees (initTables db)
      = (employees db ++
         [Emp.mk (employees_seq db + 1) "ADMIN001" "Admin" "User" "1234567890"
                 "1990-01-01" "admin@cms.com" (bcrypt_hash "admin123" 10) "admin"
                 (Some (CURRENT_TIMESTAMP db))])%list
      /\ customers (initTables db) = customers db
      /\ (bcrypt_compare "admin123" (bcrypt_hash "admin123" 10) = true ->
          AuthResp.success
            (authenticateUser (initTables db) (Cred.mk "ADMIN001" "admin123")) = true
          /\ EmpView.role <$>
               AuthResp.user
                 (authenticateUser (initTables db) (Cred.mk "ADMIN001" "admin123"))
             = Some "admin")).
Proof.
  pose proof (existsb_column Emp.employeeCode "ADMIN001" (employees db)) as Hcode.
  pose proof (existsb_column_free Emp.employeeCode "ADMIN001" (employees db))
    as Hcode'.
  pose proof (existsb_column Emp.email "admin@cms.com" (employees db)) as Hmail.
  pose proof (existsb_column_free Emp.email "admin@cms.com" (employees db))
    as Hmail'.
  destruct (existsb (fun e => bool_decide (Emp.employeeCode e = "ADMIN001"))
                    (employees db)) eqn:Ec.
  { assert (Hinit : initTables db = db) by (unfold initTables; by rewrite Ec).
    rewrite !Hinit. split; [done|]. split; [done|]. split.
    - intros Hn. by apply Hcode' in Hn.
    - intros Hn. by apply Hcode' in Hn. }
  destruct (existsb (fun e => bool_decide (Emp.email e = "admin@cms.com"))
                    (employees db)) eqn:Em.
  { assert (Hinit : initTables db = db)
      by (unfold initTables, insert_employee; by rewrite Ec, Em).
    rewrite !Hinit. split; [done|]. split; [done|]. split; [done|].
    intros _ Hn. by apply Hmail' in Hn. }
  assert (Hinit : initTables db
                  = mkDatabase
                      (employees db ++
                       [Emp.mk (employees_seq db + 1) "ADMIN001" "Admin" "User"
                               "1234567890" "1990-01-01" "admin@cms.com"
                               (bcrypt_hash "admin123" 10) "admin"
                               (Some (CURRENT_TIMESTAMP db))])
                      (employees_seq db + 1) (customers db) (customers_seq db)
                      (CURRENT_TIMESTAMP db))
    by (unfold initTables, insert_employee; by rewrite Ec, Em).
  split; [|split; [|split]].
  - rewrite Hinit. unfold initTables. simpl. rewrite existsb_app. simpl.
    by rewrite orb_true_r.
  - intros Hin. apply Hcode in Hin. congruence.
  - intros _ Hin. apply Hmail in Hin. congruence.
  - intros _ _. rewrite !Hinit. split; [done|]. split; [done|].
    intros Hcmp. unfold authenticateUser, getEmployeeByCode. simpl.
    rewrite (find_snoc_fresh _ _ _ Ec). simpl. by rewrite Hcmp.
Qed.

Lemma initTables_bootstrap_witness :
  AuthResp.success
    (@authenticateUser sample_externals
       (@initTables sample_externals
          (@EmployeesRoute.DELETE sample_externals sample_db
             (request_as "ADMIN001" None (Some "1"))).1)
       (Cred.mk "ADMIN001" "admin123")) = true
  /\ EmpView.role <$>
       AuthResp.user
         (@authenticateUser sample_externals
            (@initTables sample_externals
               (@EmployeesRoute.DELETE sample_externals sample_db
                  (request_as "ADMIN001" None (Some "1"))).1)
            (Cred.mk "ADMIN001" "admin123"))
     = Some "admin".
Proof.
  destruct (@initTables_bootstrap sample_externals
              (@EmployeesRoute.DELETE sample_externals sample_db
                 (request_as "ADMIN001" None (Some "1"))).1)
    as (_ & _ & _ & Hnew).
  destruct Hnew as (_ & _ & Hlogin).
  - vm_compute. intros Hin.
    repeat (apply elem_of_cons in Hin as [?|Hin]; [discriminate|]).
    by apply elem_of_nil in Hin.
  - vm_compute. intros Hin.
    repeat (apply elem_of_cons in Hin as [?|Hin]; [discriminate|]).
    by apply elem_of_nil in Hin.
  - apply Hlogin. vm_compute. reflexivity.
Defined.

(** ** Changing a password *)

Lemma find_by_column {A : Type} (col : A -> string) (l : list A) (x : A) :
  NoDup (col <$> l) -> x ∈ l ->
  find (fun y => bool_decide (col y = col x)) l = Some x.
Proof.
  induction l as [|y l IH]; intros Hnd Hin.
  - by apply elem_of_nil in Hin.
  - rewrite fmap_cons in Hnd. apply NoDup_cons in Hnd as [Hy Hnd].
    apply elem_of_cons in Hin as [->|Hin]; simpl.
    + by rewrite bool_decide_eq_true_2.
    + rewrite bool_decide_eq_false_2; [by apply IH|].
      intros E. apply Hy. rewrite E. by apply list_elem_of_fmap_2.
Qed.

(** X14. [updateEmployeePassword]. Its answer is true exactly when a
    row has the id; with no such row the store is left as it is. It
    writes the password column of the row with the id and nothing
    else: every other column of every employee row, and the customers
    table, are as before. Afterwards, on a store that satisfies the
    schema and bcrypt accepting the new password for its hash, the
    employee logs in with the new password and gets the same id and
    role as before. *)
Theorem password_change `{Externals} (db : Database) (id : option Z)
    (newPassword : string) :
  ((updateEmployeePassword db id newPassword).2 = Resolved true
   <-> exists e, e ∈ employees db /\ id = Some (Emp.id e))
  /\ ((forall e, e ∈ employees db -> id <> Some (Emp.id e)) ->
      updateEmployeePassword db id newPassword = (db, Resolved false))
  /\ employee_public_columns (updateEmployeePassword db id newPassword).1
     = employee_public_columns db
  /\ customers (updateEmployeePassword db id newPassword).1 = customers db
  /\ (forall e, e ∈ employees db -> id <> Some (Emp.id e) ->
        e ∈ employees (updateEmployeePassword db id newPassword).1)
  /\ (forall e, db_wf db -> e ∈ employees db -> id = Some (Emp.id e) ->
        bcrypt_compare newPassword (bcrypt_hash newPassword 10) = true ->
        AuthResp.success
          (authenticateUser (updateEmployeePassword db id newPassword).1
             (Cred.mk (Emp.employeeCode e) newPassword)) = true
        /\ AuthResp.user
             (authenticateUser (updateEmployeePassword db id newPassword).1
                (Cred.mk (Emp.employeeCode e) newPassword))
           = Some (userWithoutPassword e)).
Proof.
  set (g := fun e : Emp.Employee =>
              if id_is id (Emp.id e)
              then Emp.mk (Emp.id e) (Emp.employeeCode e) (Emp.firstname e)
                          (Emp.lastname e) (Emp.mobile e) (Emp.dateOfBirth e)
                          (Emp.email e) (bcrypt_hash newPassword 10) (Emp.role e)
                          (Emp.createdAt e)
              else e).
  assert (Hcols : forall e, userWithoutPassword (g e) = userWithoutPassword e).
  { intros e. unfold g. by destruct (id_is id (Emp.id e)). }
  assert (Hcode : forall e, Emp.employeeCode (g e) = Emp.employeeCode e).
  { intros e. unfold g. by destruct (id_is id (Emp.id e)). }
  split; [|split; [|split; [|split; [|split]]]].
  - unfold updateEmployeePassword, hashPassword, bcrypt_hash_async. simpl. split.
    + intros [= Hlen]. apply Z.ltb_lt in Hlen.
      destruct (filter _ (employees db)) as [|e l] eqn:Ef; [simpl in Hlen; lia|].
      assert (Hin : e ∈ filter (fun e => id_is id (Emp.id e) = true) (employees db))
        by (rewrite Ef; left).
      apply list_elem_of_filter in Hin as [Hid Hin]. apply id_is_true in Hid.
      by exists e.
    + intros (e & Hin & ->). f_equal. by apply (changes_positive Emp.id).
  - intros Hno. unfold updateEmployeePassword, hashPassword, bcrypt_hash_async.
    rewrite (changes_zero Emp.id _ _ Hno). simpl.
    rewrite (update_none Emp.id _ _ _ Hno). by rewrite database_eta.
  - unfold employee_public_columns, updateEmployeePassword, hashPassword,
      bcrypt_hash_async. simpl.
    fold g. rewrite <- list_fmap_compose. apply list_fmap_ext.
    intros _ e _. apply Hcols.
  - done.
  - intros e Hin Hne. unfold updateEmployeePassword, hashPassword, bcrypt_hash_async. simpl. fold g.
    apply list_elem_of_fmap. exists e. split; [|done].
    unfold g. by rewrite (proj2 (id_is_false _ _) Hne).
  - intros e ((_ & _ & _ & Hcodes & _) & _) Hin -> Hcmp.
    unfold authenticateUser, getEmployeeByCode, updateEmployeePassword,
      hashPassword, bcrypt_hash_async. simpl.
    fold g.
    assert (Hfind : find (fun e' => bool_decide (Emp.employeeCode e'
                                                  = Emp.employeeCode e))
                         (g <$> employees db) = Some (g e)).
    { rewrite <- (Hcode e). apply find_by_column.
      - rewrite <- list_fmap_compose.
        rewrite (list_fmap_ext _ Emp.employeeCode (employees db)); [done|].
        intros _ x _. apply Hcode.
      - by apply list_elem_of_fmap_2. }
    rewrite Hfind.
    assert (Hg : g e = Emp.mk (Emp.id e) (Emp.employeeCode e) (Emp.firstname e)
                              (Emp.lastname e) (Emp.mobile e) (Emp.dateOfBirth e)
                              (Emp.email e) (bcrypt_hash newPassword 10) (Emp.role e)
                              (Emp.createdAt e))
      by (unfold g; by rewrite id_is_same).
    rewrite Hg. simpl. rewrite Hcmp. simpl. by split.
Qed.

Lemma password_change_witness :
  AuthResp.success
    (@authenticateUser sample_externals
       (@updateEmployeePassword sample_externals sample_db (Some 2) "s3cret!").1
       (Cred.mk "EMP002" "s3cret!")) = true
  /\ AuthResp.user
       (@authenticateUser sample_externals
          (@updateEmployeePassword sample_externals sample_db (Some 2) "s3cret!").1
          (Cred.mk "EMP002" "s3cret!"))
     = Some (userWithoutPassword ann_row).
Proof.
  destruct (@password_change sample_externals sample_db (Some 2) "s3cret!")
    as (_ & _ & _ & _ & _ & Hlogin).
  apply (Hlogin ann_row).
  - exact sample_db_wf.
  - unfold sample_db, ann_row. simpl. in_list.
  - reflexivity.
  - vm_compute. reflexivity.
Defined.

(** ** What an update can and cannot write *)

Lemma fmap_fixed {A : Type} (g : A -> A) (l : list A) :
  (forall y, y ∈ l -> g y = y) -> g <$> l = l.
Proof.
  induction l as [|y l IH]; intros Hg; [done|].
  rewrite fmap_cons, Hg by left. f_equal. apply IH. intros z Hz. apply Hg. by right.
Qed.

Lemma NoDup_column_inj {A B : Type} (col : A -> B) (l : list A) (x y : A) :
  NoDup (col <$> l) -> x ∈ l -> y ∈ l -> col x = col y -> x = y.
Proof.
  induction l as [|z l IH]; intros Hnd Hx Hy E.
  - by apply elem_of_nil in Hx.
  - rewrite fmap_cons in Hnd. apply NoDup_cons in Hnd as [Hz Hnd].
    apply elem_of_cons in Hx as [->|Hx]; apply elem_of_cons in Hy as [->|Hy].
    + done.
    + exfalso. apply Hz. rewrite E. by apply list_elem_of_fmap_2.
    + exfalso. apply Hz. rewrite <- E. by apply list_elem_of_fmap_2.
    + by apply IH.
Qed.

Lemma updateEmployee_fixed_columns `{Externals} (db : Database) (id : option Z)
    (updates : EmpUpd.t) :
  EmpUpd.createdAt updates = None ->
  employee_fixed_columns (updateEmployee db id updates).1 = employee_fixed_columns db
  /\ customers (updateEmployee db id updates).1 = customers db.
Proof.
  intros Hnone. unfold updateEmployee, update_employees.
  case_bool_decide; [done|].
  destruct (existsb _ _); [|by case_match].
  destruct (employee_email_conflict _ _ _); [done|].
  case_match; simpl; (split; [|done]); unfold employee_fixed_columns; simpl;
    rewrite <- list_fmap_compose; apply list_fmap_ext; intros _ e _; simpl;
    (destruct (id_is id (Emp.id e)); [simpl; by rewrite Hnone | done]).
Qed.

Lemma updateCustomer_fixed_columns `{Externals} (db : Database) (id : option Z)
    (updates : CustUpd.t) :
  CustUpd.createdBy updates = None -> CustUpd.createdAt updates = None ->
  customer_fixed_columns (updateCustomer db id updates).1 = customer_fixed_columns db
  /\ employees (updateCustomer db id updates).1 = employees db.
Proof.
  intros Hby Hat. unfold updateCustomer, update_customers.
  case_bool_decide; [done|].
  destruct (existsb _ _); [|by case_match].
  destruct (customer_email_conflict _ _ _); [done|].
  case_match; simpl; (split; [|done]); unfold customer_fixed_columns; simpl;
    rewrite <- list_fmap_compose; apply list_fmap_ext; intros _ c _; simpl;
    (destruct (id_is id (Cust.id c)); [simpl; by rewrite Hby, Hat | done]).
Qed.

(** X15. No update request, whoever sends it and whatever it carries,
    adds or removes a row or writes the id, the code, the password or
    the creation time of an employee, or the id, the code, the owner
    or the creation time of a customer; and an update through one
    route leaves the other table as it is. *)
Theorem updates_keep_fixed_columns `{Externals} (db : Database) (req : Request) :
  employee_fixed_columns (EmployeesRoute.PUT db req).1 = employee_fixed_columns db
  /\ customers (EmployeesRoute.PUT db req).1 = customers db
  /\ customer_fixed_columns (CustomersRoute.PUT db req).1 = customer_fixed_columns db
  /\ employees (CustomersRoute.PUT db req).1 = employees db.
Proof.
  assert (He : employee_fixed_columns (EmployeesRoute.PUT db req).1
               = employee_fixed_columns db
               /\ customers (EmployeesRoute.PUT db req).1 = customers db).
  { unfold EmployeesRoute.PUT.
    destruct (user _); [|done]. destruct (negb _); [done|].
    destruct (json req) as [b|]; [|done].
    destruct (id_falsy _); [done|]. case_bool_decide; [done|].
    match goal with
    | |- context [updateEmployee db ?i ?u] =>
        pose proof (updateEmployee_fixed_columns db i u eq_refl) as Hc;
        destruct (updateEmployee db i u) as [db' [[emp|]|err]]
    end; exact Hc. }
  assert (Hc : customer_fixed_columns (CustomersRoute.PUT db req).1
               = customer_fixed_columns db
               /\ employees (CustomersRoute.PUT db req).1 = employees db).
  { unfold CustomersRoute.PUT.
    destruct (user _); [|done].
    destruct (json req) as [b|]; [|done].
    destruct (id_falsy _); [done|]. destruct (_ && _); [done|].
    case_bool_decide; [done|].
    match goal with
    | |- context [updateCustomer db ?i ?u] =>
        pose proof (updateCustomer_fixed_columns db i u eq_refl eq_refl) as Hc;
        destruct (updateCustomer db i u) as [db' [[cust|]|err]]
    end; exact Hc. }
  tauto.
Qed.

(** ** The edit pages *)

Lemma find_in_listing {A : Type} (key : A -> Z) (l l' : list A) (x : A) :
  NoDup (key <$> l) -> l' ≡ₚ l -> x ∈ l ->
  find (fun y => id_is (Some (key x)) (key y)) l' = Some x.
Proof.
  intros Hnd Hp Hin. apply find_by_id.
  - by rewrite Hp.
  - by rewrite Hp.
Qed.

Lemma no_email_conflict {A : Type} (key : A -> Z) (mail : A -> string)
    (l : list A) (i : Z) (v : string) :
  (forall y, y ∈ l -> mail y = v -> key y = i) ->
  existsb (fun y => negb (id_is (Some i) (key y)) && bool_decide (mail y = v)) l = false.
Proof.
  intros Hno. apply not_true_is_false. intros E.
  apply existsb_exists in E as (y & Hy & E). apply list_elem_of_In in Hy.
  apply andb_true_iff in E as [Hid Hm].
  apply negb_true_iff, id_is_false in Hid. apply bool_decide_eq_true in Hm.
  apply Hid. by rewrite (Hno y Hy Hm).
Qed.

Lemma email_conflict {A : Type} (key : A -> Z) (mail : A -> string)
    (l : list A) (i : Z) (v : string) :
  (exists y, y ∈ l /\ mail y = v /\ key y <> i) ->
  existsb (fun y => negb (id_is (Some i) (key y)) && bool_decide (mail y = v)) l = true.
Proof.
  intros (y & Hy & Hm & Hid). apply existsb_exists. exists y.
  split; [by apply list_elem_of_In|]. apply andb_true_iff. split.
  - apply negb_true_iff, id_is_false. by intros [= E].
  - by apply bool_decide_eq_true.
Qed.

Lemma replace_row {A : Type} (key : A -> Z) (f : A -> A) (l : list A) (x : A) :
  NoDup (key <$> l) -> x ∈ l ->
  (fun y => if id_is (Some (key x)) (key y) then f y else y) <$> l
  = (fun y => if bool_decide (key y = key x) then f x else y) <$> l.
Proof.
  intros Hnd Hin. apply list_fmap_ext. intros i y Hy.
  apply list_elem_of_lookup_2 in Hy.
  destruct (id_is (Some (key x)) (key y)) eqn:E.
  - apply id_is_true in E. injection E as E.
    rewrite (bool_decide_eq_true_2 _ (eq_sym E)).
    by rewrite (NoDup_column_inj key l x y Hnd Hin Hy E).
  - apply id_is_false in E. rewrite bool_decide_eq_false_2; [done|].
    intros E'. apply E. by rewrite E'.
Qed.

Lemma parsed_nonempty (s : string) (n : Z) : Js.parseInt s = Some n -> s <> "".
Proof. intros Hp ->. by rewrite parseInt_empty in Hp. Qed.

(** X16. The staff edit page, opened by an admin under a URL id that
    reads as the id of a stored row. The row it finds in the listing
    holds that row's columns. Saving the form as it was loaded is
    answered 200 and writes nothing. Saving an edited form is answered
    200 unless another row holds the email, and then the row holds
    the six strings of the form as sent (no check is made on them:
    empty strings and any role are stored) with its id, code,
    password and creation time as before, every other row being as
    it was; when another row holds the email the answer is 500 and
    nothing is written. *)
Theorem edit_page_saves_employee `{Externals} (db : Database)
    (cookieHeader : option string) (u : Tok.Payload) (employeeId : string)
    (e : Emp.Employee) :
  db_wf db -> e ∈ employees db -> Js.parseInt employeeId = Some (Emp.id e) ->
  user (authenticateRequest (mkRequest cookieHeader None None)) = Some u ->
  Tok.role u = "admin" ->
  fetchEmployee (getAllEmployees db) employeeId = Some (employee_columns e)
  /\ EmployeesRoute.PUT db
       (handleSubmit_request cookieHeader employeeId
          (employee_formData (employee_columns e)))
     = (db, NextResponse_json
              (BEmployee "Employee updated successfully"
                 (EmployeesRoute.employee_json e)) 200)
  /\ forall firstname lastname mobile dateOfBirth email role,
       let saved := Emp.mk (Emp.id e) (Emp.employeeCode e) firstname lastname mobile
                           dateOfBirth email (Emp.password e) role (Emp.createdAt e) in
       let submit := handleSubmit_request cookieHeader employeeId
                       (employee_form firstname lastname mobile dateOfBirth email role) in
       ((forall e', e' ∈ employees db -> Emp.email e' = email -> Emp.id e' = Emp.id e) ->
        EmployeesRoute.PUT db submit
        = (mkDatabase
             ((fun e' => if bool_decide (Emp.id e' = Emp.id e) then saved else e')
                <$> employees db)
             (employees_seq db) (customers db) (customers_seq db)
             (CURRENT_TIMESTAMP db),
           NextResponse_json
             (BEmployee "Employee updated successfully"
                (EmployeesRoute.employee_json saved)) 200))
       /\ ((exists e', e' ∈ employees db /\ Emp.email e' = email
                       /\ Emp.id e' <> Emp.id e) ->
           EmployeesRoute.PUT db submit
           = (db, NextResponse_json (BError "Internal server error") 500)).
Proof.
  intros Hwf Hin Hp Hu Hr.
  pose proof Hwf as ((_ & _ & Hnd & _ & Hmail) & _).
  assert (Hput : forall firstname lastname mobile dateOfBirth email role,
            EmployeesRoute.PUT db
              (handleSubmit_request cookieHeader employeeId
                 (employee_form firstname lastname mobile dateOfBirth email role))
            = if existsb (fun y => negb (id_is (Some (Emp.id e)) (Emp.id y))
                                   && bool_decide (Emp.email y = email)) (employees db)
              then (db, NextResponse_json (BError "Internal server error") 500)
              else
                (mkDatabase
                   ((fun e' => if bool_decide (Emp.id e' = Emp.id e)
                               then Emp.mk (Emp.id e) (Emp.employeeCode e) firstname
                                           lastname mobile dateOfBirth email
                                           (Emp.password e) role (Emp.createdAt e)
                               else e') <$> employees db)
                   (employees_seq db) (customers db) (customers_seq db)
                   (CURRENT_TIMESTAMP db),
                 NextResponse_json
                   (BEmployee "Employee updated successfully"
                      (EmployeesRoute.employee_json
                         (Emp.mk (Emp.id e) (Emp.employeeCode e) firstname lastname
                                 mobile dateOfBirth email (Emp.password e) role
                                 (Emp.createdAt e)))) 200)).
  { intros firstname lastname mobile dateOfBirth email role.
    rewrite (employees_PUT_admin db u e _
               (with_id employeeId
                  (employee_form firstname lastname mobile dateOfBirth email role))
               Hwf Hin);
      [|by rewrite <- Hu; f_equal; apply authenticateRequest_cookie|done..].
    rewrite bool_decide_eq_false_2 by (simpl; lia).
    unfold employee_email_conflict. simpl.
    destruct (existsb _ _); [done|].
    by rewrite (replace_row Emp.id _ _ e Hnd Hin). }
  split; [|split].
  - unfold fetchEmployee, getAllEmployees. rewrite Hp.
    assert (Hv : forall l : list Emp.Employee,
              EmpView.id <$> (employee_columns <$> l) = Emp.id <$> l).
    { intros l. rewrite <- list_fmap_compose. by apply list_fmap_ext. }
    apply (find_in_listing EmpView.id (employee_columns <$> employees db) _
             (employee_columns e)).
    + by rewrite Hv.
    + apply fmap_Permutation, order_by_desc_perm.
    + by apply list_elem_of_fmap_2.
  - unfold employee_formData. simpl. rewrite Hput.
    rewrite (no_email_conflict Emp.id Emp.email).
    + assert (He : Emp.mk (Emp.id e) (Emp.employeeCode e) (Emp.firstname e)
                          (Emp.lastname e) (Emp.mobile e) (Emp.dateOfBirth e)
                          (Emp.email e) (Emp.password e) (Emp.role e)
                          (Emp.createdAt e) = e) by by destruct e.
      rewrite He. rewrite fmap_fixed; [by rewrite database_eta|].
      intros y Hy. case_bool_decide as E; [|done].
      symmetry. by apply (NoDup_column_inj Emp.id (employees db)).
    + intros y Hy E. f_equal. by apply (NoDup_column_inj Emp.email (employees db)).
  - intros firstname lastname mobile dateOfBirth email role saved submit.
    unfold submit, saved. rewrite Hput. split.
    + intros Hfree. by rewrite (no_email_conflict Emp.id Emp.email).
    + intros Htaken. by rewrite (email_conflict Emp.id Emp.email).
Qed.

Lemma edit_page_saves_employee_witness :
  @EmployeesRoute.PUT sample_externals sample_db
     (handleSubmit_request
        (Some "auth-token=your-secret-key-change-in-production/ADMIN001") "2"
        (employee_formData (employee_columns ann_row)))
  = (sample_db,
     NextResponse_json
       (BEmployee "Employee updated successfully"
          (EmployeesRoute.employee_json ann_row)) 200).
Proof.
  refine (proj1 (proj2 (@edit_page_saves_employee sample_externals sample_db
           (Some "auth-token=your-secret-key-change-in-production/ADMIN001")
           (Tok.mk "ADMIN001" "admin@cms.com" 1 "admin") "2" ann_row _ _ _ _ _))).
  - exact sample_db_wf.
  - unfold sample_db, ann_row. simpl. in_list.
  - vm_compute. reflexivity.
  - vm_compute. reflexivity.
  - reflexivity.
Defined.

(** X17. The customer edit page, opened by the admin or by the
    record's owner under a URL id that reads as the id of a stored
    record. The record it finds in the listing the server sends to
    that caller is the stored row. Saving the form as it was loaded
    is answered 200 and writes nothing. Saving an edited form is
    answered 200 unless another record holds the email, and then the
    record holds the five strings of the form as sent (no check is
    made on them) with its id, code, owner and creation time as
    before, every other record being as it was; when another record
    holds the email the answer is 500 and nothing is written. *)
Theorem edit_page_saves_customer `{Externals} (db : Database)
    (cookieHeader : option string) (u : Tok.Payload) (customerId : string)
    (c : Cust.Customer) :
  db_wf db -> c ∈ customers db -> Js.parseInt customerId = Some (Cust.id c) ->
  user (authenticateRequest (mkRequest cookieHeader None None)) = Some u ->
  Tok.role u = "admin" \/ Cust.createdBy c = Some (Tok.id u) ->
  fetchCustomer
    (getAllCustomers db
       (if bool_decide (Tok.role u = "admin") then None else Some (Tok.id u)))
    customerId = Some c
  /\ CustomersRoute.PUT db
       (handleSubmit_request cookieHeader customerId (customer_formData c))
     = (db, NextResponse_json
              (BCustomer "Customer updated successfully"
                 (CustomersRoute.customer_json c)) 200)
  /\ forall firstname lastname mobile dateOfBirth email,
       let saved := Cust.mk (Cust.id c) (Cust.customerCode c) firstname lastname
                            mobile dateOfBirth email (Cust.createdBy c)
                            (Cust.createdAt c) in
       let submit := handleSubmit_request cookieHeader customerId
                       (customer_form firstname lastname mobile dateOfBirth email) in
       ((forall c', c' ∈ customers db -> Cust.email c' = email ->
                    Cust.id c' = Cust.id c) ->
        CustomersRoute.PUT db submit
        = (mkDatabase (employees db) (employees_seq db)
             ((fun c' => if bool_decide (Cust.id c' = Cust.id c) then saved else c')
                <$> customers db)
             (customers_seq db) (CURRENT_TIMESTAMP db),
           NextResponse_json
             (BCustomer "Customer updated successfully"
                (CustomersRoute.customer_json saved)) 200))
       /\ ((exists c', c' ∈ customers db /\ Cust.email c' = email
                       /\ Cust.id c' <> Cust.id c) ->
           CustomersRoute.PUT db submit
           = (db, NextResponse_json (BError "Internal server error") 500)).
Proof.
  intros Hwf Hin Hp Hu Hpass.
  pose proof Hwf as (_ & (_ & _ & Hnd & _ & Hmail)).
  assert (Hput : forall firstname lastname mobile dateOfBirth email,
            CustomersRoute.PUT db
              (handleSubmit_request cookieHeader customerId
                 (customer_form firstname lastname mobile dateOfBirth email))
            = if existsb (fun y => negb (id_is (Some (Cust.id c)) (Cust.id y))
                                   && bool_decide (Cust.email y = email)) (customers db)
              then (db, NextResponse_json (BError "Internal server error") 500)
              else
                (mkDatabase (employees db) (employees_seq db)
                   ((fun c' => if bool_decide (Cust.id c' = Cust.id c)
                               then Cust.mk (Cust.id c) (Cust.customerCode c) firstname
                                            lastname mobile dateOfBirth email
                                            (Cust.createdBy c) (Cust.createdAt c)
                               else c') <$> customers db)
                   (customers_seq db) (CURRENT_TIMESTAMP db),
                 NextResponse_json
                   (BCustomer "Customer updated successfully"
                      (CustomersRoute.customer_json
                         (Cust.mk (Cust.id c) (Cust.customerCode c) firstname lastname
                                  mobile dateOfBirth email (Cust.createdBy c)
                                  (Cust.createdAt c)))) 200)).
  { intros firstname lastname mobile dateOfBirth email.
    rewrite (customers_PUT_allowed db u c Hwf Hin _
               (with_id customerId
                  (customer_form firstname lastname mobile dateOfBirth email)) Hpass);
      [|by rewrite <- Hu; f_equal; apply authenticateRequest_cookie|done..].
    rewrite bool_decide_eq_false_2 by (simpl; lia).
    unfold customer_email_conflict. simpl.
    destruct (existsb _ _); [done|].
    by rewrite (replace_row Cust.id _ _ c Hnd Hin). }
  split; [|split].
  - unfold fetchCustomer. rewrite Hp.
    assert (Hall : find (fun y => id_is (Some (Cust.id c)) (Cust.id y))
                        (order_by_desc Cust.id (customers db)) = Some c).
    { apply (find_in_listing Cust.id (customers db)); [done| |done].
      apply order_by_desc_perm. }
    case_bool_decide as Hr; [exact Hall|].
    destruct Hpass as [Hr'|Hown]; [done|].
    unfold getAllCustomers. case_bool_decide; [exact Hall|].
    apply (find_in_listing Cust.id
             (filter (fun c' => Cust.createdBy c' = Some (Tok.id u)) (customers db))).
    + eapply sublist_NoDup; [exact Hnd|]. apply fmap_sublist, sublist_filter.
    + apply order_by_desc_perm.
    + by apply list_elem_of_filter.
  - unfold customer_formData. rewrite Hput.
    rewrite (no_email_conflict Cust.id Cust.email).
    + assert (Hc : Cust.mk (Cust.id c) (Cust.customerCode c) (Cust.firstname c)
                           (Cust.lastname c) (Cust.mobile c) (Cust.dateOfBirth c)
                           (Cust.email c) (Cust.createdBy c) (Cust.createdAt c) = c)
        by by destruct c.
      rewrite Hc. rewrite fmap_fixed; [by rewrite database_eta|].
      intros y Hy. case_bool_decide as E; [|done].
      symmetry. by apply (NoDup_column_inj Cust.id (customers db)).
    + intros y Hy E. f_equal. by apply (NoDup_column_inj Cust.email (customers db)).
  - intros firstname lastname mobile dateOfBirth email saved submit.
    unfold submit, saved. rewrite Hput. split.
    + intros Hfree. by rewrite (no_email_conflict Cust.id Cust.email).
    + intros Htaken. by rewrite (email_conflict Cust.id Cust.email).
Qed.

Lemma edit_page_saves_customer_witness :
  @CustomersRoute.PUT sample_externals sample_db
     (handleSubmit_request
        (Some "auth-token=your-secret-key-change-in-production/EMP002") "1"
        (customer_formData carl))
  = (sample_db,
     NextResponse_json
       (BCustomer "Customer updated successfully"
          (CustomersRoute.customer_json carl)) 200).
Proof.
  refine (proj1 (proj2 (@edit_page_saves_customer sample_externals sample_db
           (Some "auth-token=your-secret-key-change-in-production/EMP002")
           ann "1" carl _ _ _ _ _))).
  - exact sample_db_wf.
  - unfold sample_db, carl. simpl. in_list.
  - vm_compute. reflexivity.
  - vm_compute. reflexivity.
  - right. reflexivity.
Defined.

(** ** A created row is found again *)

Lemma order_by_desc_snoc_max {A : Type} (key : A -> Z) (l : list A) (x : A) :
  Forall (fun y => key y < key x) l ->
  order_by_desc key (l ++ [x]) = x :: order_by_desc key l.
Proof.
  induction 1 as [|y l Hy _ IH]; [done|].
  unfold order_by_desc in *. simpl. rewrite IH. simpl.
  by rewrite (proj2 (Z.ltb_ge _ _)) by lia.
Qed.

Lemma find_app_found {A : Type} (p : A -> bool) (l l' : list A) (x : A) :
  find p l = Some x -> find p (l ++ l') = Some x.
Proof.
  induction l as [|y l IH]; simpl; [done|].
  by destruct (p y).
Qed.

Lemma ids_below_next {A : Type} (key : A -> Z) (seq : Z) (l : list A) :
  Forall (fun r => 0 < key r <= seq) l ->
  Forall (fun r => key r < seq + 1) l
  /\ existsb (fun r => id_is (Some (seq + 1)) (key r)) l = false.
Proof.
  intros Hids. split.
  - eapply Forall_impl; [exact Hids|]. simpl. intros r Hr. lia.
  - apply existsb_by_id_false. intros x Hx [= E].
    rewrite Forall_forall in Hids. specialize (Hids x Hx). lia.
Qed.

(** X18. A row that [createEmployee] or [createCustomer] has stored,
    on a store that satisfies the schema: the table is the old one
    with that row at its end, the row is the one found under the id
    and under the code that were returned, it comes first in the
    listing, and every row that was there is still found under its id
    and its code. The new employee logs in with the password that
    was sent (bcrypt accepting it for its hash). The new customer
    comes first in the listing of the employee it was created for,
    and the listing of every other employee is as before. *)
Theorem created_rows_found `{Externals} (db : Database) :
  db_wf db ->
  (forall employee db' e,
     createEmployee db employee = (db', Resolved e) ->
     let row := Emp.mk (Emp.id e) (Emp.employeeCode e) (Emp.firstname e)
                       (Emp.lastname e) (Emp.mobile e) (Emp.dateOfBirth e)
                       (Emp.email e) (Emp.password e) (Emp.role e)
                       (Some (CURRENT_TIMESTAMP db)) in
     employees db' = (employees db ++ [row])%list
     /\ getEmployeeById db' (Some (Emp.id e)) = Some row
     /\ getEmployeeByCode db' (Emp.employeeCode e) = Some row
     /\ getAllEmployees db' = employee_columns e :: getAllEmployees db
     /\ (forall e0, e0 ∈ employees db ->
           getEmployeeById db' (Some (Emp.id e0)) = Some e0
           /\ getEmployeeByCode db' (Emp.employeeCode e0) = Some e0)
     /\ (forall pw, NewEmp.password employee = Js.VString pw ->
         bcrypt_compare pw (bcrypt_hash pw 10) = true ->
         AuthResp.user
           (authenticateUser db'
              (Cred.mk (Emp.employeeCode e) (NewEmp.password employee)))
         = Some (userWithoutPassword row)))
  /\ (forall customer createdBy db' c,
        createCustomer db customer createdBy = (db', Resolved c) ->
        let row := Cust.mk (Cust.id c) (Cust.customerCode c) (Cust.firstname c)
                           (Cust.lastname c) (Cust.mobile c) (Cust.dateOfBirth c)
                           (Cust.email c) (Cust.createdBy c)
                           (Some (CURRENT_TIMESTAMP db)) in
        customers db' = (customers db ++ [row])%list
        /\ getCustomerById db' (Some (Cust.id c)) = Some row
        /\ getCustomerByCode db' (Cust.customerCode c) = Some row
        /\ getAllCustomers db' None = row :: getAllCustomers db None
        /\ (forall n, createdBy = Some n ->
              getAllCustomers db' (Some n) = row :: getAllCustomers db (Some n))
        /\ (forall n, createdBy <> Some n -> n <> 0 ->
              getAllCustomers db' (Some n) = getAllCustomers db (Some n))
        /\ (forall c0, c0 ∈ customers db ->
              getCustomerById db' (Some (Cust.id c0)) = Some c0
              /\ getCustomerByCode db' (Cust.customerCode c0) = Some c0)).
Proof.
  intros Hwf. split.
  - intros employee db' e. unfold createEmployee, insert_employee.
    destruct (hashPassword _) as [hashed|] eqn:Ehash; [|discriminate].
    destruct (existsb (fun r => bool_decide (Emp.email r = _)) _) eqn:Email;
      [discriminate|].
    destruct (existsb (fun r => bool_decide (Emp.employeeCode r = _)) _) eqn:Ecode;
      [discriminate|].
    intros [= <- <-]. simpl.
    pose proof Hwf as ((_ & Hids & Hnd & Hcodes & _) & _).
    destruct (ids_below_next Emp.id _ _ Hids) as [Hlt Hfresh].
    split; [done|]. split; [|split; [|split; [|split]]].
    + unfold getEmployeeById. simpl. rewrite find_snoc_fresh by exact Hfresh.
      simpl. by rewrite id_is_same.
    + unfold getEmployeeByCode. simpl. rewrite find_snoc_fresh by exact Ecode.
      simpl. by rewrite bool_decide_eq_true_2.
    + unfold getAllEmployees. simpl.
      by rewrite (order_by_desc_snoc_max Emp.id) by exact Hlt.
    + intros e0 Hin. unfold getEmployeeById, getEmployeeByCode. simpl. split.
      * apply find_app_found. by apply find_by_id.
      * apply find_app_found. by apply find_by_column.
    + intros pw Hpw Hcmp. rewrite Hpw in *. injection Ehash as <-.
      unfold authenticateUser, getEmployeeByCode. simpl.
      rewrite find_snoc_fresh by exact Ecode. simpl.
      rewrite bool_decide_eq_true_2 by done. simpl.
      by rewrite Hcmp.
  - intros customer createdBy db' c. unfold createCustomer, insert_customer.
    destruct (existsb (fun r => bool_decide (Cust.email r = _)) _) eqn:Email;
      [discriminate|].
    destruct (existsb (fun r => bool_decide (Cust.customerCode r = _)) _) eqn:Ecode;
      [discriminate|].
    intros [= <- <-]. simpl.
    pose proof Hwf as (_ & (_ & Hids & Hnd & Hcodes & _)).
    destruct (ids_below_next Cust.id _ _ Hids) as [Hlt Hfresh].
    split; [done|]. split; [|split; [|split; [|split; [|split]]]].
    + unfold getCustomerById. simpl. rewrite find_snoc_fresh by exact Hfresh.
      simpl. by rewrite id_is_same.
    + unfold getCustomerByCode. simpl. rewrite find_snoc_fresh by exact Ecode.
      simpl. by rewrite bool_decide_eq_true_2.
    + simpl. by rewrite (order_by_desc_snoc_max Cust.id) by exact Hlt.
    + intros n ->. simpl. case_bool_decide as Hn.
      * by rewrite (order_by_desc_snoc_max Cust.id) by exact Hlt.
      * rewrite filter_app, filter_cons_True by done. rewrite filter_nil.
        rewrite (order_by_desc_snoc_max Cust.id); [done|].
        apply Forall_forall. intros y Hy.
        apply list_elem_of_filter in Hy as [_ Hy].
        rewrite Forall_forall in Hlt. by apply Hlt.
    + intros n Hother Hn. simpl. rewrite (bool_decide_eq_false_2 _ Hn).
      rewrite filter_app, filter_cons_False, filter_nil, app_nil_r; [done|].
      simpl. destruct createdBy as [m|]; simpl; [|done].
      case_bool_decide; [done|]. intros [= E]. apply Hother. by rewrite E.
    + intros c0 Hin. unfold getCustomerById, getCustomerByCode. simpl. split.
      * apply find_app_found. by apply find_by_id.
      * apply find_app_found. by apply find_by_column.
Qed.

Lemma created_rows_found_witness :
  getEmployeeById
    (@createEmployee sample_externals sample_db
       (NewEmp.mk "Dan" "Doe" "5550101" "1992-03-04" "dan@cms.com" "hunter22" "")).1
    (Some 4)
  = Some (Emp.mk 4 "EMP004" "Dan" "Doe" "5550101" "1992-03-04" "dan@cms.com"
                 "$2a$10$hunter22" "user" (Some "2024-01-01 00:00:00")).
Proof.
  refine (proj1 (proj2 (proj1 (@created_rows_found sample_externals sample_db _)
     (NewEmp.mk "Dan" "Doe" "5550101" "1992-03-04" "dan@cms.com" "hunter22" "")
     (@createEmployee sample_externals sample_db
        (NewEmp.mk "Dan" "Doe" "5550101" "1992-03-04" "dan@cms.com" "hunter22" "")).1
     (Emp.mk 4 "EMP004" "Dan" "Doe" "5550101" "1992-03-04" "dan@cms.com"
             "$2a$10$hunter22" "user" None) _))).
  - exact sample_db_wf.
  - vm_compute. reflexivity.
Defined.

(** ** No session without credentials *)

(** X19. The login route sets a cookie exactly when it answers 200,
    and it answers 200 only when the body carries a non-empty code
    and a password that is a non-empty string, a stored row has that code and bcrypt
    accepts the password for the hash stored in that row; the cookie
    is then the token signed over that row's code, email, id and
    role, and the body is the row without its password. Every other
    answer is 400, 401 or 500 and carries no user. *)
Theorem login_only_with_credentials `{Externals} (db : Database) (req : Request) :
  (set_cookie (LoginRoute.POST db req).2 <> None
   <-> status (LoginRoute.POST db req).2 = 200)
  /\ (status (LoginRoute.POST db req).2 = 200 ->
      exists b code pw e,
        json req = Some b
        /\ Json.employeeCode b = Some code
        /\ Json.password b = Some (Js.VString pw)
        /\ code <> "" /\ pw <> ""
        /\ e ∈ employees db /\ Emp.employeeCode e = code
        /\ bcrypt_compare pw (Emp.password e) = true
        /\ (LoginRoute.POST db req).2
           = mkResponse 200
               (BLogin true "Login successful" (Some (userWithoutPassword e)))
               (Some (jwt_sign (Tok.mk (Emp.employeeCode e) (Emp.email e)
                                       (Emp.id e) (Emp.role e)) JWT_SECRET)))
  /\ (status (LoginRoute.POST db req).2 <> 200 ->
      status (LoginRoute.POST db req).2 ∈ [400; 401; 500]
      /\ exists msg, body (LoginRoute.POST db req).2 = BLogin false msg None).
Proof.
  unfold LoginRoute.POST.
  destruct (json req) as [b|]; simpl.
  2:{ split; [split; [by intros Hc|discriminate]|].
      split; [discriminate|]. intros _. split; [in_list|by eexists]. }
  destruct (Json.employeeCode b) as [code|] eqn:Ecode; simpl.
  2:{ split; [split; [by intros Hc|discriminate]|].
      split; [discriminate|]. intros _. split; [in_list|by eexists]. }
  destruct (Js.falsy_string code) eqn:Hcode; simpl.
  { split; [split; [by intros Hc|discriminate]|].
    split; [discriminate|]. intros _. split; [in_list|by eexists]. }
  destruct (Json.password b) as [v|] eqn:Epw; simpl.
  2:{ split; [split; [by intros Hc|discriminate]|].
      split; [discriminate|]. intros _. split; [in_list|by eexists]. }
  destruct (Js.falsy_value v) eqn:Hpw; simpl.
  { split; [split; [by intros Hc|discriminate]|].
    split; [discriminate|]. intros _. split; [in_list|by eexists]. }
  unfold authenticateUser. simpl.
  destruct (getEmployeeByCode db code) as [e|] eqn:Eget; simpl.
  2:{ split; [split; [by intros Hc|discriminate]|].
      split; [discriminate|]. intros _. split; [in_list|by eexists]. }
  destruct v as [pw|n|bo|]; simpl.
  2-4: split; [split; [by intros Hc|discriminate]|];
       (split; [discriminate|]); intros _; (split; [in_list|by eexists]).
  destruct (bcrypt_compare pw (Emp.password e)) eqn:Ecmp; simpl.
  2:{ split; [split; [by intros Hc|discriminate]|].
      split; [discriminate|]. intros _. split; [in_list|by eexists]. }
  destruct (Js.falsy_string (jwt_sign _ _)) eqn:Etok; simpl.
  { split; [split; [by intros Hc|discriminate]|].
    split; [discriminate|]. intros _. split; [in_list|by eexists]. }
  split; [done|]. split; [|done]. intros _.
  unfold getEmployeeByCode in Eget.
  pose proof (find_some _ _ Eget) as [Hin Hc].
  apply list_elem_of_In in Hin. apply bool_decide_eq_true in Hc.
  exists b, code, pw, e. repeat split; try done.
  - intros ->. discriminate Hcode.
  - intros ->. discriminate Hpw.
Qed.

(** ** The two tables are handled apart *)

Section Apart.
Context `{Externals}.

Lemma customers_GET_apart (db : Database) (rows : list Emp.Employee) (seq : Z)
    (req : Request) :
  CustomersRoute.GET (with_employees rows seq db) req
  = (with_employees rows seq (CustomersRoute.GET db req).1,
     (CustomersRoute.GET db req).2).
Proof. unfold CustomersRoute.GET. by destruct (user _). Qed.

Lemma customers_POST_apart (db : Database) (rows : list Emp.Employee) (seq : Z)
    (req : Request) :
  CustomersRoute.POST (with_employees rows seq db) req
  = (with_employees rows seq (CustomersRoute.POST db req).1,
     (CustomersRoute.POST db req).2).
Proof.
  unfold CustomersRoute.POST. destruct (user _); [|done].
  destruct (json req) as [b|]; [|done].
  destruct (_ || _); [done|].
  unfold createCustomer, insert_customer, generateUniqueCustomerCode. simpl.
  by repeat (destruct (existsb _ _); [done|]).
Qed.

Lemma customers_PUT_apart (db : Database) (rows : list Emp.Employee) (seq : Z)
    (req : Request) :
  CustomersRoute.PUT (with_employees rows seq db) req
  = (with_employees rows seq (CustomersRoute.PUT db req).1,
     (CustomersRoute.PUT db req).2).
Proof.
  unfold CustomersRoute.PUT. destruct (user _); [|done].
  destruct (json req) as [b|]; [|done].
  destruct (id_falsy _); [done|].
  unfold getCustomerById at 1 2. simpl.
  destruct (_ && _); [done|].
  case_bool_decide as Hf; [done|].
  unfold updateCustomer. rewrite !(bool_decide_eq_false_2 _ Hf).
  unfold update_customers, customer_email_conflict, getCustomerById. simpl.
  destruct (existsb _ (customers db)); [|done].
  destruct (match Json.email b with Some _ => _ | None => _ end); [done|].
  destruct (0 <? _)%Z; [|done]. simpl.
  by destruct (find _ _).
Qed.

Lemma customers_DELETE_apart (db : Database) (rows : list Emp.Employee) (seq : Z)
    (req : Request) :
  CustomersRoute.DELETE (with_employees rows seq db) req
  = (with_employees rows seq (CustomersRoute.DELETE db req).1,
     (CustomersRoute.DELETE db req).2).
Proof.
  unfold CustomersRoute.DELETE. destruct (user _); [|done].
  destruct (Js.falsy _); [done|].
  unfold getCustomerById. simpl.
  destruct (_ && _); [done|].
  by destruct (negb _).
Qed.

Lemma employees_GET_apart (db : Database) (rows : list Cust.Customer) (seq : Z)
    (req : Request) :
  EmployeesRoute.GET (with_customers rows seq db) req
  = (with_customers rows seq (EmployeesRoute.GET db req).1,
     (EmployeesRoute.GET db req).2).
Proof.
  unfold EmployeesRoute.GET. destruct (user _); [|done]. by destruct (negb _).
Qed.

Lemma employees_POST_apart (db : Database) (rows : list Cust.Customer) (seq : Z)
    (req : Request) :
  EmployeesRoute.POST (with_customers rows seq db) req
  = (with_customers rows seq (EmployeesRoute.POST db req).1,
     (EmployeesRoute.POST db req).2).
Proof.
  unfold EmployeesRoute.POST. destruct (user _); [|done].
  destruct (negb _); [done|].
  destruct (json req) as [b|]; [|done].
  destruct (_ || _); [done|]. destruct (Js.length_lt _ _); [done|].
  unfold createEmployee, insert_employee, generateUniqueEmployeeCode. simpl.
  destruct (hashPassword _); [|done].
  by repeat (destruct (existsb _ _); [done|]).
Qed.

Lemma employees_PUT_apart (db : Database) (rows : list Cust.Customer) (seq : Z)
    (req : Request) :
  EmployeesRoute.PUT (with_customers rows seq db) req
  = (with_customers rows seq (EmployeesRoute.PUT db req).1,
     (EmployeesRoute.PUT db req).2).
Proof.
  unfold EmployeesRoute.PUT. destruct (user _); [|done].
  destruct (negb _); [done|].
  destruct (json req) as [b|]; [|done].
  destruct (id_falsy _); [done|].
  case_bool_decide as Hf; [done|].
  unfold updateEmployee. rewrite !(bool_decide_eq_false_2 _ Hf).
  unfold update_employees, employee_email_conflict, getEmployeeById. simpl.
  destruct (existsb _ (employees db)); [|done].
  destruct (match Json.email b with Some _ => _ | None => _ end); [done|].
  destruct (0 <? _)%Z; [|done]. simpl.
  by destruct (find _ _).
Qed.

Lemma employees_DELETE_apart (db : Database) (rows : list Cust.Customer) (seq : Z)
    (req : Request) :
  EmployeesRoute.DELETE (with_customers rows seq db) req
  = (with_customers rows seq (EmployeesRoute.DELETE db req).1,
     (EmployeesRoute.DELETE db req).2).
Proof.
  unfold EmployeesRoute.DELETE. destruct (user _); [|done].
  destruct (negb _); [done|].
  destruct (Js.falsy _); [done|]. simpl.
  by destruct (negb _).
Qed.

End Apart.

Lemma with_employees_same (db : Database) :
  with_employees (employees db) (employees_seq db) db = db.
Proof. by destruct db. Qed.

Lemma with_customers_same (db : Database) :
  with_customers (customers db) (customers_seq db) db = db.
Proof. by destruct db. Qed.

Lemma staff_operations_keep_customers `{Externals}
    (g : Database -> Request -> Database * Response) (db : Database) (r : Request) :
  g ∈ staff_operations ->
  (g db r).1 = with_employees (employees (g db r).1) (employees_seq (g db r).1) db.
Proof.
  intros Hg. unfold staff_operations in Hg.
  repeat (apply elem_of_cons in Hg as [->|Hg]); [..|by apply elem_of_nil in Hg].
  - rewrite (proj1 (proj2 (read_only_handlers db r))).
    by rewrite with_employees_same.
  - unfold EmployeesRoute.POST.
    destruct (user _); [|by rewrite with_employees_same].
    destruct (negb _); [by rewrite with_employees_same|].
    destruct (json r) as [b|]; [|by rewrite with_employees_same].
    destruct (_ || _); [by rewrite with_employees_same|].
    destruct (Js.length_lt _ _); [by rewrite with_employees_same|].
    unfold createEmployee, insert_employee.
    destruct (hashPassword _); [|by rewrite with_employees_same].
    repeat (destruct (existsb _ _); [by rewrite with_employees_same|]). done.
  - unfold EmployeesRoute.PUT.
    destruct (user _); [|by rewrite with_employees_same].
    destruct (negb _); [by rewrite with_employees_same|].
    destruct (json r) as [b|]; [|by rewrite with_employees_same].
    destruct (id_falsy _); [by rewrite with_employees_same|].
    case_bool_decide as Hf; [by rewrite with_employees_same|].
    unfold updateEmployee. rewrite (bool_decide_eq_false_2 _ Hf).
    unfold update_employees.
    destruct (existsb _ _); [|by rewrite with_employees_same].
    destruct (employee_email_conflict _ _ _); [by rewrite with_employees_same|].
    destruct (0 <? _)%Z; [|done]. by destruct (getEmployeeById _ _).
  - unfold EmployeesRoute.DELETE.
    destruct (user _); [|by rewrite with_employees_same].
    destruct (negb _); [by rewrite with_employees_same|].
    destruct (Js.falsy _); [by rewrite with_employees_same|]. simpl.
    by destruct (negb _).
Qed.

Lemma customer_operations_keep_employees `{Externals}
    (g : Database -> Request -> Database * Response) (db : Database) (r : Request) :
  g ∈ customer_operations ->
  (g db r).1 = with_customers (customers (g db r).1) (customers_seq (g db r).1) db.
Proof.
  intros Hg. unfold customer_operations in Hg.
  repeat (apply elem_of_cons in Hg as [->|Hg]); [..|by apply elem_of_nil in Hg].
  - rewrite (proj2 (proj2 (read_only_handlers db r))).
    by rewrite with_customers_same.
  - unfold CustomersRoute.POST.
    destruct (user _); [|by rewrite with_customers_same].
    destruct (json r) as [b|]; [|by rewrite with_customers_same].
    destruct (_ || _); [by rewrite with_customers_same|].
    unfold createCustomer, insert_customer.
    repeat (destruct (existsb _ _); [by rewrite with_customers_same|]). done.
  - unfold CustomersRoute.PUT.
    destruct (user _); [|by rewrite with_customers_same].
    destruct (json r) as [b|]; [|by rewrite with_customers_same].
    destruct (id_falsy _); [by rewrite with_customers_same|].
    destruct (_ && _); [by rewrite with_customers_same|].
    case_bool_decide as Hf; [by rewrite with_customers_same|].
    unfold updateCustomer. rewrite (bool_decide_eq_false_2 _ Hf).
    unfold update_customers.
    destruct (existsb _ _); [|by rewrite with_customers_same].
    destruct (customer_email_conflict _ _ _); [by rewrite with_customers_same|].
    destruct (0 <? _)%Z; [|done]. by destruct (getCustomerById _ _).
  - unfold CustomersRoute.DELETE.
    destruct (user _); [|by rewrite with_customers_same].
    destruct (Js.falsy _); [by rewrite with_customers_same|].
    destruct (_ && _); [by rewrite with_customers_same|]. simpl.
    by destruct (negb _).
Qed.

(** X20. The two routes work on their own table. A customer operation
    gives the same answer and leaves the same customers table
    whatever the employees table holds, and hands the employees table
    on as it got it; so no customer operation asks whether the
    caller, or the owner of a record, is still an employee, and after
    any staff operation (the deletion of the caller's own row
    included) every customer request is answered as it would have
    been before. The same holds for the staff operations with respect
    to the customers table: deleting an employee neither removes nor
    changes a customer. *)
Theorem tables_handled_apart `{Externals}
    (h : Database -> Request -> Database * Response) (db : Database) (req : Request) :
  (h ∈ customer_operations ->
   (forall rows seq,
      h (with_employees rows seq db) req
      = (with_employees rows seq (h db req).1, (h db req).2))
   /\ (forall g r, g ∈ staff_operations ->
         (h (g db r).1 req).2 = (h db req).2
         /\ customers (h (g db r).1 req).1 = customers (h db req).1))
  /\ (h ∈ staff_operations ->
      (forall rows seq,
         h (with_customers rows seq db) req
         = (with_customers rows seq (h db req).1, (h db req).2))
      /\ (forall g r, g ∈ customer_operations ->
            (h (g db r).1 req).2 = (h db req).2
            /\ employees (h (g db r).1 req).1 = employees (h db req).1)).
Proof.
  split; intros Hh.
  - assert (Hap : forall db0 rows seq,
              h (with_employees rows seq db0) req
              = (with_employees rows seq (h db0 req).1, (h db0 req).2)).
    { intros db0 rows seq. unfold customer_operations in Hh.
      repeat (apply elem_of_cons in Hh as [->|Hh]); [..|by apply elem_of_nil in Hh].
      - apply customers_GET_apart.
      - apply customers_POST_apart.
      - apply customers_PUT_apart.
      - apply customers_DELETE_apart. }
    split; [apply Hap|]. intros g r Hg.
    rewrite (staff_operations_keep_customers g db r Hg), Hap. by simpl.
  - assert (Hap : forall db0 rows seq,
              h (with_customers rows seq db0) req
              = (with_customers rows seq (h db0 req).1, (h db0 req).2)).
    { intros db0 rows seq. unfold staff_operations in Hh.
      repeat (apply elem_of_cons in Hh as [->|Hh]); [..|by apply elem_of_nil in Hh].
      - apply employees_GET_apart.
      - apply employees_POST_apart.
      - apply employees_PUT_apart.
      - apply employees_DELETE_apart. }
    split; [apply Hap|]. intros g r Hg.
    rewrite (customer_operations_keep_employees g db r Hg), Hap. by simpl.
Qed.

Lemma tables_handled_apart_witness :
  (@CustomersRoute.GET sample_externals
     (@EmployeesRoute.DELETE sample_externals sample_db
        (request_as "ADMIN001" None (Some "2"))).1
     (request_as "EMP002" None None)).2
  = (@CustomersRoute.GET sample_externals sample_db
       (request_as "EMP002" None None)).2.
Proof.
  refine (proj1 (proj2 (proj1 (@tables_handled_apart sample_externals
            (@CustomersRoute.GET sample_externals) sample_db
            (request_as "EMP002" None None)) _)
          (@EmployeesRoute.DELETE sample_externals)
          (request_as "ADMIN001" None (Some "2")) _)).
  - unfold customer_operations. in_list.
  - unfold staff_operations. in_list.
Defined.

(** ** How the id of a request is read *)

Lemma pretty_leading (x : N) :
  (0 < x)%N ->
  exists a r, pretty_N_go x "" = String a r /\ is_digit a = true /\ a <> "0"%char.
Proof.
  induction (N.lt_wf_0 x) as [x _ IH]. intros Hx.
  rewrite pretty_N_go_snoc by done.
  destruct (N.eq_0_gt_0_cases (x `div` 10)) as [H0|Hpos].
  - rewrite H0, pretty_N_go_0. simpl.
    assert (Hd : (x `mod` 10 < 10)%N) by (by apply N.mod_lt).
    assert (Hnz : (x `mod` 10 <> 0)%N).
    { rewrite (N.div_mod x 10) in Hx by done. lia. }
    exists (pretty_N_char (x `mod` 10)), "". split; [done|].
    split; [apply is_digit_char|].
    destruct (small_digit _ Hd) as [E|[->|[->|[->|[->|[->|[->|[->|[->| ->]]]]]]]]];
      [done|discriminate..].
  - destruct (IH (x `div` 10)%N) as (a & r & -> & Ha & Hz);
      [by apply N.div_lt | done |].
    exists a, (r +:+ String (pretty_N_char (x `mod` 10)) ""). by rewrite str_app_cons.
Qed.

Lemma parseInt_leading (a : ascii) (s : string) :
  is_digit a = true -> a <> "0"%char ->
  Js.parseInt (String a s) = Js.parse_digits 10 (String a s) None.
Proof.
  intros Hd Hz.
  destruct a as [[] [] [] [] [] [] [] []]; try discriminate Hd; try done;
    unfold Js.parseInt; simpl; by destruct (Js.parse_digits _ _ _).
Qed.

Lemma not_digit_value (a : ascii) :
  is_digit a = false -> Js.digit_value 10 a = None.
Proof.
  destruct a as [[] [] [] [] [] [] [] []]; intros Hd; try discriminate Hd; reflexivity.
Qed.

Lemma parse_digits_stop (s : string) (acc : option Z) :
  no_digit_ahead s -> Js.parse_digits 10 s acc = acc.
Proof.
  destruct s as [|a s]; [done|]. simpl. intros Hd. by rewrite not_digit_value.
Qed.

Lemma parseInt_number_then (n : Z) (t : string) :
  0 < n -> no_digit_ahead t ->
  Js.parseInt (Js.toString n +:+ t) = Some n
  /\ Js.falsy_string (Js.toString n +:+ t) = false.
Proof.
  intros Hn Ht. rewrite toString_nonneg by done.
  assert (Hx : (0 < Z.to_N n)%N) by lia.
  destruct (pretty_leading _ Hx) as (a & r & E & Ha & Hz).
  split.
  - pose proof (parse_digits_pretty (Z.to_N n) t None Hx eq_refl) as Hp.
    rewrite E in *. rewrite str_app_cons in *.
    rewrite (parseInt_leading _ _ Ha Hz), Hp, (parse_digits_stop _ _ Ht).
    f_equal. lia.
  - by rewrite E.
Qed.

(** A positive integer below 2^53 sent as a JSON number reads as
    itself. *)
Lemma parseInt_id_number (n : Z) :
  0 < n < 2 ^ 53 -> parseInt_id (IdNumber n) = Some n.
Proof.
  intros Hn. assert (E53 : 2 ^ 53 = 9007199254740992) by reflexivity.
  assert (E21 : 10 ^ 21 = 1000000000000000000000) by reflexivity.
  unfold parseInt_id, Js.to_Number.
  rewrite (proj2 (Z.ltb_lt (Z.abs n) (2 ^ 53))) by lia. simpl.
  unfold Js.parseInt_Number.
  by rewrite (proj2 (Z.ltb_lt (Z.abs n) (10 ^ 21))) by lia.
Qed.

(** X21. The id of an update or a delete is read by [parseInt]: the
    decimal digits of a positive integer below 2^53 (where a Number
    holds every integer exactly), followed by nothing or by any text
    that does not start with a digit, read as that integer. So a
    delete whose id parameter is such a number with such a tail does
    what the delete of that number does, in both routes, and an
    update whose body carries the id as such a text does what the
    update carrying the id as that JSON number does. *)
Theorem id_read_by_parseInt `{Externals} (db : Database)
    (cookieHeader : option string) (n : Z) (t : string) :
  0 < n < 2 ^ 53 -> no_digit_ahead t ->
  Js.parseInt (Js.toString n +:+ t) = Some n
  /\ (forall b,
        EmployeesRoute.DELETE db
          (mkRequest cookieHeader b (Some (Js.toString n +:+ t)))
        = EmployeesRoute.DELETE db (mkRequest cookieHeader b (Some (Js.toString n)))
        /\ CustomersRoute.DELETE db
             (mkRequest cookieHeader b (Some (Js.toString n +:+ t)))
           = CustomersRoute.DELETE db
               (mkRequest cookieHeader b (Some (Js.toString n))))
  /\ (forall body q,
        EmployeesRoute.PUT db
          (mkRequest cookieHeader (Some (with_id (Js.toString n +:+ t) body)) q)
        = EmployeesRoute.PUT db
            (mkRequest cookieHeader (Some (with_id_number n body)) q)
        /\ CustomersRoute.PUT db
             (mkRequest cookieHeader (Some (with_id (Js.toString n +:+ t) body)) q)
           = CustomersRoute.PUT db
               (mkRequest cookieHeader (Some (with_id_number n body)) q)).
Proof.
  intros Hn53 Ht. assert (Hn : 0 < n) by lia.
  destruct (parseInt_number_then n t Hn Ht) as [Hp Hf].
  destruct (parseInt_number_then n "" Hn I) as [Hp0 Hf0].
  rewrite str_app_nil_r in Hp0, Hf0.
  assert (Hz : bool_decide (n = 0) = false) by (apply bool_decide_eq_false_2; lia).
  pose proof (parseInt_id_number n Hn53) as Hpn.
  split; [exact Hp|].
  set (s := Js.toString n +:+ t) in *. set (s0 := Js.toString n) in *.
  clearbody s s0.
  split.
  - intros b. split.
    + unfold EmployeesRoute.DELETE, authenticateRequest. simpl.
      by rewrite Hf, Hf0, Hp, Hp0.
    + unfold CustomersRoute.DELETE, authenticateRequest. simpl.
      by rewrite Hf, Hf0, Hp, Hp0.
  - intros body q. split.
    + unfold EmployeesRoute.PUT, authenticateRequest.
      cbn [json cookie Json.id with_id with_id_number id_falsy Json.firstname
           Json.lastname Json.mobile Json.dateOfBirth Json.email Json.role].
      rewrite Hpn. cbn [parseInt_id]. by rewrite Hf, Hz, Hp.
    + unfold CustomersRoute.PUT, authenticateRequest.
      cbn [json cookie Json.id with_id with_id_number id_falsy Json.firstname
           Json.lastname Json.mobile Json.dateOfBirth Json.email Json.role].
      rewrite Hpn. cbn [parseInt_id]. by rewrite Hf, Hz, Hp.
Qed.

Lemma id_read_by_parseInt_witness :
  @EmployeesRoute.DELETE sample_externals sample_db
     (request_as "ADMIN001" None (Some "2abc"))
  = @EmployeesRoute.DELETE sample_externals sample_db
      (request_as "ADMIN001" None (Some "2")).
Proof.
  refine (proj1 (proj1 (proj2 (@id_read_by_parseInt sample_externals sample_db
            (Some "theme=dark; auth-token=your-secret-key-change-in-production/ADMIN001")
            2 "abc" _ _)) None)).
  - split; [lia | reflexivity].
  - reflexivity.
Defined.
